(** * OpenObserve logs and tracing adapters: query compilation, execution
      and result reconstruction

    A shallow embedding of the Go packages
    [observability-logs-openobserve/internal/openobserve],
    [observability-tracing-openobserve/internal/openobserve] and of the logs
    request handler, together with the properties of the escaping
    primitives, the query builders, the search client, the trace grouping
    pass and the alert lookup.

    Go strings are byte sequences: they are [string] here (a list of
    [ascii], one per byte).  Go's [int] and [int64] are [Z], wrapped to 64
    bits where the source can overflow. *)

From Stdlib Require Import String Ascii ZArith List Lia Bool.
From stdpp Require Import gmap strings list pretty.

Local Open Scope Z_scope.

(** ** The Go standard library, as far as the packages use it *)

Module Go.

(** The double quote character and the one-byte string holding it. *)
Definition dquoteChar : ascii := ascii_of_nat 34.
Definition dquote : string := String dquoteChar EmptyString.

(** [strings.ReplaceAll(s, old, new)] for a non-empty [old]: the
    occurrences of [old] are found left to right and do not overlap.
    [skip] counts the bytes of a matched occurrence still to be dropped.
    (Every call site passes a one-byte [old].) *)
Fixpoint replaceFrom (skip : nat) (old new s : string) : string :=
  match s with
  | EmptyString => EmptyString
  | String c s' =>
      match skip with
      | S k => replaceFrom k old new s'
      | O =>
          if String.prefix old s
          then new +:+ replaceFrom (String.length old - 1) old new s'
          else String c (replaceFrom 0 old new s')
      end
  end.

Definition ReplaceAll (s old new : string) : string := replaceFrom 0 old new s.

(** [strings.Join(elems, sep)]. *)
Fixpoint Join (elems : list string) (sep : string) : string :=
  match elems with
  | [] => EmptyString
  | [e] => e
  | e :: rest => e +:+ sep +:+ Join rest sep
  end.

(** [strings.TrimSuffix(s, suffix)]. *)
Definition TrimSuffix (s suffix : string) : string :=
  let n := String.length s in
  let k := String.length suffix in
  if (k <=? n)%nat && String.eqb (substring (n - k) k s) suffix
  then substring 0 (n - k) s
  else s.

(** [strings.HasPrefix(s, prefix)]. *)
Definition HasPrefix (s prefix : string) : bool := String.prefix prefix s.

(** [strings.TrimSpace]: the white space of [unicode.IsSpace] is removed
    at both ends.  In UTF-8 these are the six ASCII bytes 09..0D and 20,
    the two-byte U+0085 and U+00A0, and the three-byte U+1680,
    U+2000..U+200A, U+2028, U+2029, U+202F, U+205F and U+3000; a byte
    sequence that is not valid UTF-8 decodes to U+FFFD, which is no white
    space. *)
Definition asciiSpace (c : ascii) : bool :=
  let n := nat_of_ascii c in
  ((9 <=? n) && (n <=? 13) || (n =? 32))%nat.

Definition space2 (a b : ascii) : bool :=
  let a := nat_of_ascii a in
  let b := nat_of_ascii b in
  ((a =? 194) && ((b =? 133) || (b =? 160)))%nat.

Definition space3 (a b c : ascii) : bool :=
  let a := nat_of_ascii a in
  let b := nat_of_ascii b in
  let c := nat_of_ascii c in
  ((a =? 225) && (b =? 154) && (c =? 128)
   || (a =? 226) && (b =? 128) &&
      ((128 <=? c) && (c <=? 138) || (c =? 168) || (c =? 169) || (c =? 175))
   || (a =? 226) && (b =? 129) && (c =? 159)
   || (a =? 227) && (b =? 128) && (c =? 128))%nat.

Fixpoint trimLeftSpace (s : string) : string :=
  match s with
  | EmptyString => EmptyString
  | String a s1 =>
      if asciiSpace a then trimLeftSpace s1
      else
        match s1 with
        | EmptyString => s
        | String b s2 =>
            if space2 a b then trimLeftSpace s2
            else
              match s2 with
              | EmptyString => s
              | String c s3 => if space3 a b c then trimLeftSpace s3 else s
              end
        end
  end.

(** The same scan on the reversed bytes: the last rune of the text comes
    first, its bytes in reverse order. *)
Fixpoint trimLeftSpaceRev (s : string) : string :=
  match s with
  | EmptyString => EmptyString
  | String c s1 =>
      if asciiSpace c then trimLeftSpaceRev s1
      else
        match s1 with
        | EmptyString => s
        | String b s2 =>
            if space2 b c then trimLeftSpaceRev s2
            else
              match s2 with
              | EmptyString => s
              | String a s3 => if space3 a b c then trimLeftSpaceRev s3 else s
              end
        end
  end.

Definition reverse (s : string) : string :=
  string_of_list_ascii (rev (list_ascii_of_string s)).

Definition trimRightSpace (s : string) : string :=
  reverse (trimLeftSpaceRev (reverse s)).

Definition TrimSpace (s : string) : string := trimRightSpace (trimLeftSpace s).

(** Two's complement wrap-around of a 64-bit signed integer. *)
Definition minInt64 : Z := - 2 ^ 63.
Definition maxInt64 : Z := 2 ^ 63 - 1.
Definition wrap64 (z : Z) : Z := (z + 2 ^ 63) mod 2 ^ 64 - 2 ^ 63.

(** The verb [%d] of [fmt] on an integer. *)
Definition fmt_d (n : Z) : string := pretty n.

(** [strconv.ParseInt(s, 10, 64)]: an optional sign, then decimal digits.
    The value comes with the kind of error; a syntax error gives 0 and a
    range error the nearest bound. *)
Inductive ParseError : Type := NoError | ErrSyntax | ErrRange.

Definition digitOf (c : ascii) : option Z :=
  let n := Z.of_nat (nat_of_ascii c) in
  if (48 <=? n) && (n <=? 57) then Some (n - 48) else None.

Definition maxUint64 : Z := 2 ^ 64 - 1.

Fixpoint parseUintFrom (acc : Z) (s : string) : Z * ParseError :=
  match s with
  | EmptyString => (acc, NoError)
  | String c s' =>
      match digitOf c with
      | None => (0, ErrSyntax)
      | Some d =>
          if acc * 10 + d >? maxUint64 then (maxUint64, ErrRange)
          else parseUintFrom (acc * 10 + d) s'
      end
  end.

Definition ParseUint (s : string) : Z * ParseError :=
  match s with
  | EmptyString => (0, ErrSyntax)
  | _ => parseUintFrom 0 s
  end.

Definition ParseInt (s : string) : Z * ParseError :=
  match s with
  | EmptyString => (0, ErrSyntax)
  | String c s' =>
      let neg := Ascii.eqb c "-"%char in
      let digits := if Ascii.eqb c "+"%char || neg then s' else s in
      match ParseUint digits with
      | (_, ErrSyntax) => (0, ErrSyntax)
      | (un, _) =>
          let cutoff := 2 ^ 63 in
          if negb neg && (un >=? cutoff) then (cutoff - 1, ErrRange)
          else if neg && (un >? cutoff) then (- cutoff, ErrRange)
          else (if neg then - un else un, NoError)
      end
  end.

(** [time.Time], as the instant it denotes: seconds since the Unix epoch
    and nanoseconds within the second. *)
Record Time : Type := mkTime { unixSec : Z; nsec : Z }.

(** [time.Unix(sec, nsec)]; Go's integer division truncates. *)
Definition Unix (sec nsec : Z) : Time :=
  if (nsec <? 0) || (nsec >=? 10 ^ 9) then
    let n := Z.quot nsec (10 ^ 9) in
    let sec := wrap64 (sec + n) in
    let nsec := nsec - n * 10 ^ 9 in
    if nsec <? 0 then mkTime (wrap64 (sec - 1)) (nsec + 10 ^ 9)
    else mkTime sec nsec
  else mkTime sec nsec.

(** [t.UnixMicro()] and [t.UnixNano()], in [int64] arithmetic. *)
Definition UnixMicro (t : Time) : Z :=
  wrap64 (wrap64 (unixSec t * 10 ^ 6) + Z.quot (nsec t) (10 ^ 3)).
Definition UnixNano (t : Time) : Z :=
  wrap64 (wrap64 (unixSec t * 10 ^ 9) + nsec t).

(** [time.UnixMicro(usec)] and the zero [time.Time] (year 1). *)
Definition TimeOfUnixMicro (usec : Z) : Time :=
  Unix (Z.quot usec (10 ^ 6)) (Z.rem usec (10 ^ 6) * 10 ^ 3).
Definition zeroTime : Time := mkTime (-62135596800) 0.

(** A [float32] is only carried around: it is the 32 bits that encode it. *)
Inductive float32 : Type := Float32frombits (bits : Z).

(** What [json.Marshal] does with a [float32]: a NaN or an infinity is an
    unsupported value, whose error names it as [strconv.FormatFloat]
    prints it.  The exponent is the bits 23 to 30, the sign the bit 31. *)
Definition float32Unsupported (f : float32) : option string :=
  match f with
  | Float32frombits bits =>
      if Z.land (Z.shiftr bits 23) 255 =? 255 then
        if negb (Z.land bits (2 ^ 23 - 1) =? 0) then Some "NaN"
        else if Z.testbit bits 31 then Some "-Inf" else Some "+Inf"
      else None
  end.

End Go.

(** A Go result pair [(value, error)]: the value, or the message of the
    error. *)
Inductive result (A : Type) : Type :=
| Ok (a : A)
| Err (msg : string).
Arguments Ok {A} a.
Arguments Err {A} msg.

(** ** Escaping and quoting primitives (shared by both packages) *)

(** [quoteIdentifier] wraps a SQL identifier in double quotes and doubles
    the double quotes inside it. *)
Definition quoteIdentifier (identifier : string) : string :=
  Go.dquote +:+ Go.ReplaceAll identifier Go.dquote (Go.dquote +:+ Go.dquote) +:+ Go.dquote.

(** [escapeSQLString]: backslashes are doubled first, single quotes
    second. *)
Definition escapeSQLString (value : string) : string :=
  let value := Go.ReplaceAll value "\" "\\" in
  let value := Go.ReplaceAll value "'" "''" in
  value.

(** *** Reading a single-quoted literal back

    The reference reader of a single-quoted SQL literal, used to state
    that escaping loses nothing: after the opening quote, a backslash
    makes the next byte literal, two single quotes stand for one, and a
    single quote that is not doubled closes the literal.  The result is
    the denoted string and the text that follows the closing quote;
    [None] when the literal is not closed. *)
Fixpoint unescapeBody (s : string) : option (string * string) :=
  match s with
  | EmptyString => None
  | String c s' =>
      if Ascii.eqb c "\"%char then
        match s' with
        | EmptyString => None
        | String d s'' =>
            match unescapeBody s'' with
            | Some (v, rest) => Some (String d v, rest)
            | None => None
            end
        end
      else if Ascii.eqb c "'"%char then
        match s' with
        | String d s'' =>
            if Ascii.eqb d "'"%char then
              match unescapeBody s'' with
              | Some (v, rest) => Some (String "'"%char v, rest)
              | None => None
              end
            else Some (EmptyString, s')
        | EmptyString => Some (EmptyString, EmptyString)
        end
      else
        match unescapeBody s' with
        | Some (v, rest) => Some (String c v, rest)
        | None => None
        end
  end.

Definition unescapeLiteral (s : string) : option (string * string) :=
  match s with
  | String c s' => if Ascii.eqb c "'"%char then unescapeBody s' else None
  | EmptyString => None
  end.

(** *** Reading a double-quoted identifier back

    The reference reader of a double-quoted SQL identifier: after the
    opening quote, two double quotes stand for one and a double quote that
    is not doubled closes the identifier.  The result is the denoted
    identifier and the text that follows the closing quote. *)
Fixpoint unquoteBody (s : string) : option (string * string) :=
  match s with
  | EmptyString => None
  | String c s' =>
      if Ascii.eqb c Go.dquoteChar then
        match s' with
        | String d s'' =>
            if Ascii.eqb d Go.dquoteChar then
              match unquoteBody s'' with
              | Some (v, rest) => Some (String Go.dquoteChar v, rest)
              | None => None
              end
            else Some (EmptyString, s')
        | EmptyString => Some (EmptyString, EmptyString)
        end
      else
        match unquoteBody s' with
        | Some (v, rest) => Some (String c v, rest)
        | None => None
        end
  end.

Definition unquoteIdentifier (s : string) : option (string * string) :=
  match s with
  | String c s' => if Ascii.eqb c Go.dquoteChar then unquoteBody s' else None
  | EmptyString => None
  end.

(** What each byte of an identifier becomes between the quotes. *)
Definition quoteByte (c : ascii) : string :=
  if Ascii.eqb c Go.dquoteChar then Go.dquote +:+ Go.dquote
  else String c EmptyString.

(** The byte-wise reading of the two primitives: what each byte of the
    input becomes. *)
Definition escapeByte (c : ascii) : string :=
  if Ascii.eqb c "\"%char then "\\"
  else if Ascii.eqb c "'"%char then "''"
  else String c EmptyString.

Fixpoint flatMapBytes (f : ascii -> string) (s : string) : string :=
  match s with
  | EmptyString => EmptyString
  | String c s' => f c +:+ flatMapBytes f s'
  end.

(** Number of bytes of [s] equal to [c]. *)
Fixpoint countByte (c : ascii) (s : string) : nat :=
  match s with
  | EmptyString => 0%nat
  | String d s' => ((if Ascii.eqb d c then 1 else 0) + countByte c s')%nat
  end.

(** ** The search request document

    What the query generators marshal to JSON: the object under the key
    [query], and the top-level [timeout] (absent from the traces list
    query).  The JSON text is represented by the document it encodes;
    marshalling a map of strings and integers cannot fail.  The dump of
    the document to standard output, made when the logger is at debug
    level, has no part in the result and is left out. *)
Record SearchQuery : Type := mkSearchQuery {
  q_sql : string;
  q_start_time : Z;
  q_end_time : Z;
  q_from : Z;
  q_size : Z;
  q_timeout : option Z
}.

(** The alert document marshalled by [generateAlertConfig]. *)
Record AlertCondition : Type := mkAlertCondition {
  ac_column : string;
  ac_operator : string;
  ac_value : Go.float32
}.

Record AlertConfig : Type := mkAlertConfig {
  a_name : string;
  a_stream_name : string;
  a_query : string;
  a_condition : AlertCondition;
  a_duration : string;
  a_frequency : string;
  a_is_realtime : string;
  a_destinations : list string;
  a_alert_type : string
}.

(** ** Requests, responses and the events of a call

    The client talks to the backend through [net/http] and writes to a
    structured logger.  A request is what [http.NewRequestWithContext]
    and the header calls build. *)
Inductive Body : Type :=
| NoBody
| QueryBody (q : SearchQuery)
| AlertBody (a : AlertConfig).

Record Request : Type := mkRequest {
  r_method : string;
  r_url : string;
  r_contentType : option string;
  r_basicAuth : string * string;
  r_body : Body
}.

(** What the HTTP stack does with one request: building the request
    fails, [Do] fails, reading the body fails, or a response with a status
    code and a body comes back. *)
Inductive RoundTrip : Type :=
| NewRequestFails (err : string)
| DoFails (err : string)
| ReadAllFails (status : Z) (err : string)
| Response (status : Z) (body : string).

Definition Transport : Type := Request -> RoundTrip.

(** The observable events of a call: a record written with
    [logger.Error] (message and attributes) and a request handed to
    [httpClient.Do]. *)
Inductive Event : Type :=
| LogError (msg : string) (attrs : list (string * string))
| HttpDo (req : Request).

(** A computation that emits events and returns a value. *)
Definition IO (A : Type) : Type := list Event * A.

Definition ret {A : Type} (a : A) : IO A := ([], a).

Definition bind {A B : Type} (m : IO A) (k : A -> IO B) : IO B :=
  let (ev1, a) := m in
  let (ev2, b) := k a in
  (ev1 ++ ev2, b).

Definition emit (e : Event) : IO unit := ([e], tt).

Declare Scope io_scope.
Delimit Scope io_scope with io.
Notation "x <- m ;; k" := (bind m (fun x => k))
  (at level 90, m at level 70, right associativity) : io_scope.
Notation "m ;;; k" := (bind m (fun _ => k))
  (at level 90, right associativity) : io_scope.

Definition events {A : Type} (m : IO A) : list Event := fst m.
Definition value {A : Type} (m : IO A) : A := snd m.

(** The requests handed to the HTTP client, in order. *)
Definition requestsOf (evs : list Event) : list Request :=
  omap (fun e => match e with HttpDo r => Some r | LogError _ _ => None end) evs.

(** ** Decoded JSON

    A value held in a [map[string]interface{}] after decoding.  A number
    is kept as its JSON literal: after [UseNumber] that literal is the
    [json.Number] itself; by default the value is the [float64] read from
    it, which the literal stands for. *)
Local Unset Elimination Schemes.
Inductive JValue : Type :=
| JNull
| JBool (b : bool)
| JNumber (lit : string)
| JString (s : string)
| JArray (items : list JValue)
| JObject (fields : list (string * JValue)).
Local Set Elimination Schemes.

(** A search hit: column name to value. *)
Abbreviation Hit := (gmap string JValue).

(** The type assertion [v.(string)] on the result of a map lookup. *)
Definition asString (v : option JValue) : option string :=
  match v with
  | Some (JString s) => Some s
  | _ => None
  end.

(** The type assertion to the number type. *)
Definition asNumber (v : option JValue) : option string :=
  match v with
  | Some (JNumber lit) => Some lit
  | _ => None
  end.

(** [s, _ := v.(string)]: the zero value when the assertion fails. *)
Definition stringOrZero (v : option JValue) : string :=
  match asString v with
  | Some s => s
  | None => EmptyString
  end.

(** The envelope of a search response. *)
Record OpenObserveResponse : Type := mkOpenObserveResponse {
  Took : Z;
  Hits : list Hit;
  Total : Z
}.

Definition isEmpty (s : string) : bool := String.eqb s EmptyString.

(** ** Package openobserve of the logs module *)

Module Logs.

(** [ComponentLogsParams], [WorkflowLogsParams] and [LogAlertParams].
    Field names carry a prefix where the structs of a package share
    them. *)
Record ComponentLogsParams : Type := mkComponentLogsParams {
  cl_Namespace : string;
  cl_ComponentIDs : list string;
  cl_EnvironmentID : string;
  cl_ProjectID : string;
  cl_StartTime : Go.Time;
  cl_EndTime : Go.Time;
  cl_SearchPhrase : string;
  cl_LogLevels : list string;
  cl_Limit : Z;
  cl_SortOrder : string
}.

Record WorkflowLogsParams : Type := mkWorkflowLogsParams {
  wl_Namespace : string;
  wl_WorkflowRunName : string;
  wl_StartTime : Go.Time;
  wl_EndTime : Go.Time;
  wl_SearchPhrase : string;
  wl_LogLevels : list string;
  wl_Limit : Z;
  wl_SortOrder : string
}.

Record LogAlertParams : Type := mkLogAlertParams {
  la_Name : option string;
  la_Namespace : string;
  la_ProjectUID : string;
  la_EnvironmentUID : string;
  la_ComponentUID : string;
  la_SearchPattern : string;
  la_Operator : string;
  la_ThresholdValue : Go.float32;
  la_Window : string;
  la_Interval : string
}.

(** [mapOperator]; the error message of the default case quotes [op] with
    the verb [%q], whose rendering is the parameter [quote]. *)
Definition mapOperator (quote : string -> string) (op : string) : result string :=
  if String.eqb op "gt" then Ok ">"
  else if String.eqb op "gte" then Ok ">="
  else if String.eqb op "lt" then Ok "<"
  else if String.eqb op "lte" then Ok "<="
  else if String.eqb op "eq" then Ok "="
  else if String.eqb op "neq" then Ok "!="
  else Err ("unsupported operator " +:+ quote op +:+
            ": must be one of gt, gte, lt, lte, eq, neq").

(** The SQL text built at the head of [generateAlertConfig]. *)
Definition alertQuery (params : LogAlertParams) (streamName : string) : string :=
  "SELECT count(*) as " +:+ "match_count" +:+ " FROM " +:+ quoteIdentifier streamName +:+
  " WHERE str_match(log, '" +:+ escapeSQLString (la_SearchPattern params) +:+ "')".

(** [json.Marshal] of the alert document.  The JSON text is represented
    by the document it encodes; the encoder fails on one kind of value
    only, a threshold that is a NaN or an infinity. *)
Definition jsonMarshalAlertConfig (alertConfig : AlertConfig) : result AlertConfig :=
  match Go.float32Unsupported (ac_value (a_condition alertConfig)) with
  | Some str => Err ("json: unsupported value: " +:+ str)
  | None => Ok alertConfig
  end.

Definition generateAlertConfig (quote : string -> string)
    (params : LogAlertParams) (streamName : string) : result AlertConfig :=
  let query := alertQuery params streamName in
  match mapOperator quote (la_Operator params) with
  | Err msg => Err ("invalid alert operator: " +:+ msg)
  | Ok sqlOperator =>
      let alertName := match la_Name params with Some n => n | None => EmptyString end in
      let alertConfig :=
        {| a_name := alertName;
           a_stream_name := streamName;
           a_query := query;
           a_condition := {| ac_column := "match_count";
                             ac_operator := sqlOperator;
                             ac_value := la_ThresholdValue params |};
           a_duration := la_Window params;
           a_frequency := la_Interval params;
           a_is_realtime := "no";
           a_destinations := ["openchoreo_alerts"];
           a_alert_type := "scheduled" |} in
      jsonMarshalAlertConfig alertConfig
  end.

(** The [logLevel] group shared by both log queries. *)
Definition levelConditions (levels : list string) : list string :=
  map (fun level => "logLevel = '" +:+ escapeSQLString level +:+ "'") levels.

(** The whitelisted order clause of the log queries. *)
Definition orderClause (sortOrder : string) : string :=
  if String.eqb sortOrder "ASC" || String.eqb sortOrder "asc"
  then " ORDER BY _timestamp ASC"
  else " ORDER BY _timestamp DESC".

(** The default of the limit. *)
Definition effectiveLimit (limit : Z) : Z := if limit <=? 0 then 100 else limit.

(** [SELECT * FROM stream], then the conditions, when there are any. *)
Definition selectWhere (stream : string) (conditions : list string) : string :=
  let sql := "SELECT * FROM " +:+ quoteIdentifier stream in
  match conditions with
  | [] => sql
  | _ => sql +:+ " WHERE " +:+ Go.Join conditions " AND "
  end.

(** The conditions of [generateWorkflowLogsQuery], in the order they are
    appended. *)
Definition workflowConditions (params : WorkflowLogsParams) : list string :=
  (if isEmpty (wl_Namespace params) then []
   else ["kubernetes_namespace_name = 'openchoreo-ci-" +:+
         escapeSQLString (wl_Namespace params) +:+ "'"]) ++
  (if isEmpty (wl_WorkflowRunName params) then []
   else ["kubernetes_labels_workflows_argoproj_io_workflow = '" +:+
         escapeSQLString (wl_WorkflowRunName params) +:+ "'"]) ++
  (if isEmpty (wl_SearchPhrase params) then []
   else ["log LIKE '%" +:+ escapeSQLString (wl_SearchPhrase params) +:+ "%'"]) ++
  (match wl_LogLevels params with
   | [] => []
   | levels => ["(" +:+ Go.Join (levelConditions levels) " OR " +:+ ")"]
   end).

Definition workflowLogsSQL (params : WorkflowLogsParams) (stream : string) : string :=
  selectWhere stream (workflowConditions params) +:+ orderClause (wl_SortOrder params).

Definition generateWorkflowLogsQuery (params : WorkflowLogsParams) (stream : string)
  : result SearchQuery :=
  Ok {| q_sql := workflowLogsSQL params stream;
        q_start_time := Go.UnixMicro (wl_StartTime params);
        q_end_time := Go.UnixMicro (wl_EndTime params);
        q_from := 0;
        q_size := effectiveLimit (wl_Limit params);
        q_timeout := Some 0 |}.

(** The conditions of [generateComponentLogsQuery]. *)
Definition componentConditions (params : ComponentLogsParams) : list string :=
  ["kubernetes_labels_openchoreo_dev_namespace = '" +:+
   escapeSQLString (cl_Namespace params) +:+ "'"] ++
  (if isEmpty (cl_ProjectID params) then []
   else ["kubernetes_labels_openchoreo_dev_project_uid = '" +:+
         escapeSQLString (cl_ProjectID params) +:+ "'"]) ++
  (if isEmpty (cl_EnvironmentID params) then []
   else ["kubernetes_labels_openchoreo_dev_environment_uid = '" +:+
         escapeSQLString (cl_EnvironmentID params) +:+ "'"]) ++
  (match cl_ComponentIDs params with
   | [] => []
   | ids => ["(" +:+ Go.Join
               (map (fun id => "kubernetes_labels_openchoreo_dev_component_uid = '" +:+
                               escapeSQLString id +:+ "'") ids) " OR " +:+ ")"]
   end) ++
  (if isEmpty (cl_SearchPhrase params) then []
   else ["log LIKE '%" +:+ escapeSQLString (cl_SearchPhrase params) +:+ "%'"]) ++
  (match cl_LogLevels params with
   | [] => []
   | levels => ["(" +:+ Go.Join (levelConditions levels) " OR " +:+ ")"]
   end).

Definition componentLogsSQL (params : ComponentLogsParams) (stream : string) : string :=
  selectWhere stream (componentConditions params) +:+ orderClause (cl_SortOrder params).

Definition generateComponentLogsQuery (params : ComponentLogsParams) (stream : string)
  : result SearchQuery :=
  if isEmpty (cl_Namespace params)
  then Err "namespace is required for component log queries"
  else
    Ok {| q_sql := componentLogsSQL params stream;
          q_start_time := Go.UnixMicro (cl_StartTime params);
          q_end_time := Go.UnixMicro (cl_EndTime params);
          q_from := 0;
          q_size := effectiveLimit (cl_Limit params);
          q_timeout := Some 0 |}.

(** *** The client *)

Record Client : Type := mkClient {
  baseURL : string;
  org : string;
  stream : string;
  user : string;
  token : string
}.

Definition NewClient (baseURL org stream user token : string) : Client :=
  {| baseURL := Go.TrimSuffix baseURL "/";
     org := org; stream := stream; user := user; token := token |}.

Record ComponentLogsEntry : Type := mkComponentLogsEntry {
  e_Timestamp : Go.Time;
  e_Log : string;
  e_LogLevel : string;
  e_ComponentUID : string;
  e_ComponentName : string;
  e_EnvironmentUID : string;
  e_EnvironmentName : string;
  e_ProjectUID : string;
  e_ProjectName : string;
  e_Namespace : string;
  e_PodName : string;
  e_PodNamespace : string;
  e_ContainerName : string
}.

Record ComponentLogsResult : Type := mkComponentLogsResult {
  cr_Logs : list ComponentLogsEntry;
  cr_TotalCount : Z;
  cr_Took : Z
}.

Record WorkflowLogsEntry : Type := mkWorkflowLogsEntry {
  w_Timestamp : Go.Time;
  w_Log : string;
  w_Metadata : Hit
}.

Record WorkflowLogsResult : Type := mkWorkflowLogsResult {
  wr_Logs : list WorkflowLogsEntry;
  wr_TotalCount : Z;
  wr_Took : Z
}.

(** An element of the [list] of the alerts listing. *)
Record AlertListItem : Type := mkAlertListItem {
  AlertID : string;
  Name : string
}.

Section Client.

(** The surroundings of the client: the HTTP stack, [json.Unmarshal] at
    the two types it is used at, the conversion [int64(f)] of a decoded
    [float64] (given by its literal), and the verb [%q]. *)
Variable transport : Transport.
Variable jsonUnmarshalResponse : string -> result OpenObserveResponse.
Variable jsonUnmarshalAlertList : string -> result (list AlertListItem).
Variable int64OfFloat64 : string -> Z.
Variable quote : string -> string.

Local Open Scope io_scope.

(** The request built at the head of [executeSearchQuery]. *)
Definition searchRequest (c : Client) (queryJSON : SearchQuery) : Request :=
  let url := baseURL c +:+ "/api/" +:+ org c +:+ "/_search" in
  {| r_method := "POST"; r_url := url;
     r_contentType := Some "application/json";
     r_basicAuth := (user c, token c);
     r_body := QueryBody queryJSON |}.

(** [executeSearchQuery] of the logs client. *)
Definition executeSearchQuery (c : Client) (queryJSON : SearchQuery)
  : IO (result OpenObserveResponse) :=
  let req := searchRequest c queryJSON in
  match transport req with
  | NewRequestFails err =>
      emit (LogError "Failed to create request" [("error", err)]) ;;;
      ret (Err ("failed to create request: " +:+ err))
  | DoFails err =>
      emit (HttpDo req) ;;;
      emit (LogError "Failed to execute search request against OpenObserve"
                     [("error", err)]) ;;;
      ret (Err ("failed to execute request: " +:+ err))
  | ReadAllFails _ err =>
      emit (HttpDo req) ;;;
      emit (LogError "Failed to read response body returned by OpenObserve"
                     [("error", err)]) ;;;
      ret (Err ("failed to read response body: " +:+ err))
  | Response status body =>
      emit (HttpDo req) ;;;
      if negb (status =? 200) then
        emit (LogError "OpenObserve returned error"
                       [("statusCode", Go.fmt_d status); ("body", body)]) ;;;
        ret (Err ("openobserve returned status " +:+ Go.fmt_d status +:+ ": " +:+ body))
      else
        match jsonUnmarshalResponse body with
        | Err err =>
            emit (LogError "Failed to unmarshal response from OpenObserve"
                           [("error", err)]) ;;;
            ret (Err ("failed to unmarshal response: " +:+ err))
        | Ok openObserveResp => ret (Ok openObserveResp)
        end
  end.

(** The [_timestamp] of a hit, when it is a number. *)
Definition hitTimestamp (hit : Hit) : Z :=
  match asNumber (hit !! "_timestamp") with
  | Some ts => int64OfFloat64 ts
  | None => 0
  end.

(** [field v ok := source[key].(string)]: the field keeps its zero value
    unless the assertion holds. *)
Definition stringField (source : Hit) (key : string) : string :=
  stringOrZero (source !! key).

Definition parseApplicationLogEntry (timestamp : Z) (source : Hit) : ComponentLogsEntry :=
  {| e_Timestamp := Go.TimeOfUnixMicro timestamp;
     e_Log := stringField source "log";
     e_LogLevel := stringField source "logLevel";
     e_ComponentUID := stringField source "kubernetes_labels_openchoreo_dev_component_uid";
     e_ComponentName := stringField source "kubernetes_labels_openchoreo_dev_component_name";
     e_EnvironmentUID := stringField source "kubernetes_labels_openchoreo_dev_environment_uid";
     e_EnvironmentName := stringField source "kubernetes_labels_openchoreo_dev_environment_name";
     e_ProjectUID := stringField source "kubernetes_labels_openchoreo_dev_project_uid";
     e_ProjectName := stringField source "kubernetes_labels_openchoreo_dev_project_name";
     e_Namespace := stringField source "kubernetes_labels_openchoreo_dev_namespace";
     e_PodName := stringField source "kubernetes_pod_name";
     e_PodNamespace := stringField source "kubernetes_pod_namespace";
     e_ContainerName := stringField source "kubernetes_container_name" |}.

Definition parseWorkflowLogEntry (timestamp : Z) (source : Hit) : WorkflowLogsEntry :=
  {| w_Timestamp := Go.TimeOfUnixMicro timestamp;
     w_Log := stringField source "log";
     w_Metadata :=
       filter (fun kv => negb (String.eqb (fst kv) "log" || String.eqb (fst kv) "_timestamp")
                         = true) source |}.

Definition GetComponentLogs (c : Client) (params : ComponentLogsParams)
  : IO (result ComponentLogsResult) :=
  match generateComponentLogsQuery params (stream c) with
  | Err err =>
      emit (LogError "Failed to marshal query" [("error", err)]) ;;;
      ret (Err ("failed to marshal query: " +:+ err))
  | Ok queryJSON =>
      r <- executeSearchQuery c queryJSON ;;
      match r with
      | Err err => ret (Err err)
      | Ok openObserveResp =>
          ret (Ok {| cr_Logs := map (fun hit => parseApplicationLogEntry (hitTimestamp hit) hit)
                                    (Hits openObserveResp);
                     cr_TotalCount := Total openObserveResp;
                     cr_Took := Took openObserveResp |})
      end
  end.

Definition GetWorkflowLogs (c : Client) (params : WorkflowLogsParams)
  : IO (result WorkflowLogsResult) :=
  match generateWorkflowLogsQuery params (stream c) with
  | Err err =>
      emit (LogError "Failed to marshal query" [("error", err)]) ;;;
      ret (Err ("failed to marshal query: " +:+ err))
  | Ok queryJSON =>
      r <- executeSearchQuery c queryJSON ;;
      match r with
      | Err err => ret (Err err)
      | Ok openObserveResp =>
          ret (Ok {| wr_Logs := map (fun hit => parseWorkflowLogEntry (hitTimestamp hit) hit)
                                    (Hits openObserveResp);
                     wr_TotalCount := Total openObserveResp;
                     wr_Took := Took openObserveResp |})
      end
  end.

(** The loop of [getAlertIDByName]: the first entry with the name. *)
Fixpoint findAlertID (list : list AlertListItem) (name : string) : option string :=
  match list with
  | [] => None
  | alert :: rest =>
      if String.eqb (Name alert) name then Some (AlertID alert)
      else findAlertID rest name
  end.

(** The request of the alerts listing. *)
Definition alertsListRequest (c : Client) : Request :=
  let url := baseURL c +:+ "/api/v2/" +:+ org c +:+ "/alerts" in
  {| r_method := "GET"; r_url := url; r_contentType := None;
     r_basicAuth := (user c, token c); r_body := NoBody |}.

Definition getAlertIDByName (c : Client) (name : string) : IO (result string) :=
  let req := alertsListRequest c in
  match transport req with
  | NewRequestFails err => ret (Err ("failed to create request: " +:+ err))
  | DoFails err =>
      emit (HttpDo req) ;;; ret (Err ("failed to execute request: " +:+ err))
  | ReadAllFails _ err =>
      emit (HttpDo req) ;;; ret (Err ("failed to read response body: " +:+ err))
  | Response status body =>
      emit (HttpDo req) ;;;
      if negb (status =? 200) then
        ret (Err ("openobserve returned status " +:+ Go.fmt_d status +:+ ": " +:+ body))
      else
        match jsonUnmarshalAlertList body with
        | Err err => ret (Err ("failed to unmarshal response: " +:+ err))
        | Ok list =>
            match findAlertID list name with
            | Some id => ret (Ok id)
            | None => ret (Err ("alert " +:+ quote name +:+ " not found"))
            end
        end
  end.

(** The request built by [CreateAlert]. *)
Definition alertsCreateRequest (c : Client) (alertJSON : AlertConfig) : Request :=
  let url := baseURL c +:+ "/api/v2/" +:+ org c +:+ "/alerts" in
  {| r_method := "POST"; r_url := url;
     r_contentType := Some "application/json";
     r_basicAuth := (user c, token c);
     r_body := AlertBody alertJSON |}.

(** [json.Unmarshal] into the struct with the single field [alert_id]:
    the field, or the error. *)
Variable jsonUnmarshalCreateResponse : string -> result string.

(** [CreateAlert]. *)
Definition CreateAlert (c : Client) (params : LogAlertParams) : IO (result string) :=
  match generateAlertConfig quote params (stream c) with
  | Err err =>
      emit (LogError "Failed to generate alert config" [("error", err)]) ;;;
      ret (Err ("failed to generate alert config: " +:+ err))
  | Ok alertJSON =>
      let req := alertsCreateRequest c alertJSON in
      match transport req with
      | NewRequestFails err =>
          emit (LogError "Failed to create request" [("error", err)]) ;;;
          ret (Err ("failed to create request: " +:+ err))
      | DoFails err =>
          emit (HttpDo req) ;;;
          emit (LogError "Failed to execute alert creation request" [("error", err)]) ;;;
          ret (Err ("failed to execute request: " +:+ err))
      | ReadAllFails _ err =>
          emit (HttpDo req) ;;;
          emit (LogError "Failed to read response body" [("error", err)]) ;;;
          ret (Err ("failed to read response body: " +:+ err))
      | Response status body =>
          emit (HttpDo req) ;;;
          if negb (status =? 200) && negb (status =? 201) then
            emit (LogError "OpenObserve returned error"
                           [("statusCode", Go.fmt_d status); ("body", body)]) ;;;
            ret (Err ("openobserve returned status " +:+ Go.fmt_d status +:+ ": " +:+ body))
          else
            match jsonUnmarshalCreateResponse body with
            | Ok alertID => if negb (isEmpty alertID) then ret (Ok alertID)
                            else ret (Ok EmptyString)
            | Err _ => ret (Ok EmptyString)
            end
      end
  end.

(** The request of the deletion of an alert by ID. *)
Definition alertDeleteRequest (c : Client) (alertID : string) : Request :=
  let url := baseURL c +:+ "/api/v2/" +:+ org c +:+ "/alerts/" +:+ alertID in
  {| r_method := "DELETE"; r_url := url; r_contentType := None;
     r_basicAuth := (user c, token c); r_body := NoBody |}.

(** [DeleteAlert]: the ID is looked up by name, then the alert is deleted
    by ID. *)
Definition DeleteAlert (c : Client) (alertName : string) : IO (result string) :=
  r <- getAlertIDByName c alertName ;;
  match r with
  | Err err => ret (Err ("failed to find alert " +:+ quote alertName +:+ ": " +:+ err))
  | Ok alertID =>
      let url := baseURL c +:+ "/api/v2/" +:+ org c +:+ "/alerts/" +:+ alertID in
      let req := {| r_method := "DELETE"; r_url := url; r_contentType := None;
                    r_basicAuth := (user c, token c); r_body := NoBody |} in
      match transport req with
      | NewRequestFails err =>
          emit (LogError "Failed to create request" [("error", err)]) ;;;
          ret (Err ("failed to create request: " +:+ err))
      | DoFails err =>
          emit (HttpDo req) ;;;
          emit (LogError "Failed to execute alert deletion request" [("error", err)]) ;;;
          ret (Err ("failed to execute request: " +:+ err))
      | ReadAllFails _ err =>
          emit (HttpDo req) ;;;
          emit (LogError "Failed to read response body" [("error", err)]) ;;;
          ret (Err ("failed to read response body: " +:+ err))
      | Response status body =>
          emit (HttpDo req) ;;;
          if negb (status =? 200) && negb (status =? 204) then
            emit (LogError "OpenObserve returned error"
                           [("statusCode", Go.fmt_d status); ("body", body)]) ;;;
            ret (Err ("openobserve returned status " +:+ Go.fmt_d status +:+ ": " +:+ body))
          else ret (Ok alertID)
      end
  end.

End Client.

End Logs.

(** ** Package openobserve of the tracing module *)

Module Tracing.

Record Scope : Type := mkScope {
  s_Namespace : string;
  s_ProjectID : string;
  s_ComponentID : string;
  s_EnvironmentID : string
}.

Record TracesQueryParams : Type := mkTracesQueryParams {
  t_StartTime : Go.Time;
  t_EndTime : Go.Time;
  t_Limit : Z;
  t_Sort : string;
  t_Scope : Scope;
  t_TraceID : string;
  t_SpanID : string
}.

Record TraceEntry : Type := mkTraceEntry {
  TraceID : string;
  TraceName : string;
  SpanCount : Z;
  RootSpanID : string;
  RootSpanName : string;
  RootSpanKind : string;
  StartTime : Go.Time;
  EndTime : Go.Time;
  DurationNs : Z
}.

Record TracesResult : Type := mkTracesResult {
  Traces : list TraceEntry;
  tr_Total : Z;
  tr_TookMs : Z
}.

Record Client : Type := mkClient {
  baseURL : string;
  org : string;
  stream : string;
  user : string;
  token : string
}.

Definition NewClient (baseURL org stream user token : string) : Client :=
  {| baseURL := Go.TrimSuffix baseURL "/";
     org := org; stream := stream; user := user; token := token |}.

(** [buildFilterConditions]. *)
Definition buildFilterConditions (params : TracesQueryParams) : list string :=
  let scope := t_Scope params in
  (if isEmpty (s_Namespace scope) then []
   else ["service_openchoreo_dev_namespace = '" +:+
         escapeSQLString (s_Namespace scope) +:+ "'"]) ++
  (if isEmpty (s_ProjectID scope) then []
   else ["service_openchoreo_dev_project_uid = '" +:+
         escapeSQLString (s_ProjectID scope) +:+ "'"]) ++
  (if isEmpty (s_EnvironmentID scope) then []
   else ["service_openchoreo_dev_environment_uid = '" +:+
         escapeSQLString (s_EnvironmentID scope) +:+ "'"]) ++
  (if isEmpty (s_ComponentID scope) then []
   else ["service_openchoreo_dev_component_uid = '" +:+
         escapeSQLString (s_ComponentID scope) +:+ "'"]).

(** The SQL text of [generateTracesListQuery]. *)
Definition tracesListSQL (params : TracesQueryParams) (stream : string) : string :=
  let sql := "SELECT trace_id, span_id, operation_name, span_kind, " +:+
             "start_time, end_time, reference_parent_span_id " +:+
             "FROM " +:+ stream in
  let conditions := buildFilterConditions params in
  let sql := match conditions with
             | [] => sql
             | _ => sql +:+ " WHERE " +:+ Go.Join conditions " AND "
             end in
  sql +:+ " ORDER BY start_time".

Definition generateTracesListQuery (params : TracesQueryParams) (stream : string)
  : result SearchQuery :=
  Ok {| q_sql := tracesListSQL params stream;
        q_start_time := Go.UnixMicro (t_StartTime params);
        q_end_time := Go.UnixMicro (t_EndTime params);
        q_from := 0;
        q_size := -1;
        q_timeout := None |}.

(** The SQL text of [generateSpansListQuery]. *)
Definition spansListSQL (params : TracesQueryParams) (stream : string) : string :=
  let conditions := ["trace_id = '" +:+ escapeSQLString (t_TraceID params) +:+ "'"] in
  let sql := "SELECT span_id, operation_name, span_kind, start_time, end_time, " +:+
             "end_time - start_time as duration, reference_parent_span_id " +:+
             "FROM " +:+ stream +:+ " WHERE " +:+ Go.Join conditions " AND " in
  if String.eqb (t_Sort params) "asc" || String.eqb (t_Sort params) "ASC"
  then sql +:+ " ORDER BY start_time ASC"
  else sql +:+ " ORDER BY start_time DESC".

Definition generateSpansListQuery (params : TracesQueryParams) (stream : string)
  : result SearchQuery :=
  let limit := if t_Limit params <=? 0 then 100 else t_Limit params in
  Ok {| q_sql := spansListSQL params stream;
        q_start_time := Go.UnixMicro (t_StartTime params);
        q_end_time := Go.UnixMicro (t_EndTime params);
        q_from := 0;
        q_size := limit;
        q_timeout := Some 0 |}.

(** The SQL text of [generateSpanDetailQuery]. *)
Definition spanDetailSQL (params : TracesQueryParams) (stream : string) : string :=
  let conditions := ["trace_id = '" +:+ escapeSQLString (t_TraceID params) +:+ "'";
                     "span_id = '" +:+ escapeSQLString (t_SpanID params) +:+ "'"] in
  "SELECT * FROM " +:+ stream +:+ " WHERE " +:+ Go.Join conditions " AND ".

Definition generateSpanDetailQuery (params : TracesQueryParams) (stream : string)
  : result SearchQuery :=
  Ok {| q_sql := spanDetailSQL params stream;
        q_start_time := 1;
        q_end_time := Z.quot Go.maxInt64 2;
        q_from := 0;
        q_size := 1;
        q_timeout := Some 0 |}.

(** The running aggregate of one trace in [GetTraces]. *)
Record traceAgg : Type := mkTraceAgg {
  entry : TraceEntry;
  minStart : Z;
  maxEnd : Z
}.

(** The zero value [&traceAgg{}] with the trace ID set. *)
Definition newTraceAgg (traceID : string) : traceAgg :=
  {| entry := {| TraceID := traceID; TraceName := EmptyString; SpanCount := 0;
                 RootSpanID := EmptyString; RootSpanName := EmptyString;
                 RootSpanKind := EmptyString;
                 StartTime := Go.zeroTime; EndTime := Go.zeroTime; DurationNs := 0 |};
     minStart := 0;
     maxEnd := 0 |}.

(** [n, _ := v.Int64()] on a [json.Number]. *)
Definition Int64 (v : string) : Z := fst (Go.ParseInt v).

(** The body of the loop over the hits, after the aggregate of the trace
    has been found or created: what one hit does to it. *)
Definition addSpan (agg : traceAgg) (hit : Hit) : traceAgg :=
  let e := entry agg in
  let spanCount := Go.wrap64 (SpanCount e + 1) in
  let minStart' :=
    match asNumber (hit !! "start_time") with
    | Some v =>
        let startTime := Int64 v in
        if (minStart agg =? 0) || (startTime <? minStart agg) then startTime
        else minStart agg
    | None => minStart agg
    end in
  let maxEnd' :=
    match asNumber (hit !! "end_time") with
    | Some v =>
        let endTime := Int64 v in
        if endTime >? maxEnd agg then endTime else maxEnd agg
    | None => maxEnd agg
    end in
  let parentSpanID := stringOrZero (hit !! "reference_parent_span_id") in
  let isRoot := isEmpty parentSpanID in
  let pick (key : string) (old : string) : string :=
    if isRoot then
      match asString (hit !! key) with
      | Some v => v
      | None => old
      end
    else old in
  {| entry := {| TraceID := TraceID e;
                 TraceName := TraceName e;
                 SpanCount := spanCount;
                 RootSpanID := pick "span_id" (RootSpanID e);
                 RootSpanName := pick "operation_name" (RootSpanName e);
                 RootSpanKind := pick "span_kind" (RootSpanKind e);
                 StartTime := StartTime e;
                 EndTime := EndTime e;
                 DurationNs := DurationNs e |};
     minStart := minStart';
     maxEnd := maxEnd' |}.

(** One iteration of the loop: [traceMap] holds the aggregates (the
    source keeps pointers and updates them in place; here the updated
    aggregate is stored back) and [traceOrder] the trace IDs in the order
    they were first seen. *)
Definition groupHit (st : gmap string traceAgg * list string) (hit : Hit)
  : gmap string traceAgg * list string :=
  let traceID := stringOrZero (hit !! "trace_id") in
  if isEmpty traceID then st
  else
    let (traceMap, traceOrder) := st in
    match traceMap !! traceID with
    | Some agg => (<[traceID := addSpan agg hit]> traceMap, traceOrder)
    | None =>
        (<[traceID := addSpan (newTraceAgg traceID) hit]> traceMap,
         traceOrder ++ [traceID])
    end.

Definition groupHits (hits : list Hit) : gmap string traceAgg * list string :=
  fold_left groupHit hits (∅, []).

(** The second loop: the entry of an aggregate, completed. *)
Definition finishTrace (agg : traceAgg) : TraceEntry :=
  let e := entry agg in
  {| TraceID := TraceID e;
     TraceName := RootSpanName e;
     SpanCount := SpanCount e;
     RootSpanID := RootSpanID e;
     RootSpanName := RootSpanName e;
     RootSpanKind := RootSpanKind e;
     StartTime := Go.Unix 0 (minStart agg);
     EndTime := Go.Unix 0 (maxEnd agg);
     DurationNs := Go.wrap64 (maxEnd agg - minStart agg) |}.

(** Every ID of [traceOrder] is a key of [traceMap] (a missing key would
    be a nil dereference in the source; [omap] would drop it here, and
    [buildTraces_length] shows that none is dropped). *)
Definition buildTraces (hits : list Hit) : list TraceEntry :=
  let (traceMap, traceOrder) := groupHits hits in
  omap (fun traceID => finishTrace <$> traceMap !! traceID) traceOrder.

(** [SpanEntry], [SpansResult], [SpanAttribute] and [SpanDetail]. *)
Record SpanEntry : Type := mkSpanEntry {
  se_SpanID : string;
  se_SpanName : string;
  se_SpanKind : string;
  se_StartTime : Go.Time;
  se_EndTime : Go.Time;
  se_DurationNs : Z;
  se_ParentSpanID : string
}.

Record SpansResult : Type := mkSpansResult {
  Spans : list SpanEntry;
  sr_Total : Z;
  sr_TookMs : Z
}.

Record SpanAttribute : Type := mkSpanAttribute {
  Key : string;
  Value : string
}.

Record SpanDetail : Type := mkSpanDetail {
  sd_SpanID : string;
  sd_SpanName : string;
  sd_SpanKind : string;
  sd_StartTime : Go.Time;
  sd_EndTime : Go.Time;
  sd_DurationNs : Z;
  sd_ParentSpanID : string;
  Attributes : list SpanAttribute;
  ResourceAttributes : list SpanAttribute
}.

Record SpanDetailResult : Type := mkSpanDetailResult {
  Span : SpanDetail
}.

(** A time column: [time.Unix(0, n)] of the number, the zero time when
    the column is missing or no number. *)
Definition timeColumn (hit : Hit) (key : string) : Go.Time :=
  match asNumber (hit !! key) with
  | Some v => Go.Unix 0 (Int64 v)
  | None => Go.zeroTime
  end.

Definition int64Column (hit : Hit) (key : string) : Z :=
  match asNumber (hit !! key) with
  | Some v => Int64 v
  | None => 0
  end.

(** [parseSpanEntry]. *)
Definition parseSpanEntry (hit : Hit) : SpanEntry :=
  {| se_SpanID := stringOrZero (hit !! "span_id");
     se_SpanName := stringOrZero (hit !! "operation_name");
     se_SpanKind := stringOrZero (hit !! "span_kind");
     se_StartTime := timeColumn hit "start_time";
     se_EndTime := timeColumn hit "end_time";
     se_DurationNs := int64Column hit "duration";
     se_ParentSpanID := stringOrZero (hit !! "reference_parent_span_id") |}.

(** [internalFields]. *)
Definition internalFields : list string :=
  ["_timestamp"; "span_id"; "operation_name"; "span_kind"; "start_time"; "end_time";
   "duration"; "parent_span_id"; "reference_parent_span_id"; "trace_id"].

(** The lookup in the map [excludeFields] built from [internalFields]. *)
Definition excludeFields (key : string) : bool :=
  existsb (String.eqb key) internalFields.

Definition isResourceKey (key : string) : bool :=
  Go.HasPrefix key "service" || Go.HasPrefix key "resource".

(** The loop of [parseSpanDetail] over the columns of the hit, in the
    order [columns] in which the [range] over the map yields them: the
    attributes and the resource attributes collected so far. *)
Definition addAttribute (fmtValue : JValue -> string)
    (acc : list SpanAttribute * list SpanAttribute) (column : string * JValue)
  : list SpanAttribute * list SpanAttribute :=
  let (key, value) := column in
  if excludeFields key then acc
  else
    let attr := {| Key := key; Value := fmtValue value |} in
    if isResourceKey key then (fst acc, snd acc ++ [attr])
    else (fst acc ++ [attr], snd acc).

(** [parseSpanDetail].  Go leaves the order of a [range] over a map
    open: [range] gives that order for each hit.  [fmtValue] is the
    rendering of a value with the verb [%v]. *)
Definition parseSpanDetail (range : Hit -> list (string * JValue))
    (fmtValue : JValue -> string) (hit : Hit) : SpanDetail :=
  let attrs := fold_left (addAttribute fmtValue) (range hit) ([], []) in
  {| sd_SpanID := stringOrZero (hit !! "span_id");
     sd_SpanName := stringOrZero (hit !! "operation_name");
     sd_SpanKind := stringOrZero (hit !! "span_kind");
     sd_StartTime := timeColumn hit "start_time";
     sd_EndTime := timeColumn hit "end_time";
     sd_DurationNs := int64Column hit "duration";
     sd_ParentSpanID := stringOrZero (hit !! "reference_parent_span_id");
     Attributes := fst attrs;
     ResourceAttributes := snd attrs |}.

Section Client.

Variable transport : Transport.
(** The decoder with [UseNumber]. *)
Variable jsonDecodeResponse : string -> result OpenObserveResponse.

Local Open Scope io_scope.

(** The request built at the head of [executeSearchQuery]. *)
Definition searchRequest (c : Client) (queryJSON : SearchQuery) : Request :=
  let url := baseURL c +:+ "/api/" +:+ org c +:+ "/_search?type=traces" in
  {| r_method := "POST"; r_url := url;
     r_contentType := Some "application/json";
     r_basicAuth := (user c, token c);
     r_body := QueryBody queryJSON |}.

(** [executeSearchQuery] of the tracing client. *)
Definition executeSearchQuery (c : Client) (queryJSON : SearchQuery)
  : IO (result OpenObserveResponse) :=
  let req := searchRequest c queryJSON in
  match transport req with
  | NewRequestFails err =>
      emit (LogError "Failed to create request" [("error", err)]) ;;;
      ret (Err ("failed to create request: " +:+ err))
  | DoFails err =>
      emit (HttpDo req) ;;;
      emit (LogError "Failed to execute search request against OpenObserve"
                     [("error", err)]) ;;;
      ret (Err ("failed to execute request: " +:+ err))
  | ReadAllFails _ err =>
      emit (HttpDo req) ;;;
      emit (LogError "Failed to read response body returned by OpenObserve"
                     [("error", err)]) ;;;
      ret (Err ("failed to read response body: " +:+ err))
  | Response status body =>
      emit (HttpDo req) ;;;
      if negb (status =? 200) then
        emit (LogError "OpenObserve returned error"
                       [("statusCode", Go.fmt_d status); ("body", body)]) ;;;
        ret (Err ("openobserve returned status " +:+ Go.fmt_d status +:+
                  ": response body omitted"))
      else
        match jsonDecodeResponse body with
        | Err err =>
            emit (LogError "Failed to unmarshal response from OpenObserve"
                           [("error", err)]) ;;;
            ret (Err ("failed to unmarshal response: " +:+ err))
        | Ok openObserveResp => ret (Ok openObserveResp)
        end
  end.

Definition GetTraces (c : Client) (params : TracesQueryParams) : IO (result TracesResult) :=
  match generateTracesListQuery params (stream c) with
  | Err err => ret (Err ("failed to generate traces query: " +:+ err))
  | Ok queryJSON =>
      r <- executeSearchQuery c queryJSON ;;
      match r with
      | Err err => ret (Err err)
      | Ok openObserveResp =>
          let traces := buildTraces (Hits openObserveResp) in
          ret (Ok {| Traces := traces;
                     tr_Total := Z.of_nat (length traces);
                     tr_TookMs := Took openObserveResp |})
      end
  end.

(** [GetSpans]. *)
Definition GetSpans (c : Client) (params : TracesQueryParams) : IO (result SpansResult) :=
  match generateSpansListQuery params (stream c) with
  | Err err => ret (Err ("failed to generate spans query: " +:+ err))
  | Ok queryJSON =>
      r <- executeSearchQuery c queryJSON ;;
      match r with
      | Err err => ret (Err err)
      | Ok openObserveResp =>
          ret (Ok {| Spans := map parseSpanEntry (Hits openObserveResp);
                     sr_Total := Total openObserveResp;
                     sr_TookMs := Took openObserveResp |})
      end
  end.

Variable range : Hit -> list (string * JValue).
Variable fmtValue : JValue -> string.

(** [GetSpanDetail]; the values [%s] of the error are the two IDs as
    they are. *)
Definition GetSpanDetail (c : Client) (params : TracesQueryParams)
  : IO (result SpanDetailResult) :=
  match generateSpanDetailQuery params (stream c) with
  | Err err => ret (Err ("failed to generate span detail query: " +:+ err))
  | Ok queryJSON =>
      r <- executeSearchQuery c queryJSON ;;
      match r with
      | Err err => ret (Err err)
      | Ok openObserveResp =>
          match Hits openObserveResp with
          | [] =>
              ret (Err ("span not found: traceId=" +:+ t_TraceID params +:+
                        ", spanId=" +:+ t_SpanID params))
          | hit :: _ => ret (Ok {| Span := parseSpanDetail range fmtValue hit |})
          end
      end
  end.

End Client.

End Tracing.

(** ** Package app of the logs module: the request handler *)

Module LogsHandler.

(** The generated API package is not among the sources; its request
    types are read off the handler's uses of them.  The [searchScope] of a
    request is a union: it is carried as the outcomes of its two
    coercions, [AsWorkflowSearchScope] and [AsComponentSearchScope]. *)
Record WorkflowSearchScope : Type := mkWorkflowSearchScope {
  ws_Namespace : string;
  ws_WorkflowRunName : option string
}.

Record ComponentSearchScope : Type := mkComponentSearchScope {
  cs_Namespace : string;
  cs_ProjectUid : option string;
  cs_EnvironmentUid : option string;
  cs_ComponentUid : option string
}.

Record SearchScopeUnion : Type := mkSearchScopeUnion {
  AsWorkflowSearchScope : result WorkflowSearchScope;
  AsComponentSearchScope : result ComponentSearchScope
}.

Record LogsQueryRequest : Type := mkLogsQueryRequest {
  StartTime : Go.Time;
  EndTime : Go.Time;
  Limit : option Z;
  SortOrder : option string;
  SearchPhrase : option string;
  LogLevels : option (list string);
  SearchScope : SearchScopeUnion
}.

Inductive ErrorTitle : Type := BadRequest | InternalServerError.

(** The payload of a 200 response is the result of the client; its
    conversion to the generated response types is left out. *)
Inductive LogsPayload : Type :=
| WorkflowLogs (r : Logs.WorkflowLogsResult)
| ComponentLogs (r : Logs.ComponentLogsResult).

Inductive QueryLogsResponse : Type :=
| QueryLogs200JSONResponse (payload : LogsPayload)
| QueryLogs400JSONResponse (title : ErrorTitle) (message : string)
| QueryLogs500JSONResponse (title : ErrorTitle) (message : string).

Definition orZero (o : option string) : string :=
  match o with Some s => s | None => EmptyString end.

Definition toWorkflowLogsParams (req : LogsQueryRequest) (scope : WorkflowSearchScope)
  : Logs.WorkflowLogsParams :=
  {| Logs.wl_Namespace := ws_Namespace scope;
     Logs.wl_WorkflowRunName := orZero (ws_WorkflowRunName scope);
     Logs.wl_StartTime := StartTime req;
     Logs.wl_EndTime := EndTime req;
     Logs.wl_SearchPhrase := orZero (SearchPhrase req);
     Logs.wl_LogLevels := match LogLevels req with Some l => l | None => [] end;
     Logs.wl_Limit := match Limit req with Some n => n | None => 0 end;
     Logs.wl_SortOrder := orZero (SortOrder req) |}.

Definition toComponentLogsParams (req : LogsQueryRequest) (scope : ComponentSearchScope)
  : Logs.ComponentLogsParams :=
  {| Logs.cl_Namespace := cs_Namespace scope;
     Logs.cl_ComponentIDs := match cs_ComponentUid scope with Some u => [u] | None => [] end;
     Logs.cl_EnvironmentID := orZero (cs_EnvironmentUid scope);
     Logs.cl_ProjectID := orZero (cs_ProjectUid scope);
     Logs.cl_StartTime := StartTime req;
     Logs.cl_EndTime := EndTime req;
     Logs.cl_SearchPhrase := orZero (SearchPhrase req);
     Logs.cl_LogLevels := match LogLevels req with Some l => l | None => [] end;
     Logs.cl_Limit := match Limit req with Some n => n | None => 0 end;
     Logs.cl_SortOrder := orZero (SortOrder req) |}.

(** [strings.TrimSpace(s) == ""]. *)
Definition isBlank (s : string) : bool := isEmpty (Go.TrimSpace s).

(** The test that selects the workflow branch of [QueryLogs]: the
    coercion succeeds and the run name is present and not blank. *)
Definition workflowBranch (u : SearchScopeUnion) : option WorkflowSearchScope :=
  match AsWorkflowSearchScope u with
  | Ok workflowScope =>
      match ws_WorkflowRunName workflowScope with
      | Some name => if isBlank name then None else Some workflowScope
      | None => None
      end
  | Err _ => None
  end.

Section Handler.

Variable transport : Transport.
Variable jsonUnmarshalResponse : string -> result OpenObserveResponse.
Variable int64OfFloat64 : string -> Z.

Local Open Scope io_scope.

(** [QueryLogs]. *)
Definition QueryLogs (client : Logs.Client) (body : option LogsQueryRequest)
  : IO QueryLogsResponse :=
  match body with
  | None => ret (QueryLogs400JSONResponse BadRequest "request body is required")
  | Some body =>
      match workflowBranch (SearchScope body) with
      | Some workflowScope =>
          if isBlank (ws_Namespace workflowScope) then
            ret (QueryLogs400JSONResponse BadRequest
                   "searchScope with a valid namespace is required")
          else
            let params := toWorkflowLogsParams body workflowScope in
            r <- Logs.GetWorkflowLogs transport jsonUnmarshalResponse int64OfFloat64
                   client params ;;
            match r with
            | Err err =>
                emit (LogError "Failed to query workflow logs" [("error", err)]) ;;;
                ret (QueryLogs500JSONResponse InternalServerError err)
            | Ok result => ret (QueryLogs200JSONResponse (WorkflowLogs result))
            end
      | None =>
          match AsComponentSearchScope (SearchScope body) with
          | Err _ =>
              ret (QueryLogs400JSONResponse BadRequest
                     "searchScope with a valid namespace is required")
          | Ok scope =>
              if isBlank (cs_Namespace scope) then
                ret (QueryLogs400JSONResponse BadRequest
                       "searchScope with a valid namespace is required")
              else
                let params := toComponentLogsParams body scope in
                r <- Logs.GetComponentLogs transport jsonUnmarshalResponse int64OfFloat64
                       client params ;;
                match r with
                | Err err =>
                    emit (LogError "Failed to query logs" [("error", err)]) ;;;
                    ret (QueryLogs500JSONResponse InternalServerError err)
                | Ok result => ret (QueryLogs200JSONResponse (ComponentLogs result))
                end
          end
      end
  end.

(** *** The alert rules

    The request of an alert rule, as [toLogAlertParams] reads it.  A UUID
    is carried as the text its [String] method gives. *)
Record AlertRuleMetadata : Type := mkAlertRuleMetadata {
  am_Name : option string;
  am_Namespace : option string;
  am_ProjectUid : option string;
  am_EnvironmentUid : option string;
  am_ComponentUid : option string
}.

Record AlertRuleSource : Type := mkAlertRuleSource {
  Query : option string
}.

Record AlertRuleCondition : Type := mkAlertRuleCondition {
  rc_Operator : option string;
  rc_Threshold : option Go.float32;
  rc_Window : option string;
  rc_Interval : option string
}.

Record AlertRuleRequest : Type := mkAlertRuleRequest {
  Metadata : option AlertRuleMetadata;
  Source : option AlertRuleSource;
  Condition : option AlertRuleCondition
}.

(** [toLogAlertParams]; the zero [float32] has all bits clear. *)
Definition toLogAlertParams (req : AlertRuleRequest) : Logs.LogAlertParams :=
  let field {A : Type} (part : option A) (get : A -> option string) : string :=
    match part with
    | Some p => orZero (get p)
    | None => EmptyString
    end in
  {| Logs.la_Name := match Metadata req with Some m => am_Name m | None => None end;
     Logs.la_Namespace := field (Metadata req) am_Namespace;
     Logs.la_ProjectUID := field (Metadata req) am_ProjectUid;
     Logs.la_EnvironmentUID := field (Metadata req) am_EnvironmentUid;
     Logs.la_ComponentUID := field (Metadata req) am_ComponentUid;
     Logs.la_SearchPattern := field (Source req) Query;
     Logs.la_Operator := field (Condition req) rc_Operator;
     Logs.la_ThresholdValue :=
       match Condition req with
       | Some c => match rc_Threshold c with
                   | Some t => t
                   | None => Go.Float32frombits 0
                   end
       | None => Go.Float32frombits 0
       end;
     Logs.la_Window := field (Condition req) rc_Window;
     Logs.la_Interval := field (Condition req) rc_Interval |}.

Inductive AlertAction : Type := Created | Deleted.
Inductive AlertStatus : Type := Synced.

(** The fields of the 200 response of both alert handlers. *)
Record AlertRuleSync : Type := mkAlertRuleSync {
  Action : AlertAction;
  Status : AlertStatus;
  RuleLogicalId : option string;
  RuleBackendId : string;
  LastSyncedAt : string
}.

Inductive CreateAlertRuleResponse : Type :=
| CreateAlertRule200JSONResponse (sync : AlertRuleSync)
| CreateAlertRule400JSONResponse (title : ErrorTitle) (message : string)
| CreateAlertRule500JSONResponse (title : ErrorTitle) (message : string).

Inductive DeleteAlertRuleResponse : Type :=
| DeleteAlertRule200JSONResponse (sync : AlertRuleSync)
| DeleteAlertRule500JSONResponse (title : ErrorTitle) (message : string).

Variable jsonUnmarshalAlertList : string -> result (list Logs.AlertListItem).
Variable jsonUnmarshalCreateResponse : string -> result string.
Variable quote : string -> string.
(** The clock, read after the call to the client and formatted. *)
Variable now : string.

(** [CreateAlertRule]. *)
Definition CreateAlertRule (client : Logs.Client) (body : option AlertRuleRequest)
  : IO CreateAlertRuleResponse :=
  match body with
  | None => ret (CreateAlertRule400JSONResponse BadRequest "request body is required")
  | Some body =>
      let params := toLogAlertParams body in
      r <- Logs.CreateAlert transport quote jsonUnmarshalCreateResponse client params ;;
      match r with
      | Err err =>
          emit (LogError "Failed to create alert" [("error", err)]) ;;;
          ret (CreateAlertRule500JSONResponse InternalServerError err)
      | Ok alertID =>
          ret (CreateAlertRule200JSONResponse
                 {| Action := Created; Status := Synced;
                    RuleLogicalId := Logs.la_Name params;
                    RuleBackendId := alertID;
                    LastSyncedAt := now |})
      end
  end.

(** [DeleteAlertRule]. *)
Definition DeleteAlertRule (client : Logs.Client) (ruleName : string)
  : IO DeleteAlertRuleResponse :=
  r <- Logs.DeleteAlert transport jsonUnmarshalAlertList quote client ruleName ;;
  match r with
  | Err err =>
      emit (LogError "Failed to delete alert" [("error", err)]) ;;;
      ret (DeleteAlertRule500JSONResponse InternalServerError err)
  | Ok alertID =>
      ret (DeleteAlertRule200JSONResponse
             {| Action := Deleted; Status := Synced;
                RuleLogicalId := Some ruleName;
                RuleBackendId := alertID;
                LastSyncedAt := now |})
  end.

End Handler.

End LogsHandler.

(** ** The handlers of the tracing service *)

Module TracingHandler.

(** The request body of the two query endpoints, as
    [toTracesQueryParams] reads it.  The handlers dereference the body
    without a nil check: a request reaches them with a body. *)
Record TracesSearchScope : Type := mkTracesSearchScope {
  ss_Namespace : string;
  ss_Project : option string;
  ss_Component : option string;
  ss_Environment : option string
}.

Record TracesQueryRequest : Type := mkTracesQueryRequest {
  StartTime : Go.Time;
  EndTime : Go.Time;
  Limit : option Z;
  Sort : option string;
  SearchScope : TracesSearchScope
}.

Definition orZero (o : option string) : string :=
  match o with Some s => s | None => EmptyString end.

(** [toTracesQueryParams]. *)
Definition toTracesQueryParams (req : TracesQueryRequest) : Tracing.TracesQueryParams :=
  {| Tracing.t_StartTime := StartTime req;
     Tracing.t_EndTime := EndTime req;
     Tracing.t_Limit := match Limit req with Some n => n | None => 0 end;
     Tracing.t_Sort := orZero (Sort req);
     Tracing.t_Scope :=
       {| Tracing.s_Namespace := ss_Namespace (SearchScope req);
          Tracing.s_ProjectID := orZero (ss_Project (SearchScope req));
          Tracing.s_ComponentID := orZero (ss_Component (SearchScope req));
          Tracing.s_EnvironmentID := orZero (ss_Environment (SearchScope req)) |};
     Tracing.t_TraceID := EmptyString;
     Tracing.t_SpanID := EmptyString |}.

(** [params.TraceID = request.TraceId]. *)
Definition withTraceID (params : Tracing.TracesQueryParams) (traceId : string)
  : Tracing.TracesQueryParams :=
  {| Tracing.t_StartTime := Tracing.t_StartTime params;
     Tracing.t_EndTime := Tracing.t_EndTime params;
     Tracing.t_Limit := Tracing.t_Limit params;
     Tracing.t_Sort := Tracing.t_Sort params;
     Tracing.t_Scope := Tracing.t_Scope params;
     Tracing.t_TraceID := traceId;
     Tracing.t_SpanID := Tracing.t_SpanID params |}.

(** The zero [TracesQueryParams] with the two IDs set. *)
Definition spanDetailParams (traceId spanId : string) : Tracing.TracesQueryParams :=
  {| Tracing.t_StartTime := Go.zeroTime;
     Tracing.t_EndTime := Go.zeroTime;
     Tracing.t_Limit := 0;
     Tracing.t_Sort := EmptyString;
     Tracing.t_Scope := Tracing.mkScope EmptyString EmptyString EmptyString EmptyString;
     Tracing.t_TraceID := traceId;
     Tracing.t_SpanID := spanId |}.

Inductive ErrorTitle : Type := InternalServerError.

(** A response: the 200 payload is the result of the client (its
    conversion to the generated response types is left out), the 500
    response carries a title and a detail. *)
Inductive Response (A : Type) : Type :=
| JSON200 (payload : A)
| JSON500 (title : ErrorTitle) (detail : string).
Arguments JSON200 {A} payload.
Arguments JSON500 {A} title detail.

Section Handler.

Variable transport : Transport.
Variable jsonDecodeResponse : string -> result OpenObserveResponse.
Variable range : Hit -> list (string * JValue).
Variable fmtValue : JValue -> string.

Local Open Scope io_scope.

(** The tail shared by the three handlers: an error of the client is
    logged and becomes the detail of a 500 response. *)
Definition respond {A : Type} (failure : string) (r : result A) : IO (Response A) :=
  match r with
  | Err err =>
      emit (LogError failure [("error", err)]) ;;;
      ret (JSON500 InternalServerError err)
  | Ok result => ret (JSON200 result)
  end.

(** [QueryTraces]. *)
Definition QueryTraces (client : Tracing.Client) (body : TracesQueryRequest)
  : IO (Response Tracing.TracesResult) :=
  let params := toTracesQueryParams body in
  r <- Tracing.GetTraces transport jsonDecodeResponse client params ;;
  respond "Failed to query traces" r.

(** [QuerySpansForTrace]. *)
Definition QuerySpansForTrace (client : Tracing.Client) (traceId : string)
    (body : TracesQueryRequest) : IO (Response Tracing.SpansResult) :=
  let params := withTraceID (toTracesQueryParams body) traceId in
  r <- Tracing.GetSpans transport jsonDecodeResponse client params ;;
  respond "Failed to query spans" r.

(** [GetSpanDetailsForTrace]; the payload is the span of the result. *)
Definition GetSpanDetailsForTrace (client : Tracing.Client) (traceId spanId : string)
  : IO (Response Tracing.SpanDetail) :=
  let params := spanDetailParams traceId spanId in
  r <- Tracing.GetSpanDetail transport jsonDecodeResponse range fmtValue client params ;;
  respond "Failed to query span detail"
    match r with
    | Ok result => Ok (Tracing.Span result)
    | Err err => Err err
    end.

End Handler.

End TracingHandler.

(** ** Notions used to state the properties *)

(** The operators of an alert rule that the alert generator accepts. *)
Definition alertOperators : list string := ["gt"; "gte"; "lt"; "lte"; "eq"; "neq"].

(** A call of a client is clean when it either succeeds, having handed
    one request to the HTTP client and logged nothing, or fails, having
    handed over at most one request. *)
Definition clean {A : Type} (m : IO (result A)) : Prop :=
  (exists req a, m = ([HttpDo req], Ok a)) \/
  (exists evs err, m = (evs, Err err) /\ (length (requestsOf evs) <= 1)%nat).

(** [s] ends with [suffix]. *)
Definition endsWith (s suffix : string) : Prop := exists pre, s = pre +:+ suffix.

(** Comparison of two strings up to the case of ASCII letters. *)
Definition lowerByte (c : ascii) : ascii :=
  let n := nat_of_ascii c in
  if ((65 <=? n) && (n <=? 90))%nat then ascii_of_nat (n + 32) else c.

Fixpoint toLower (s : string) : string :=
  match s with
  | EmptyString => EmptyString
  | String c s' => String (lowerByte c) (toLower s')
  end.

Definition equalFold (s t : string) : bool := String.eqb (toLower s) (toLower t).

(** The sort orders for which the queries order ascending. *)
Definition ascending (sortOrder : string) : Prop := sortOrder = "asc" \/ sortOrder = "ASC".

(** ** Concrete surroundings for the examples *)

Module Examples.

Definition epoch : Go.Time := Go.mkTime 0 0.

Definition logsClient : Logs.Client :=
  Logs.NewClient "http://openobserve:5080/" "default" "default" "root@example.com" "token".

Definition tracingClient : Tracing.Client :=
  Tracing.NewClient "http://openobserve:5080/" "default" "default" "root@example.com" "token".

(** A backend that answers every request with status 500 and a body that
    describes its internals. *)
Definition failingBackend : Transport :=
  fun _ => Response 500 "shard 3 of index logs_2026 is unavailable".

(** A backend that answers every request with status 200 and an empty
    object; the decoder reads it as an envelope without hits. *)
Definition emptyBackend : Transport := fun _ => Response 200 "{}".
Definition decodeEmpty : string -> result OpenObserveResponse :=
  fun _ => Ok (mkOpenObserveResponse 0 [] 0).

Definition noFloat : string -> Z := fun _ => 0.

(** A rendering of the verb [%q] good enough for names without special
    characters. *)
Definition quotePlain : string -> string :=
  fun s => Go.dquote +:+ s +:+ Go.dquote.

Definition someQuery : SearchQuery :=
  mkSearchQuery "SELECT * FROM t" 0 1 0 100 (Some 0).

(** A hit from its columns. *)
Definition hit (columns : list (string * JValue)) : Hit := list_to_map columns.

End Examples.

Module AlertExamples.

(** The listing with the single alert [foo], whose ID is [x1]. *)
Definition listing : list Logs.AlertListItem := [Logs.mkAlertListItem "x1" "foo"].
Definition listBackend : Transport := fun _ => Response 200 "{...}".
Definition decodeListing : string -> result (list Logs.AlertListItem) :=
  fun _ => Ok listing.

End AlertExamples.

Module ScopeExamples.

(** A request whose scope carries a workflow run name together with the
    identifiers of a component scope: both coercions succeed. *)
Definition ambiguousRequest : LogsHandler.LogsQueryRequest :=
  LogsHandler.mkLogsQueryRequest Examples.epoch Examples.epoch None None None None
    (LogsHandler.mkSearchScopeUnion
       (Ok (LogsHandler.mkWorkflowSearchScope "ns" (Some "run-1")))
       (Ok (LogsHandler.mkComponentSearchScope "ns" (Some "p1") (Some "e1") (Some "c1")))).

(** A component scope whose namespace is blank, with every other field
    set. *)
Definition blankNamespaceRequest : LogsHandler.LogsQueryRequest :=
  LogsHandler.mkLogsQueryRequest Examples.epoch Examples.epoch
    (Some 10) (Some "asc") (Some "error") (Some ["ERROR"])
    (LogsHandler.mkSearchScopeUnion
       (Ok (LogsHandler.mkWorkflowSearchScope "   " None))
       (Ok (LogsHandler.mkComponentSearchScope "   " (Some "p1") (Some "e1") (Some "c1")))).

End ScopeExamples.

(** ** The shape of a generated SQL text

    A SQL text seen as a sequence of pieces: a fixed fragment of SQL, a
    value put through [escapeSQLString], a name put through
    [quoteIdentifier], or a name inserted as it is. *)
Module Template.

Inductive piece : Type :=
| Static (text : string)
| Escaped (value : string)
| Ident (name : string)
| Verbatim (name : string).

Definition renderPiece (p : piece) : string :=
  match p with
  | Static text => text
  | Escaped value => escapeSQLString value
  | Ident name => quoteIdentifier name
  | Verbatim name => name
  end.

Fixpoint render (ps : list piece) : string :=
  match ps with
  | [] => EmptyString
  | p :: rest => renderPiece p +:+ render rest
  end.

(** The pieces of [strings.Join]. *)
Fixpoint joinPieces (items : list (list piece)) (sep : string) : list piece :=
  match items with
  | [] => []
  | [item] => item
  | item :: rest => item ++ Static sep :: joinPieces rest sep
  end.

(** [column = 'value'], and a group of alternatives. *)
Definition equals (column value : string) : list piece :=
  [Static (column +:+ " = '"); Escaped value; Static "'"].

Definition anyOf (column : string) (values : list string) : list piece :=
  Static "(" :: joinPieces (map (equals column) values) " OR " ++ [Static ")"].

Definition like (value : string) : list piece :=
  [Static "log LIKE '%"; Escaped value; Static "%'"].

Definition unlessEmpty (value : string) (condition : list piece) : list (list piece) :=
  if isEmpty value then [] else [condition].

Definition whereClause (conditions : list (list piece)) : list piece :=
  match conditions with
  | [] => []
  | _ => Static " WHERE " :: joinPieces conditions " AND "
  end.

(** The fixed fragments of the SQL texts of both packages. *)
Definition sqlFragments : list string :=
  [ "SELECT * FROM "; " WHERE "; " AND "; " OR "; "("; ")"; "'"; "%'";
    "log LIKE '%"; "logLevel = '";
    " ORDER BY _timestamp ASC"; " ORDER BY _timestamp DESC";
    "kubernetes_namespace_name = 'openchoreo-ci-";
    "kubernetes_labels_workflows_argoproj_io_workflow = '";
    "kubernetes_labels_openchoreo_dev_namespace = '";
    "kubernetes_labels_openchoreo_dev_project_uid = '";
    "kubernetes_labels_openchoreo_dev_environment_uid = '";
    "kubernetes_labels_openchoreo_dev_component_uid = '";
    "SELECT count(*) as match_count FROM ";
    " WHERE str_match(log, '"; "')";
    "SELECT trace_id, span_id, operation_name, span_kind, start_time, end_time, reference_parent_span_id FROM ";
    "SELECT span_id, operation_name, span_kind, start_time, end_time, end_time - start_time as duration, reference_parent_span_id FROM ";
    " ORDER BY start_time"; " ORDER BY start_time ASC"; " ORDER BY start_time DESC";
    "service_openchoreo_dev_namespace = '";
    "service_openchoreo_dev_project_uid = '";
    "service_openchoreo_dev_environment_uid = '";
    "service_openchoreo_dev_component_uid = '";
    "trace_id = '"; "span_id = '" ].

(** A piece is allowed when it is one of the fixed fragments, the escaped
    image of one of the caller's values, or the configured stream name. *)
Definition allowed (values : list string) (stream : string) (p : piece) : Prop :=
  match p with
  | Static text => In text sqlFragments
  | Escaped value => In value values
  | Ident name => name = stream
  | Verbatim name => name = stream
  end.

(** The templates of the six queries. *)
Definition componentLogs (p : Logs.ComponentLogsParams) (stream : string) : list piece :=
  [Static "SELECT * FROM "; Ident stream] ++
  whereClause
    ([equals "kubernetes_labels_openchoreo_dev_namespace" (Logs.cl_Namespace p)] ++
     unlessEmpty (Logs.cl_ProjectID p)
       (equals "kubernetes_labels_openchoreo_dev_project_uid" (Logs.cl_ProjectID p)) ++
     unlessEmpty (Logs.cl_EnvironmentID p)
       (equals "kubernetes_labels_openchoreo_dev_environment_uid" (Logs.cl_EnvironmentID p)) ++
     (match Logs.cl_ComponentIDs p with
      | [] => []
      | ids => [anyOf "kubernetes_labels_openchoreo_dev_component_uid" ids]
      end) ++
     unlessEmpty (Logs.cl_SearchPhrase p) (like (Logs.cl_SearchPhrase p)) ++
     (match Logs.cl_LogLevels p with
      | [] => []
      | levels => [anyOf "logLevel" levels]
      end)) ++
  [Static (Logs.orderClause (Logs.cl_SortOrder p))].

Definition workflowLogs (p : Logs.WorkflowLogsParams) (stream : string) : list piece :=
  [Static "SELECT * FROM "; Ident stream] ++
  whereClause
    (unlessEmpty (Logs.wl_Namespace p)
       [Static "kubernetes_namespace_name = 'openchoreo-ci-";
        Escaped (Logs.wl_Namespace p); Static "'"] ++
     unlessEmpty (Logs.wl_WorkflowRunName p)
       (equals "kubernetes_labels_workflows_argoproj_io_workflow" (Logs.wl_WorkflowRunName p)) ++
     unlessEmpty (Logs.wl_SearchPhrase p) (like (Logs.wl_SearchPhrase p)) ++
     (match Logs.wl_LogLevels p with
      | [] => []
      | levels => [anyOf "logLevel" levels]
      end)) ++
  [Static (Logs.orderClause (Logs.wl_SortOrder p))].

Definition alert (p : Logs.LogAlertParams) (stream : string) : list piece :=
  [Static "SELECT count(*) as match_count FROM "; Ident stream;
   Static " WHERE str_match(log, '"; Escaped (Logs.la_SearchPattern p); Static "')"].

Definition scopeConditions (p : Tracing.TracesQueryParams) : list (list piece) :=
  let scope := Tracing.t_Scope p in
  unlessEmpty (Tracing.s_Namespace scope)
    (equals "service_openchoreo_dev_namespace" (Tracing.s_Namespace scope)) ++
  unlessEmpty (Tracing.s_ProjectID scope)
    (equals "service_openchoreo_dev_project_uid" (Tracing.s_ProjectID scope)) ++
  unlessEmpty (Tracing.s_EnvironmentID scope)
    (equals "service_openchoreo_dev_environment_uid" (Tracing.s_EnvironmentID scope)) ++
  unlessEmpty (Tracing.s_ComponentID scope)
    (equals "service_openchoreo_dev_component_uid" (Tracing.s_ComponentID scope)).

Definition tracesList (p : Tracing.TracesQueryParams) (stream : string) : list piece :=
  [Static "SELECT trace_id, span_id, operation_name, span_kind, start_time, end_time, reference_parent_span_id FROM ";
   Verbatim stream] ++
  whereClause (scopeConditions p) ++
  [Static " ORDER BY start_time"].

Definition spansList (p : Tracing.TracesQueryParams) (stream : string) : list piece :=
  [Static "SELECT span_id, operation_name, span_kind, start_time, end_time, end_time - start_time as duration, reference_parent_span_id FROM ";
   Verbatim stream; Static " WHERE "] ++
  equals "trace_id" (Tracing.t_TraceID p) ++
  [Static (if String.eqb (Tracing.t_Sort p) "asc" || String.eqb (Tracing.t_Sort p) "ASC"
           then " ORDER BY start_time ASC" else " ORDER BY start_time DESC")].

Definition spanDetail (p : Tracing.TracesQueryParams) (stream : string) : list piece :=
  [Static "SELECT * FROM "; Verbatim stream; Static " WHERE "] ++
  equals "trace_id" (Tracing.t_TraceID p) ++ [Static " AND "] ++
  equals "span_id" (Tracing.t_SpanID p).

(** The caller's values that each query may embed. *)
Definition componentLogsValues (p : Logs.ComponentLogsParams) : list string :=
  [Logs.cl_Namespace p; Logs.cl_ProjectID p; Logs.cl_EnvironmentID p; Logs.cl_SearchPhrase p]
  ++ Logs.cl_ComponentIDs p ++ Logs.cl_LogLevels p.

Definition workflowLogsValues (p : Logs.WorkflowLogsParams) : list string :=
  [Logs.wl_Namespace p; Logs.wl_WorkflowRunName p; Logs.wl_SearchPhrase p]
  ++ Logs.wl_LogLevels p.

Definition scopeValues (p : Tracing.TracesQueryParams) : list string :=
  let scope := Tracing.t_Scope p in
  [Tracing.s_Namespace scope; Tracing.s_ProjectID scope;
   Tracing.s_EnvironmentID scope; Tracing.s_ComponentID scope].

End Template.

(** ** Notions used to state the properties of the trace grouping *)

Module TraceSpec.

(** The trace ID, the start and the end of a row, as the grouping pass
    reads them. *)
Definition traceIDOf (hit : Hit) : string := stringOrZero (hit !! "trace_id").

Definition startOf (hit : Hit) : option Z :=
  Tracing.Int64 <$> asNumber (hit !! "start_time").

Definition endOf (hit : Hit) : option Z :=
  Tracing.Int64 <$> asNumber (hit !! "end_time").

(** The rows of a trace, in input order. *)
Definition spansOf (traceID : string) (hits : list Hit) : list Hit :=
  filter (fun hit => traceIDOf hit = traceID) hits.

(** The non-empty trace IDs of the rows, in input order. *)
Definition traceIDs (hits : list Hit) : list string :=
  filter (fun id => id <> EmptyString) (map traceIDOf hits).

(** The distinct elements of a list in the order of their first
    occurrence. *)
Fixpoint firstSeen (ids : list string) : list string :=
  match ids with
  | [] => []
  | id :: rest => id :: filter (fun x => x <> id) (firstSeen rest)
  end.

(** A row with an empty (or missing) parent reference. *)
Definition isRootRow (hit : Hit) : bool :=
  isEmpty (stringOrZero (hit !! "reference_parent_span_id")).

(** The value that a row gives to a root field: the column [key] of a row
    with an empty parent reference, when it holds a string. *)
Definition rootField (key : string) (hit : Hit) : option string :=
  if isRootRow hit then asString (hit !! key) else None.

(** The last element of a list, or a default. *)
Definition lastOr (d : string) (l : list string) : string := default d (last l).

(** The two running bounds of the grouping pass, on the start and end
    times that are present. *)
Definition minStep (m s : Z) : Z := if (m =? 0) || (s <? m) then s else m.
Definition maxStep (m e : Z) : Z := if e >? m then e else m.

(** The aggregate of a trace: its rows added, in input order, to a fresh
    aggregate. *)
Definition aggOf (traceID : string) (hits : list Hit) : Tracing.traceAgg :=
  fold_left Tracing.addSpan (spansOf traceID hits) (Tracing.newTraceAgg traceID).

End TraceSpec.

(** The parts of a span detail, for stating what [parseSpanDetail]
    collects. *)
Module SpanSpec.

(** The attribute made from a column. *)
Definition attributeOf (fmtValue : JValue -> string) (column : string * JValue)
  : Tracing.SpanAttribute :=
  {| Tracing.Key := fst column; Tracing.Value := fmtValue (snd column) |}.

(** The columns that become attributes, and those that become resource
    attributes. *)
Definition isAttribute (column : string * JValue) : bool :=
  negb (Tracing.excludeFields (fst column)) && negb (Tracing.isResourceKey (fst column)).
Definition isResourceAttribute (column : string * JValue) : bool :=
  negb (Tracing.excludeFields (fst column)) && Tracing.isResourceKey (fst column).

End SpanSpec.

Module TraceExamples.

Definition row (traceID spanID parent : string) : Hit :=
  Examples.hit [("trace_id", JString traceID); ("span_id", JString spanID);
                ("reference_parent_span_id", JString parent)].

(** The rows of the two examples of the specification. *)
Definition rootAndChild : list Hit := [row "T1" "A" ""; row "T1" "B" "A"].
Definition twoRoots : list Hit := [row "T1" "A" ""; row "T1" "B" ""].

(** The entry of the trace of [twoRoots]. *)
Definition twoRootsEntry : Tracing.TraceEntry :=
  Tracing.mkTraceEntry "T1" "" 2 "B" "" "" (Go.mkTime 0 0) (Go.mkTime 0 0) 0.

(** Two rows with an empty parent reference; the second one has no
    [span_id] column. *)
Definition rootWithoutID : list Hit :=
  [row "T1" "A" "";
   Examples.hit [("trace_id", JString "T1"); ("reference_parent_span_id", JString "")]].

(** Two spans of one trace; the first one starts at the epoch. *)
Definition startsAtEpoch : list Hit :=
  [Examples.hit [("trace_id", JString "T1"); ("span_id", JString "A");
                 ("reference_parent_span_id", JString "");
                 ("start_time", JNumber "0"); ("end_time", JNumber "10")];
   Examples.hit [("trace_id", JString "T1"); ("span_id", JString "B");
                 ("reference_parent_span_id", JString "A");
                 ("start_time", JNumber "5"); ("end_time", JNumber "20")]].

(** The entry of the trace of [rootAndChild]. *)
Definition rootAndChildEntry : Tracing.TraceEntry :=
  Tracing.mkTraceEntry "T1" "" 2 "A" "" "" (Go.mkTime 0 0) (Go.mkTime 0 0) 0.

(** Two spans of one trace with their times, in nanoseconds. *)
Definition timedSpans : list Hit :=
  [Examples.hit [("trace_id", JString "T1"); ("span_id", JString "A");
                 ("reference_parent_span_id", JString "");
                 ("start_time", JNumber "1700000000000000100");
                 ("end_time", JNumber "1700000000000000900")];
   Examples.hit [("trace_id", JString "T1"); ("span_id", JString "B");
                 ("reference_parent_span_id", JString "A");
                 ("start_time", JNumber "1700000000000000200");
                 ("end_time", JNumber "1700000000000000400")]].

Definition timedSpansEntry : Tracing.TraceEntry :=
  Tracing.mkTraceEntry "T1" "" 2 "A" "" ""
    (Go.mkTime 1700000000 100) (Go.mkTime 1700000000 900) 800.

End TraceExamples.

(** * Properties *)

(** ** Small checks of the embedding *)

Section Checks.

Example ReplaceAll_does_not_overlap : Go.ReplaceAll "aaa" "aa" "b" = "ba".
Proof. reflexivity. Qed.

Example quoteIdentifier_doubles_quotes :
  quoteIdentifier ("my" +:+ Go.dquote +:+ "stream")
  = Go.dquote +:+ "my" +:+ Go.dquote +:+ Go.dquote +:+ "stream" +:+ Go.dquote.
Proof. reflexivity. Qed.

Example TrimSpace_ascii : Go.TrimSpace "  team a   " = "team a".
Proof. reflexivity. Qed.

(** U+00A0 and U+2003 are white space, a lone byte C2 is not. *)
Example TrimSpace_unicode :
  Go.TrimSpace (String (ascii_of_nat 194) (String (ascii_of_nat 160)
                 (String (ascii_of_nat 226) (String (ascii_of_nat 128)
                   (String (ascii_of_nat 131) EmptyString))))) = EmptyString /\
  Go.TrimSpace (String (ascii_of_nat 194) EmptyString) = String (ascii_of_nat 194) EmptyString.
Proof. split; reflexivity. Qed.

Example ParseInt_values :
  Go.ParseInt "1700000000000000100" = (1700000000000000100, Go.NoError) /\
  Go.ParseInt "-5" = (-5, Go.NoError) /\
  Go.ParseInt "1.5" = (0, Go.ErrSyntax) /\
  Go.ParseInt "9223372036854775808" = (9223372036854775807, Go.ErrRange) /\
  Go.ParseInt "-9223372036854775808" = (-9223372036854775808, Go.NoError).
Proof. repeat split; reflexivity. Qed.

Example effectiveLimit_values :
  Logs.effectiveLimit 0 = 100 /\ Logs.effectiveLimit (-5) = 100 /\ Logs.effectiveLimit 25 = 25.
Proof. repeat split; reflexivity. Qed.

Example mapOperator_values :
  Logs.mapOperator Examples.quotePlain "gte" = Ok ">=" /\
  Logs.mapOperator Examples.quotePlain "between"
  = Err ("unsupported operator " +:+ Go.dquote +:+ "between" +:+ Go.dquote +:+
         ": must be one of gt, gte, lt, lte, eq, neq").
Proof. split; reflexivity. Qed.

Example Unix_normalises :
  Go.Unix 0 1500000000 = Go.mkTime 1 500000000 /\ Go.Unix 0 (-1) = Go.mkTime (-1) 999999999.
Proof. split; reflexivity. Qed.

(** The traces list query has no required field: with an empty scope it
    selects over the whole stream. *)
Example tracesList_without_scope :
  Tracing.generateTracesListQuery
    (Tracing.mkTracesQueryParams Examples.epoch Examples.epoch 0 EmptyString
       (Tracing.mkScope EmptyString EmptyString EmptyString EmptyString)
       EmptyString EmptyString) "default"
  = Ok (mkSearchQuery
          ("SELECT trace_id, span_id, operation_name, span_kind, start_time, end_time, " +:+
           "reference_parent_span_id FROM default ORDER BY start_time")
          0 0 0 (-1) None).
Proof. reflexivity. Qed.

End Checks.

(** ** Strings: basic facts *)

Section StringFacts.

Lemma append_nil_l (s : string) : EmptyString +:+ s = s.
Proof. reflexivity. Qed.

Lemma append_cons (c : ascii) (s t : string) : String c s +:+ t = String c (s +:+ t).
Proof. reflexivity. Qed.

Lemma append_nil_r (s : string) : s +:+ EmptyString = s.
Proof.
  induction s as [|c s IH]; [reflexivity|].
  now rewrite append_cons, IH.
Qed.

Lemma append_assoc (a b c : string) : (a +:+ b) +:+ c = a +:+ (b +:+ c).
Proof.
  induction a as [|x a IH]; [reflexivity|].
  now rewrite !append_cons, IH.
Qed.

Lemma length_append (a b : string) :
  String.length (a +:+ b) = (String.length a + String.length b)%nat.
Proof.
  induction a as [|x a IH]; [reflexivity|].
  rewrite append_cons. simpl. now rewrite IH.
Qed.

(** Replacing a one-byte pattern acts on each byte separately. *)
Lemma ReplaceAll_byte (c : ascii) (new s : string) :
  Go.ReplaceAll s (String c EmptyString) new =
  flatMapBytes (fun d => if Ascii.eqb d c then new else String d EmptyString) s.
Proof.
  unfold Go.ReplaceAll.
  induction s as [|d s IH]; [reflexivity|].
  cbn [Go.replaceFrom flatMapBytes String.prefix String.length Nat.sub].
  destruct (ascii_dec c d) as [->|Hne].
  - rewrite Ascii.eqb_refl.
    replace (String.prefix EmptyString s) with true by (now destruct s).
    now rewrite IH.
  - destruct (Ascii.eqb_spec d c) as [->|_]; [congruence|].
    now rewrite IH.
Qed.

Lemma flatMapBytes_append (f : ascii -> string) (a b : string) :
  flatMapBytes f (a +:+ b) = flatMapBytes f a +:+ flatMapBytes f b.
Proof.
  induction a as [|x a IH]; [reflexivity|].
  rewrite append_cons. cbn [flatMapBytes].
  now rewrite IH, append_assoc.
Qed.

(** The two passes of [escapeSQLString] amount to one pass with
    [escapeByte]. *)
Lemma escapeSQLString_bytes (s : string) :
  escapeSQLString s = flatMapBytes escapeByte s.
Proof.
  unfold escapeSQLString. rewrite !ReplaceAll_byte.
  induction s as [|c s IH]; [reflexivity|].
  cbn [flatMapBytes]. rewrite flatMapBytes_append, IH. f_equal.
  unfold escapeByte.
  destruct (Ascii.eqb_spec c "\"%char) as [->|H1]; [reflexivity|].
  cbn [flatMapBytes].
  destruct (Ascii.eqb_spec c "'"%char) as [->|H2]; reflexivity.
Qed.

Lemma escapeSQLString_cons (c : ascii) (s : string) :
  escapeSQLString (String c s) = escapeByte c +:+ escapeSQLString s.
Proof. now rewrite !escapeSQLString_bytes. Qed.

(** Reading back an escaped value followed by a closing quote. *)
Lemma unescapeBody_escape (s rest : string) :
  (forall r, rest <> String "'"%char r) ->
  unescapeBody (escapeSQLString s +:+ "'" +:+ rest) = Some (s, rest).
Proof.
  intros Hrest.
  change ("'" +:+ rest) with (String "'"%char rest).
  induction s as [|c s IH].
  - change (escapeSQLString EmptyString) with EmptyString.
    rewrite append_nil_l. cbn [unescapeBody]. rewrite Ascii.eqb_refl.
    replace (Ascii.eqb "'"%char "\"%char) with false by reflexivity.
    destruct rest as [|d r]; [reflexivity|].
    destruct (Ascii.eqb_spec d "'"%char) as [->|_]; [now destruct (Hrest r)|reflexivity].
  - rewrite escapeSQLString_cons, append_assoc. unfold escapeByte.
    destruct (Ascii.eqb_spec c "\"%char) as [->|H1].
    + rewrite 2!append_cons, append_nil_l. cbn [unescapeBody].
      rewrite Ascii.eqb_refl. now rewrite IH.
    + destruct (Ascii.eqb_spec c "'"%char) as [->|H2].
      * rewrite 2!append_cons, append_nil_l. cbn [unescapeBody].
        rewrite Ascii.eqb_refl.
        replace (Ascii.eqb "'"%char "\"%char) with false by reflexivity.
        now rewrite IH.
      * rewrite append_cons, append_nil_l. cbn [unescapeBody].
        destruct (Ascii.eqb_spec c "\"%char); [congruence|].
        destruct (Ascii.eqb_spec c "'"%char); [congruence|].
        now rewrite IH.
Qed.

Lemma unescapeLiteral_escape (s rest : string) :
  (forall r, rest <> String "'"%char r) ->
  unescapeLiteral ("'" +:+ escapeSQLString s +:+ "'" +:+ rest) = Some (s, rest).
Proof.
  intros Hrest. rewrite append_cons, append_nil_l. cbn [unescapeLiteral].
  rewrite Ascii.eqb_refl. now apply unescapeBody_escape.
Qed.

Lemma unescapeLiteral_escape_end (s : string) :
  unescapeLiteral ("'" +:+ escapeSQLString s +:+ "'") = Some (s, EmptyString).
Proof. apply (unescapeLiteral_escape s EmptyString). intros r; discriminate. Qed.

Lemma HasPrefix_append (prefix s : string) : Go.HasPrefix (prefix +:+ s) prefix = true.
Proof.
  unfold Go.HasPrefix. induction prefix as [|c prefix IH].
  - now destruct s.
  - rewrite append_cons. cbn [String.prefix].
    destruct (ascii_dec c c); [exact IH | congruence].
Qed.

End StringFacts.

(** ** Escaping: the round trip *)

(** C2. [escapeSQLString] doubles every backslash, then every single
    quote: each backslash and each single quote of the input becomes two
    of them and every other byte is kept.  Put between single quotes, the
    result reads back as exactly the input, whatever follows the closing
    quote.  The five bytes of a'b\c become the seven bytes of a''b\\c. *)
Theorem escapeSQLString_roundtrip :
  (forall s, escapeSQLString s = Go.ReplaceAll (Go.ReplaceAll s "\" "\\") "'" "''") /\
  (forall s, escapeSQLString s = flatMapBytes escapeByte s) /\
  (forall s, String.length (escapeSQLString s) =
             (String.length s + countByte "\"%char s + countByte "'"%char s)%nat) /\
  (forall s, unescapeLiteral ("'" +:+ escapeSQLString s +:+ "'") = Some (s, EmptyString)) /\
  (forall s rest, (forall r, rest <> String "'"%char r) ->
             unescapeLiteral ("'" +:+ escapeSQLString s +:+ "'" +:+ rest) = Some (s, rest)) /\
  escapeSQLString "a'b\c" = "a''b\\c" /\
  String.length "a'b\c" = 5%nat /\ String.length "a''b\\c" = 7%nat.
Proof.
  split; [reflexivity|].
  split; [exact escapeSQLString_bytes|].
  split.
  { intros s. rewrite escapeSQLString_bytes.
    induction s as [|c s IH]; [reflexivity|].
    cbn [flatMapBytes countByte String.length]. rewrite length_append, IH.
    unfold escapeByte.
    destruct (Ascii.eqb_spec c "\"%char) as [->|H1]; [simpl; lia|].
    destruct (Ascii.eqb_spec c "'"%char) as [->|H2]; simpl; lia. }
  split; [exact unescapeLiteral_escape_end|].
  split; [exact unescapeLiteral_escape|].
  repeat split; reflexivity.
Qed.


Lemma escapeSQLString_roundtrip_witness :
  unescapeLiteral ("'" +:+ escapeSQLString "a'b\c" +:+ "'" +:+ " AND x = 1")
  = Some ("a'b\c", " AND x = 1").
Proof.
  apply (proj1 (proj2 (proj2 (proj2 (proj2 escapeSQLString_roundtrip))))).
  intros r. discriminate.
Defined.

(** ** The order clause *)

Section OrderClause.

Lemma list_of_append (a b : string) :
  list_ascii_of_string (a +:+ b) = list_ascii_of_string a ++ list_ascii_of_string b.
Proof.
  induction a as [|c a IH]; [reflexivity|].
  rewrite append_cons. cbn [list_ascii_of_string]. now rewrite IH.
Qed.

(** Two texts that end differently are different, whatever precedes. *)
Lemma endsWith_rev (s suffix : string) :
  endsWith s suffix ->
  exists k, rev (list_ascii_of_string s) = rev (list_ascii_of_string suffix) ++ k.
Proof.
  intros [pre ->]. exists (rev (list_ascii_of_string pre)).
  now rewrite list_of_append, rev_app_distr.
Qed.

Lemma orderClause_asc (sortOrder : string) :
  ascending sortOrder -> Logs.orderClause sortOrder = " ORDER BY _timestamp ASC".
Proof. intros [-> | ->]; reflexivity. Qed.

Lemma orderClause_desc (sortOrder : string) :
  ~ ascending sortOrder -> Logs.orderClause sortOrder = " ORDER BY _timestamp DESC".
Proof.
  intros Hn. unfold Logs.orderClause.
  destruct (String.eqb_spec sortOrder "ASC") as [->|H1]; [destruct Hn; now right|].
  destruct (String.eqb_spec sortOrder "asc") as [->|H2]; [destruct Hn; now left|].
  reflexivity.
Qed.

Lemma ascending_dec (sortOrder : string) : ascending sortOrder \/ ~ ascending sortOrder.
Proof.
  unfold ascending.
  destruct (String.eqb_spec sortOrder "asc"); [now left; left|].
  destruct (String.eqb_spec sortOrder "ASC"); [now left; right|].
  right; intros [?|?]; contradiction.
Qed.

Lemma desc_not_asc (body : string) :
  ~ endsWith (body +:+ " ORDER BY _timestamp DESC") " ORDER BY _timestamp ASC".
Proof.
  intros H. apply endsWith_rev in H as [k Hk].
  rewrite list_of_append, rev_app_distr in Hk.
  cbn in Hk. discriminate Hk.
Qed.

Lemma asc_not_desc (body : string) :
  ~ endsWith (body +:+ " ORDER BY _timestamp ASC") " ORDER BY _timestamp DESC".
Proof.
  intros H. apply endsWith_rev in H as [k Hk].
  rewrite list_of_append, rev_app_distr in Hk.
  cbn in Hk. discriminate Hk.
Qed.

Lemma ends_asc_iff (body sortOrder : string) :
  endsWith (body +:+ Logs.orderClause sortOrder) " ORDER BY _timestamp ASC"
  <-> ascending sortOrder.
Proof.
  split.
  - intros H. destruct (ascending_dec sortOrder) as [Ha|Hn]; [exact Ha|].
    rewrite (orderClause_desc _ Hn) in H. now apply desc_not_asc in H.
  - intros Ha. rewrite (orderClause_asc _ Ha). now exists body.
Qed.

Lemma ends_desc_iff (body sortOrder : string) :
  endsWith (body +:+ Logs.orderClause sortOrder) " ORDER BY _timestamp DESC"
  <-> ~ ascending sortOrder.
Proof.
  split.
  - intros H Ha. rewrite (orderClause_asc _ Ha) in H. now apply asc_not_desc in H.
  - intros Hn. rewrite (orderClause_desc _ Hn). now exists body.
Qed.

End OrderClause.

(** C7, as stated, fails: the sort order [Asc] equals [asc] up to case,
    and both log queries order descending for it. *)
Lemma sortOrder_Asc_orders_descending :
  equalFold "Asc" "asc" = true /\
  Logs.generateComponentLogsQuery
    (Logs.mkComponentLogsParams "ns" [] "" "" (Go.mkTime 0 0) (Go.mkTime 0 0) "" [] 0 "Asc")
    "default"
  = Ok (mkSearchQuery
          ("SELECT * FROM " +:+ Go.dquote +:+ "default" +:+ Go.dquote +:+
           " WHERE kubernetes_labels_openchoreo_dev_namespace = 'ns'" +:+
           " ORDER BY _timestamp DESC")
          0 0 0 100 (Some 0)) /\
  Logs.generateWorkflowLogsQuery
    (Logs.mkWorkflowLogsParams "ns" "run" (Go.mkTime 0 0) (Go.mkTime 0 0) "" [] 0 "Asc")
    "default"
  = Ok (mkSearchQuery
          ("SELECT * FROM " +:+ Go.dquote +:+ "default" +:+ Go.dquote +:+
           " WHERE kubernetes_namespace_name = 'openchoreo-ci-ns'" +:+
           " AND kubernetes_labels_workflows_argoproj_io_workflow = 'run'" +:+
           " ORDER BY _timestamp DESC")
          0 0 0 100 (Some 0)).
Proof. repeat split; vm_compute; reflexivity. Qed.

(** C7, amended.  The SQL text of a component logs query and of a workflow
    logs query ends with the ascending order clause exactly when the sort
    order is [asc] or [ASC], and with the descending order clause for
    every other value, among them [Asc], [bogus] and the empty string. *)
Theorem sortOrder_whitelist :
  (forall p stream q,
      Logs.generateComponentLogsQuery p stream = Ok q ->
      (endsWith (q_sql q) " ORDER BY _timestamp ASC" <-> ascending (Logs.cl_SortOrder p)) /\
      (endsWith (q_sql q) " ORDER BY _timestamp DESC" <-> ~ ascending (Logs.cl_SortOrder p))) /\
  (forall p stream q,
      Logs.generateWorkflowLogsQuery p stream = Ok q ->
      (endsWith (q_sql q) " ORDER BY _timestamp ASC" <-> ascending (Logs.wl_SortOrder p)) /\
      (endsWith (q_sql q) " ORDER BY _timestamp DESC" <-> ~ ascending (Logs.wl_SortOrder p))) /\
  ~ ascending "Asc" /\ ~ ascending "bogus" /\ ~ ascending "" /\ ~ ascending "desc".
Proof.
  split; [|split].
  - intros p stream q H. unfold Logs.generateComponentLogsQuery in H.
    destruct (isEmpty (Logs.cl_Namespace p)); [discriminate|].
    injection H as <-. cbn [q_sql]. unfold Logs.componentLogsSQL.
    split; [apply ends_asc_iff | apply ends_desc_iff].
  - intros p stream q H. injection H as <-. cbn [q_sql]. unfold Logs.workflowLogsSQL.
    split; [apply ends_asc_iff | apply ends_desc_iff].
  - repeat split; intros [H|H]; discriminate H.
Qed.

Lemma sortOrder_whitelist_witness :
  endsWith
    ("SELECT * FROM " +:+ Go.dquote +:+ "default" +:+ Go.dquote +:+
     " WHERE kubernetes_namespace_name = 'openchoreo-ci-ns'" +:+
     " AND kubernetes_labels_workflows_argoproj_io_workflow = 'run'" +:+
     " ORDER BY _timestamp ASC")
    " ORDER BY _timestamp ASC".
Proof.
  apply (proj1 (proj1 (proj2 sortOrder_whitelist)
    (Logs.mkWorkflowLogsParams "ns" "run" (Go.mkTime 0 0) (Go.mkTime 0 0) "" [] 0 "asc")
    "default" _ eq_refl)).
  left; reflexivity.
Defined.

(** ** The namespace filter of workflow logs *)

(** C10. For a workflow logs request with a non-empty namespace, the whole
    SQL text is determined: after [WHERE] comes the condition that compares
    the column [kubernetes_namespace_name] with the literal made of the
    prefix [openchoreo-ci-] and the escaped namespace, then the other
    conditions, each joined by [AND], then the order clause, and nothing
    else.  The other conditions are, in this order and each only when its
    value is present, the one on the workflow run name, the one on the
    search phrase and the group on the log levels; each is on another
    column.  Read in place in the text, the literal of the namespace
    condition denotes the prefixed namespace, which differs from the
    namespace itself. *)
Theorem workflow_namespace_prefixed (p : Logs.WorkflowLogsParams) (stream : string) :
  Logs.wl_Namespace p <> EmptyString ->
  let others :=
    (if isEmpty (Logs.wl_WorkflowRunName p) then []
     else ["kubernetes_labels_workflows_argoproj_io_workflow = '" +:+
           escapeSQLString (Logs.wl_WorkflowRunName p) +:+ "'"]) ++
    (if isEmpty (Logs.wl_SearchPhrase p) then []
     else ["log LIKE '%" +:+ escapeSQLString (Logs.wl_SearchPhrase p) +:+ "%'"]) ++
    (match Logs.wl_LogLevels p with
     | [] => []
     | levels =>
         ["(" +:+ Go.Join (map (fun level => "logLevel = '" +:+ escapeSQLString level +:+ "'")
                               levels) " OR " +:+ ")"]
     end) in
  let tail :=
    (match others with
     | [] => EmptyString
     | _ => " AND " +:+ Go.Join others " AND "
     end) +:+
    (if String.eqb (Logs.wl_SortOrder p) "ASC" || String.eqb (Logs.wl_SortOrder p) "asc"
     then " ORDER BY _timestamp ASC" else " ORDER BY _timestamp DESC") in
  Logs.workflowConditions p =
    ("kubernetes_namespace_name = 'openchoreo-ci-" +:+
     escapeSQLString (Logs.wl_Namespace p) +:+ "'") :: others /\
  Forall (fun c => Go.HasPrefix c "kubernetes_namespace_name" = false) others /\
  Logs.generateWorkflowLogsQuery p stream =
    Ok (mkSearchQuery
          ("SELECT * FROM " +:+ quoteIdentifier stream +:+
           " WHERE kubernetes_namespace_name = 'openchoreo-ci-" +:+
           escapeSQLString (Logs.wl_Namespace p) +:+ "'" +:+ tail)
          (Go.UnixMicro (Logs.wl_StartTime p)) (Go.UnixMicro (Logs.wl_EndTime p))
          0 (Logs.effectiveLimit (Logs.wl_Limit p)) (Some 0)) /\
  unescapeLiteral ("'" +:+ escapeSQLString ("openchoreo-ci-" +:+ Logs.wl_Namespace p) +:+ "'")
    = Some ("openchoreo-ci-" +:+ Logs.wl_Namespace p, EmptyString) /\
  escapeSQLString ("openchoreo-ci-" +:+ Logs.wl_Namespace p)
    = "openchoreo-ci-" +:+ escapeSQLString (Logs.wl_Namespace p) /\
  "openchoreo-ci-" +:+ Logs.wl_Namespace p <> Logs.wl_Namespace p /\
  unescapeLiteral ("'openchoreo-ci-" +:+ escapeSQLString (Logs.wl_Namespace p) +:+ "'" +:+ tail)
    = Some ("openchoreo-ci-" +:+ Logs.wl_Namespace p, tail) /\
  Forall (fun c =>
            Go.HasPrefix c "kubernetes_labels_workflows_argoproj_io_workflow = '" = true \/
            Go.HasPrefix c "log LIKE '%" = true \/
            Go.HasPrefix c "(logLevel = '" = true) others.
Proof.
  intros Hns others tail.
  set (first := "kubernetes_namespace_name = 'openchoreo-ci-" +:+
                escapeSQLString (Logs.wl_Namespace p) +:+ "'").
  assert (Hconds : Logs.workflowConditions p = first :: others).
  { unfold Logs.workflowConditions, isEmpty.
    destruct (String.eqb_spec (Logs.wl_Namespace p) EmptyString); [contradiction|].
    reflexivity. }
  assert (Hescape : escapeSQLString ("openchoreo-ci-" +:+ Logs.wl_Namespace p)
                    = "openchoreo-ci-" +:+ escapeSQLString (Logs.wl_Namespace p)).
  { rewrite !escapeSQLString_bytes, flatMapBytes_append. reflexivity. }
  split; [exact Hconds|].
  split.
  { subst others. rewrite !Forall_app. repeat split.
    - destruct (isEmpty (Logs.wl_WorkflowRunName p)); [constructor|].
      constructor; [reflexivity|constructor].
    - destruct (isEmpty (Logs.wl_SearchPhrase p)); [constructor|].
      constructor; [reflexivity|constructor].
    - destruct (Logs.wl_LogLevels p); [constructor|].
      constructor; [reflexivity|constructor]. }
  split.
  { unfold Logs.generateWorkflowLogsQuery, Logs.workflowLogsSQL, Logs.selectWhere.
    rewrite Hconds. do 2 f_equal.
    change (Go.Join (first :: others) " AND ")
      with (match others with
            | [] => first
            | _ => first +:+ " AND " +:+ Go.Join others " AND "
            end).
    unfold first, tail, Logs.orderClause.
    destruct others; rewrite ?append_assoc; reflexivity. }
  split.
  { apply unescapeLiteral_escape_end. }
  split; [exact Hescape|].
  split.
  { intros H. apply (f_equal String.length) in H.
    rewrite length_append in H. simpl in H. lia. }
  split.
  { change ("'openchoreo-ci-" +:+ escapeSQLString (Logs.wl_Namespace p) +:+ "'" +:+ tail)
      with ("'" +:+ ("openchoreo-ci-" +:+ escapeSQLString (Logs.wl_Namespace p))
            +:+ "'" +:+ tail).
    rewrite <- Hescape. apply unescapeLiteral_escape.
    intros r. unfold tail.
    destruct others; [|discriminate].
    destruct (String.eqb (Logs.wl_SortOrder p) "ASC" || String.eqb (Logs.wl_SortOrder p) "asc");
      discriminate. }
  subst others. rewrite !Forall_app. repeat split.
  - destruct (isEmpty (Logs.wl_WorkflowRunName p)); [constructor|].
    constructor; [left; apply HasPrefix_append|constructor].
  - destruct (isEmpty (Logs.wl_SearchPhrase p)); [constructor|].
    constructor; [right; left; apply HasPrefix_append|constructor].
  - destruct (Logs.wl_LogLevels p) as [|level levels]; [constructor|].
    constructor; [|constructor]. right. right.
    assert (Hjoin : exists r,
              Go.Join (map (fun level => "logLevel = '" +:+ escapeSQLString level +:+ "'")
                           (level :: levels)) " OR " = "logLevel = '" +:+ r).
    { destruct levels; cbn [map Go.Join]; eexists; rewrite ?append_assoc; reflexivity. }
    destruct Hjoin as [r ->].
    exact (HasPrefix_append "(logLevel = '" (r +:+ ")")).
Qed.

Lemma workflow_namespace_prefixed_witness :
  Logs.generateWorkflowLogsQuery
    (Logs.mkWorkflowLogsParams "team'a" "run" (Go.mkTime 0 0) (Go.mkTime 0 0) "" [] 0 "")
    "default" =
  Ok (mkSearchQuery
        ("SELECT * FROM " +:+ quoteIdentifier "default" +:+
         " WHERE kubernetes_namespace_name = 'openchoreo-ci-team''a'" +:+
         " AND kubernetes_labels_workflows_argoproj_io_workflow = 'run'" +:+
         " ORDER BY _timestamp DESC")
        0 0 0 100 (Some 0)).
Proof.
  refine (proj1 (proj2 (proj2
            (workflow_namespace_prefixed
               (Logs.mkWorkflowLogsParams "team'a" "run" (Go.mkTime 0 0) (Go.mkTime 0 0)
                  "" [] 0 "") "default" _)))).
  discriminate.
Defined.

(** ** Error reporting of the search clients *)

Section SearchErrors.

Variable transport : Transport.
Variable decode : string -> result OpenObserveResponse.

(** The tracing client reports the status code only; the body goes to the
    log. *)
Lemma tracing_executeSearchQuery_omits_body
    (c : Tracing.Client) (q : SearchQuery) (status : Z) (body : string) :
  transport (Tracing.searchRequest c q) = Response status body ->
  status <> 200 ->
  Tracing.executeSearchQuery transport decode c q =
    ([HttpDo (Tracing.searchRequest c q);
      LogError "OpenObserve returned error"
               [("statusCode", Go.fmt_d status); ("body", body)]],
     Err ("openobserve returned status " +:+ Go.fmt_d status +:+ ": response body omitted")).
Proof.
  intros Htr Hst. unfold Tracing.executeSearchQuery. rewrite Htr.
  destruct (Z.eqb_spec status 200) as [|_]; [contradiction|].
  reflexivity.
Qed.

(** The logs client appends the body to the message of the error. *)
Lemma logs_executeSearchQuery_appends_body
    (c : Logs.Client) (q : SearchQuery) (status : Z) (body : string) :
  transport (Logs.searchRequest c q) = Response status body ->
  status <> 200 ->
  Logs.executeSearchQuery transport decode c q =
    ([HttpDo (Logs.searchRequest c q);
      LogError "OpenObserve returned error"
               [("statusCode", Go.fmt_d status); ("body", body)]],
     Err ("openobserve returned status " +:+ Go.fmt_d status +:+ ": " +:+ body)).
Proof.
  intros Htr Hst. unfold Logs.executeSearchQuery. rewrite Htr.
  destruct (Z.eqb_spec status 200) as [|_]; [contradiction|].
  reflexivity.
Qed.

End SearchErrors.

(** C3. On a response with status 500, the search operation of the logs
    client returns an error whose message carries the status code and
    also the whole body of the response, and the handler passes that
    message on in its 500 response; on the same response the search
    operation of the tracing client returns an error that carries the
    status code and no part of the body. *)
Theorem logs_search_error_carries_body :
  value (Logs.executeSearchQuery Examples.failingBackend Examples.decodeEmpty
           Examples.logsClient Examples.someQuery)
  = Err "openobserve returned status 500: shard 3 of index logs_2026 is unavailable" /\
  value (LogsHandler.QueryLogs Examples.failingBackend Examples.decodeEmpty Examples.noFloat
           Examples.logsClient
           (Some (LogsHandler.mkLogsQueryRequest Examples.epoch Examples.epoch None None None None
                    (LogsHandler.mkSearchScopeUnion
                       (Ok (LogsHandler.mkWorkflowSearchScope "ns" None))
                       (Ok (LogsHandler.mkComponentSearchScope "ns" None None None))))))
  = LogsHandler.QueryLogs500JSONResponse LogsHandler.InternalServerError
      "openobserve returned status 500: shard 3 of index logs_2026 is unavailable" /\
  value (Tracing.executeSearchQuery Examples.failingBackend Examples.decodeEmpty
           Examples.tracingClient Examples.someQuery)
  = Err "openobserve returned status 500: response body omitted".
Proof. repeat split; vm_compute; reflexivity. Qed.

(** ** Computations with events *)

Section IOFacts.

Context {A B : Type}.

Lemma value_bind (m : IO A) (k : A -> IO B) : value (bind m k) = value (k (value m)).
Proof. destruct m as [ev a]. unfold bind, value. cbn. now destruct (k a). Qed.

Lemma events_bind (m : IO A) (k : A -> IO B) :
  events (bind m k) = events m ++ events (k (value m)).
Proof. destruct m as [ev a]. unfold bind, events, value. cbn. now destruct (k a). Qed.

Lemma value_ret (a : A) : value (ret a) = a.
Proof. reflexivity. Qed.

End IOFacts.

(** ** Resolving an alert ID by name *)

Section AlertLookup.

Lemma findAlertID_first (before after : list Logs.AlertListItem)
    (alert : Logs.AlertListItem) (name : string) :
  Forall (fun a => Logs.Name a <> name) before ->
  Logs.Name alert = name ->
  Logs.findAlertID (before ++ alert :: after) name = Some (Logs.AlertID alert).
Proof.
  intros Hb Ha. induction Hb as [|a before Hne _ IH]; cbn [app Logs.findAlertID].
  - rewrite Ha, String.eqb_refl. reflexivity.
  - destruct (String.eqb_spec (Logs.Name a) name); [contradiction|exact IH].
Qed.

Lemma findAlertID_none (alerts : list Logs.AlertListItem) (name : string) :
  Logs.findAlertID alerts name = None <-> Forall (fun a => Logs.Name a <> name) alerts.
Proof.
  induction alerts as [|a alerts IH]; cbn [Logs.findAlertID].
  - split; [constructor | reflexivity].
  - destruct (String.eqb_spec (Logs.Name a) name) as [He|Hne].
    + split; [discriminate|]. intros H. inversion H; contradiction.
    + rewrite IH. split; [now constructor|]. intros H; now inversion H.
Qed.

End AlertLookup.

(** C9. When the listing is fetched and decoded, resolving a name returns
    the [alert_id] of the first entry whose name is exactly the name; when
    no entry has the name it fails with the error [alert <name> not
    found].  That error is returned in no other case: a failure to build,
    send, read or decode the listing, or a status other than 200, gives an
    error with another message.  On the listing with the single alert
    [foo] of ID [x1], [foo] resolves to [x1] and [bar] is not found. *)
Theorem getAlertIDByName_first_match :
  (forall transport unmarshal quote c name body alerts,
      transport (Logs.alertsListRequest c) = Response 200 body ->
      unmarshal body = Ok alerts ->
      (forall before alert after,
          alerts = before ++ alert :: after ->
          Forall (fun a => Logs.Name a <> name) before ->
          Logs.Name alert = name ->
          value (Logs.getAlertIDByName transport unmarshal quote c name)
          = Ok (Logs.AlertID alert)) /\
      (Forall (fun a => Logs.Name a <> name) alerts ->
          value (Logs.getAlertIDByName transport unmarshal quote c name)
          = Err ("alert " +:+ quote name +:+ " not found"))) /\
  (forall transport unmarshal quote c name,
      value (Logs.getAlertIDByName transport unmarshal quote c name)
      = Err ("alert " +:+ quote name +:+ " not found") ->
      exists body alerts,
        transport (Logs.alertsListRequest c) = Response 200 body /\
        unmarshal body = Ok alerts /\
        Forall (fun a => Logs.Name a <> name) alerts) /\
  value (Logs.getAlertIDByName AlertExamples.listBackend AlertExamples.decodeListing
           Examples.quotePlain Examples.logsClient "foo") = Ok "x1" /\
  value (Logs.getAlertIDByName AlertExamples.listBackend AlertExamples.decodeListing
           Examples.quotePlain Examples.logsClient "bar")
  = Err ("alert " +:+ Go.dquote +:+ "bar" +:+ Go.dquote +:+ " not found").
Proof.
  split; [|split; [|split; vm_compute; reflexivity]].
  - intros transport unmarshal quote c name body alerts Htr Hdec.
    unfold Logs.getAlertIDByName. rewrite Htr, value_bind. cbn [negb Z.eqb Pos.eqb].
    rewrite Hdec.
    split.
    + intros before alert after -> Hb Ha.
      now rewrite (findAlertID_first before after alert name Hb Ha).
    + intros Hnone. apply findAlertID_none in Hnone. now rewrite Hnone.
  - intros transport unmarshal quote c name.
    assert (Hhead : forall (c0 : ascii) s0 u,
               c0 <> "a"%char ->
               Err (A := string) (String c0 s0 +:+ u)
               <> Err ("alert " +:+ quote name +:+ " not found")).
    { intros c0 s0 u Hc H. injection H as H1 H2. contradiction. }
    unfold Logs.getAlertIDByName.
    destruct (transport (Logs.alertsListRequest c)) as [err|err|st err|status body] eqn:Htr;
      rewrite ?value_bind, ?value_ret;
      try (intros H; apply Hhead in H; [destruct H | discriminate]).
    destruct (Z.eqb_spec status 200) as [->|Hne]; cbn [negb];
      [|rewrite value_ret; intros H; apply Hhead in H; [destruct H | discriminate]].
    destruct (unmarshal body) as [alerts|err] eqn:Hdec;
      [|rewrite value_ret; intros H; apply Hhead in H; [destruct H | discriminate]].
    destruct (Logs.findAlertID alerts name) as [id|] eqn:Hfind;
      rewrite value_ret; [discriminate|].
    intros _. exists body, alerts. repeat split; auto.
    now apply findAlertID_none.
Qed.

Lemma getAlertIDByName_first_match_witness :
  value (Logs.getAlertIDByName AlertExamples.listBackend AlertExamples.decodeListing
           Examples.quotePlain Examples.logsClient "foo") = Ok "x1".
Proof.
  apply (proj1 (proj1 getAlertIDByName_first_match
                  AlertExamples.listBackend AlertExamples.decodeListing Examples.quotePlain
                  Examples.logsClient "foo" "{...}" AlertExamples.listing eq_refl eq_refl)
               [] (Logs.mkAlertListItem "x1" "foo") [] eq_refl).
  - constructor.
  - reflexivity.
Defined.

(** ** Scope selection and validation in the logs handler *)

Section Handler.

Variable transport : Transport.
Variable decode : string -> result OpenObserveResponse.
Variable conv : string -> Z.

Lemma isBlank_true (s : string) : LogsHandler.isBlank s = true <-> Go.TrimSpace s = EmptyString.
Proof. unfold LogsHandler.isBlank, isEmpty. apply String.eqb_eq. Qed.

Lemma isBlank_false (s : string) : LogsHandler.isBlank s = false <-> Go.TrimSpace s <> EmptyString.
Proof. unfold LogsHandler.isBlank, isEmpty. apply String.eqb_neq. Qed.

(** The search sends at most one request: the one built from the query. *)
Lemma logs_executeSearchQuery_requests (c : Logs.Client) (q : SearchQuery) :
  Forall (fun req => req = Logs.searchRequest c q)
         (requestsOf (events (Logs.executeSearchQuery transport decode c q))).
Proof.
  unfold Logs.executeSearchQuery.
  destruct (transport (Logs.searchRequest c q)) as [err|err|st err|status body].
  - cbn. constructor.
  - cbn. repeat constructor.
  - cbn. repeat constructor.
  - destruct (negb (status =? 200)); [cbn; repeat constructor|].
    destruct (decode body); cbn; repeat constructor.
Qed.

Lemma requestsOf_app (a b : list Event) : requestsOf (a ++ b) = requestsOf a ++ requestsOf b.
Proof. unfold requestsOf. apply omap_app. Qed.

Lemma GetWorkflowLogs_requests (c : Logs.Client) (p : Logs.WorkflowLogsParams) :
  Forall (fun req =>
            req = Logs.searchRequest c
                    (mkSearchQuery (Logs.workflowLogsSQL p (Logs.stream c))
                       (Go.UnixMicro (Logs.wl_StartTime p)) (Go.UnixMicro (Logs.wl_EndTime p))
                       0 (Logs.effectiveLimit (Logs.wl_Limit p)) (Some 0)))
         (requestsOf (events (Logs.GetWorkflowLogs transport decode conv c p))).
Proof.
  unfold Logs.GetWorkflowLogs, Logs.generateWorkflowLogsQuery.
  rewrite events_bind, requestsOf_app. apply Forall_app. split.
  - apply logs_executeSearchQuery_requests.
  - destruct (value _); cbn; constructor.
Qed.

End Handler.

(** C8. A component logs query cannot be generated for an empty namespace:
    the generator fails with [namespace is required for component log
    queries] and the client sends nothing.  A request handled under the
    component scope whose namespace is empty or blank after trimming is
    answered with the 400 response [searchScope with a valid namespace is
    required]; nothing is sent to the backend and nothing is logged,
    whatever the other fields hold. *)
Theorem component_namespace_required :
  (forall p stream,
      Logs.cl_Namespace p = EmptyString ->
      Logs.generateComponentLogsQuery p stream
      = Err "namespace is required for component log queries") /\
  (forall transport decode conv client p,
      Logs.cl_Namespace p = EmptyString ->
      requestsOf (events (Logs.GetComponentLogs transport decode conv client p)) = [] /\
      value (Logs.GetComponentLogs transport decode conv client p)
      = Err "failed to marshal query: namespace is required for component log queries") /\
  (forall transport decode conv client body scope,
      LogsHandler.workflowBranch (LogsHandler.SearchScope body) = None ->
      LogsHandler.AsComponentSearchScope (LogsHandler.SearchScope body) = Ok scope ->
      Go.TrimSpace (LogsHandler.cs_Namespace scope) = EmptyString ->
      LogsHandler.QueryLogs transport decode conv client (Some body)
      = ([], LogsHandler.QueryLogs400JSONResponse LogsHandler.BadRequest
               "searchScope with a valid namespace is required")) /\
  Go.TrimSpace EmptyString = EmptyString.
Proof.
  split; [|split; [|split; [|reflexivity]]].
  - intros p stream Hns. unfold Logs.generateComponentLogsQuery. now rewrite Hns.
  - intros transport decode conv client p Hns.
    unfold Logs.GetComponentLogs, Logs.generateComponentLogsQuery. rewrite Hns.
    split; reflexivity.
  - intros transport decode conv client body scope Hwf Hcs Hblank.
    unfold LogsHandler.QueryLogs. rewrite Hwf, Hcs.
    apply isBlank_true in Hblank. now rewrite Hblank.
Qed.

Lemma component_namespace_required_witness :
  LogsHandler.QueryLogs Examples.emptyBackend Examples.decodeEmpty Examples.noFloat
    Examples.logsClient (Some ScopeExamples.blankNamespaceRequest)
  = ([], LogsHandler.QueryLogs400JSONResponse LogsHandler.BadRequest
           "searchScope with a valid namespace is required").
Proof.
  apply (proj1 (proj2 (proj2 component_namespace_required))
           Examples.emptyBackend Examples.decodeEmpty Examples.noFloat Examples.logsClient
           ScopeExamples.blankNamespaceRequest
           (LogsHandler.mkComponentSearchScope "   " (Some "p1") (Some "e1") (Some "c1"))).
  - reflexivity.
  - reflexivity.
  - vm_compute. reflexivity.
Defined.

(** C4, as stated, fails: a request whose scope has a workflow run name and
    the identifiers of a component scope is not rejected.  It is answered
    with a 200 response, after one search request with the workflow logs
    query was sent. *)
Lemma ambiguous_scope_is_not_rejected :
  LogsHandler.AsWorkflowSearchScope (LogsHandler.SearchScope ScopeExamples.ambiguousRequest)
  = Ok (LogsHandler.mkWorkflowSearchScope "ns" (Some "run-1")) /\
  LogsHandler.AsComponentSearchScope (LogsHandler.SearchScope ScopeExamples.ambiguousRequest)
  = Ok (LogsHandler.mkComponentSearchScope "ns" (Some "p1") (Some "e1") (Some "c1")) /\
  value (LogsHandler.QueryLogs Examples.emptyBackend Examples.decodeEmpty Examples.noFloat
           Examples.logsClient (Some ScopeExamples.ambiguousRequest))
  = LogsHandler.QueryLogs200JSONResponse
      (LogsHandler.WorkflowLogs (Logs.mkWorkflowLogsResult [] 0 0)) /\
  map (fun req => match r_body req with QueryBody q => q_sql q | _ => EmptyString end)
      (requestsOf (events (LogsHandler.QueryLogs Examples.emptyBackend Examples.decodeEmpty
                             Examples.noFloat Examples.logsClient
                             (Some ScopeExamples.ambiguousRequest))))
  = ["SELECT * FROM " +:+ Go.dquote +:+ "default" +:+ Go.dquote +:+
     " WHERE kubernetes_namespace_name = 'openchoreo-ci-ns'" +:+
     " AND kubernetes_labels_workflows_argoproj_io_workflow = 'run-1'" +:+
     " ORDER BY _timestamp DESC"].
Proof. repeat split; vm_compute; reflexivity. Qed.

(** C4, amended.  When the scope of a logs request coerces to the workflow
    shape with a run name that is not blank, the request is handled as a
    workflow request whatever the coercion to the component shape gives.
    It is rejected with a 400 response, before anything is sent, when its
    namespace is blank, and only then.  Otherwise the handler runs
    [GetWorkflowLogs] on the workflow parameters of the request: the
    workflow logs query is generated, its search request is handed to the
    HTTP client (unless the request cannot be built), a 200 answer that
    decodes gives a 200 response with the workflow log entries of the
    hits, and a failure of the search gives a 500 response with the
    error, which is logged. *)
Theorem workflow_scope_takes_precedence
    (transport : Transport) (decode : string -> result OpenObserveResponse)
    (conv : string -> Z) (client : Logs.Client)
    (body : LogsHandler.LogsQueryRequest) (w : LogsHandler.WorkflowSearchScope)
    (name : string) :
  LogsHandler.AsWorkflowSearchScope (LogsHandler.SearchScope body) = Ok w ->
  LogsHandler.ws_WorkflowRunName w = Some name ->
  Go.TrimSpace name <> EmptyString ->
  let run := LogsHandler.QueryLogs transport decode conv client (Some body) in
  let params := LogsHandler.toWorkflowLogsParams body w in
  let query :=
    mkSearchQuery (Logs.workflowLogsSQL params (Logs.stream client))
      (Go.UnixMicro (LogsHandler.StartTime body)) (Go.UnixMicro (LogsHandler.EndTime body))
      0 (Logs.effectiveLimit (Logs.wl_Limit params)) (Some 0) in
  let req := Logs.searchRequest client query in
  (Go.TrimSpace (LogsHandler.ws_Namespace w) = EmptyString ->
     run = ([], LogsHandler.QueryLogs400JSONResponse LogsHandler.BadRequest
                  "searchScope with a valid namespace is required")) /\
  (Go.TrimSpace (LogsHandler.ws_Namespace w) <> EmptyString ->
     Logs.wl_Namespace params = LogsHandler.ws_Namespace w /\
     Logs.wl_WorkflowRunName params = name /\
     Forall (fun req =>
               exists q, Logs.generateWorkflowLogsQuery params (Logs.stream client) = Ok q /\
                         req = Logs.searchRequest client q)
            (requestsOf (events run)) /\
     (forall title message,
         value run <> LogsHandler.QueryLogs400JSONResponse title message) /\
     Logs.generateWorkflowLogsQuery params (Logs.stream client) = Ok query /\
     run =
       bind (Logs.GetWorkflowLogs transport decode conv client params)
            (fun r => match r with
                      | Err err =>
                          bind (emit (LogError "Failed to query workflow logs"
                                                [("error", err)]))
                               (fun _ => ret (LogsHandler.QueryLogs500JSONResponse
                                                LogsHandler.InternalServerError err))
                      | Ok result =>
                          ret (LogsHandler.QueryLogs200JSONResponse
                                 (LogsHandler.WorkflowLogs result))
                      end) /\
     requestsOf (events run) =
       match transport req with
       | NewRequestFails _ => []
       | _ => [req]
       end /\
     (forall answer resp,
         transport req = Response 200 answer ->
         decode answer = Ok resp ->
         run = ([HttpDo req],
                LogsHandler.QueryLogs200JSONResponse
                  (LogsHandler.WorkflowLogs
                     {| Logs.wr_Logs :=
                          map (fun hit =>
                                 Logs.parseWorkflowLogEntry (Logs.hitTimestamp conv hit) hit)
                              (Hits resp);
                        Logs.wr_TotalCount := Total resp;
                        Logs.wr_Took := Took resp |}))) /\
     (forall err,
         value (Logs.executeSearchQuery transport decode client query) = Err err ->
         value run = LogsHandler.QueryLogs500JSONResponse LogsHandler.InternalServerError err /\
         last (events run) = Some (LogError "Failed to query workflow logs"
                                            [("error", err)]))).
Proof.
  intros Hw Hname Hrun run params query req.
  assert (Hbranch : LogsHandler.workflowBranch (LogsHandler.SearchScope body) = Some w).
  { unfold LogsHandler.workflowBranch. rewrite Hw, Hname.
    apply isBlank_false in Hrun. now rewrite Hrun. }
  split.
  - intros Hns. subst run. unfold LogsHandler.QueryLogs. rewrite Hbranch.
    apply isBlank_true in Hns. now rewrite Hns.
  - intros Hns. apply isBlank_false in Hns.
    assert (Hrun_eq : run =
      bind (Logs.GetWorkflowLogs transport decode conv client params)
           (fun r => match r with
                     | Err err =>
                         bind (emit (LogError "Failed to query workflow logs"
                                               [("error", err)]))
                              (fun _ => ret (LogsHandler.QueryLogs500JSONResponse
                                               LogsHandler.InternalServerError err))
                     | Ok result =>
                         ret (LogsHandler.QueryLogs200JSONResponse
                                (LogsHandler.WorkflowLogs result))
                     end)).
    { subst run. unfold LogsHandler.QueryLogs. rewrite Hbranch, Hns. reflexivity. }
    split; [reflexivity|].
    split; [subst params; cbn; now rewrite Hname|].
    split.
    { rewrite Hrun_eq, events_bind, requestsOf_app. apply Forall_app. split.
      - eapply Forall_impl; [apply GetWorkflowLogs_requests|].
        intros r ->. eexists. split; reflexivity.
      - destruct (value _); cbn; constructor. }
    split.
    { intros title message. rewrite Hrun_eq, value_bind.
      destruct (value (Logs.GetWorkflowLogs transport decode conv client params))
        as [result|err]; cbn; discriminate. }
    split; [reflexivity|].
    split; [exact Hrun_eq|].
    assert (Hget : Logs.GetWorkflowLogs transport decode conv client params =
      bind (Logs.executeSearchQuery transport decode client query)
           (fun r => match r with
                     | Err err => ret (Err err)
                     | Ok resp =>
                         ret (Ok {| Logs.wr_Logs :=
                                      map (fun hit =>
                                             Logs.parseWorkflowLogEntry
                                               (Logs.hitTimestamp conv hit) hit)
                                          (Hits resp);
                                    Logs.wr_TotalCount := Total resp;
                                    Logs.wr_Took := Took resp |})
                     end)) by reflexivity.
    split.
    { rewrite Hrun_eq, Hget. unfold Logs.executeSearchQuery. fold req.
      destruct (transport req) as [err|err|st err|status answer]; try reflexivity.
      destruct (negb (status =? 200)); [reflexivity|].
      destruct (decode answer); reflexivity. }
    split.
    { intros answer resp Htr Hdec. rewrite Hrun_eq, Hget.
      unfold Logs.executeSearchQuery. fold req. rewrite Htr.
      cbn [Z.eqb Pos.eqb negb]. rewrite Hdec. reflexivity. }
    intros err Herr. rewrite Hrun_eq, Hget.
    destruct (Logs.executeSearchQuery transport decode client query) as [evs r].
    cbn [value snd] in Herr. subst r. cbn.
    split; [reflexivity|]. rewrite app_nil_r. apply last_snoc.
Qed.

Lemma workflow_scope_takes_precedence_witness :
  Forall (fun req =>
            exists q,
              Logs.generateWorkflowLogsQuery
                (LogsHandler.toWorkflowLogsParams ScopeExamples.ambiguousRequest
                   (LogsHandler.mkWorkflowSearchScope "ns" (Some "run-1")))
                (Logs.stream Examples.logsClient) = Ok q /\
              req = Logs.searchRequest Examples.logsClient q)
         (requestsOf (events (LogsHandler.QueryLogs Examples.emptyBackend Examples.decodeEmpty
                                Examples.noFloat Examples.logsClient
                                (Some ScopeExamples.ambiguousRequest)))).
Proof.
  refine (proj1 (proj2 (proj2
            (proj2 (workflow_scope_takes_precedence
                      Examples.emptyBackend Examples.decodeEmpty Examples.noFloat
                      Examples.logsClient ScopeExamples.ambiguousRequest
                      (LogsHandler.mkWorkflowSearchScope "ns" (Some "run-1")) "run-1"
                      eq_refl eq_refl _) _)))).
  - vm_compute. discriminate.
  - vm_compute. discriminate.
Defined.

(** ** Every generated SQL text is made of fixed fragments and escaped values *)

Section Templates.

Import Template.

Lemma render_app (a b : list piece) : render (a ++ b) = render a +:+ render b.
Proof.
  induction a as [|p a IH]; [reflexivity|].
  cbn [app render]. now rewrite IH, append_assoc.
Qed.

Lemma render_joinPieces (items : list (list piece)) (sep : string) :
  render (joinPieces items sep) = Go.Join (map render items) sep.
Proof.
  induction items as [|item rest IH]; [reflexivity|].
  destruct rest as [|item' rest]; [reflexivity|].
  change (joinPieces (item :: item' :: rest) sep)
    with (item ++ Static sep :: joinPieces (item' :: rest) sep).
  change (Go.Join (map render (item :: item' :: rest)) sep)
    with (render item +:+ sep +:+ Go.Join (map render (item' :: rest)) sep).
  rewrite render_app. cbn [render renderPiece]. now rewrite IH.
Qed.

Lemma render_equals (column value : string) :
  render (equals column value) = (column +:+ " = '") +:+ escapeSQLString value +:+ "'".
Proof. unfold equals. cbn [render renderPiece]. now rewrite append_nil_r. Qed.

Lemma render_like (value : string) :
  render (like value) = "log LIKE '%" +:+ escapeSQLString value +:+ "%'".
Proof. reflexivity. Qed.

Lemma render_anyOf (column : string) (values : list string) :
  render (anyOf column values) =
  "(" +:+ Go.Join (map (fun v => (column +:+ " = '") +:+ escapeSQLString v +:+ "'") values)
                  " OR " +:+ ")".
Proof.
  unfold anyOf. cbn [render renderPiece].
  rewrite render_app, render_joinPieces, map_map. cbn [render renderPiece].
  rewrite append_nil_r. reflexivity.
Qed.

Lemma render_whereClause (conditions : list (list piece)) (head tail : string) :
  head +:+ render (whereClause conditions) +:+ tail =
  match map render conditions with
  | [] => head
  | cs => head +:+ " WHERE " +:+ Go.Join cs " AND "
  end +:+ tail.
Proof.
  destruct conditions as [|c cs]; [reflexivity|].
  unfold whereClause. cbn [render renderPiece]. rewrite render_joinPieces.
  cbn [map]. now rewrite !append_assoc.
Qed.

Lemma map_render_unlessEmpty (value : string) (condition : list piece) :
  map render (unlessEmpty value condition) =
  if isEmpty value then [] else [render condition].
Proof. unfold unlessEmpty. now destruct (isEmpty value). Qed.

(** The fragments are allowed whatever the values. *)
Lemma allowed_joinPieces (values : list string) (stream sep : string)
    (items : list (list piece)) :
  In sep sqlFragments ->
  Forall (Forall (allowed values stream)) items ->
  Forall (allowed values stream) (joinPieces items sep).
Proof.
  intros Hsep H. induction H as [|item rest Hitem _ IH]; [constructor|].
  destruct rest as [|item' rest]; [exact Hitem|].
  change (joinPieces (item :: item' :: rest) sep)
    with (item ++ Static sep :: joinPieces (item' :: rest) sep).
  apply Forall_app. split; [exact Hitem|]. constructor; [exact Hsep | exact IH].
Qed.

Lemma allowed_whereClause (values : list string) (stream : string)
    (conditions : list (list piece)) :
  Forall (Forall (allowed values stream)) conditions ->
  Forall (allowed values stream) (whereClause conditions).
Proof.
  intros H. destruct conditions as [|c cs]; [constructor|].
  unfold whereClause. constructor; [vm_compute; tauto|].
  apply allowed_joinPieces; [vm_compute; tauto | exact H].
Qed.

Lemma allowed_equals (values : list string) (stream column value : string) :
  In (column +:+ " = '") sqlFragments -> In value values ->
  Forall (allowed values stream) (equals column value).
Proof.
  intros Hc Hv. unfold equals.
  constructor; [exact Hc|]. constructor; [exact Hv|].
  constructor; [vm_compute; tauto | constructor].
Qed.

Lemma allowed_like (values : list string) (stream value : string) :
  In value values -> Forall (allowed values stream) (like value).
Proof.
  intros Hv. unfold like.
  constructor; [vm_compute; tauto|]. constructor; [exact Hv|].
  constructor; [vm_compute; tauto | constructor].
Qed.

Lemma allowed_anyOf (values : list string) (stream column : string) (vs : list string) :
  In (column +:+ " = '") sqlFragments ->
  (forall v, In v vs -> In v values) ->
  Forall (allowed values stream) (anyOf column vs).
Proof.
  intros Hc Hvs. unfold anyOf. constructor; [vm_compute; tauto|].
  apply Forall_app. split; [|constructor; [vm_compute; tauto | constructor]].
  apply allowed_joinPieces; [vm_compute; tauto|].
  apply Forall_forall. intros item Hin. apply list_elem_of_In, in_map_iff in Hin.
  destruct Hin as (v & <- & Hv). apply allowed_equals; auto.
Qed.

Lemma allowed_unlessEmpty (values : list string) (stream value : string)
    (condition : list piece) :
  Forall (allowed values stream) condition ->
  Forall (Forall (allowed values stream)) (unlessEmpty value condition).
Proof.
  intros H. unfold unlessEmpty.
  destruct (isEmpty value); [constructor|]. constructor; [exact H | constructor].
Qed.

Lemma allowed_orderClause (values : list string) (stream sortOrder : string) :
  allowed values stream (Static (Logs.orderClause sortOrder)).
Proof.
  unfold Logs.orderClause.
  destruct (String.eqb sortOrder "ASC" || String.eqb sortOrder "asc"); vm_compute; tauto.
Qed.

End Templates.

Section TemplatesOfQueries.

Import Template.

Lemma selectWhere_render (stream tail : string) (conditions : list (list piece)) :
  Logs.selectWhere stream (map render conditions) +:+ tail =
  render ([Static "SELECT * FROM "; Ident stream] ++ whereClause conditions ++ [Static tail]).
Proof.
  rewrite render_app. cbn [render renderPiece]. rewrite render_app.
  cbn [render renderPiece]. rewrite !append_nil_r.
  rewrite append_assoc.
  rewrite (render_whereClause conditions (quoteIdentifier stream) tail).
  unfold Logs.selectWhere.
  destruct (map render conditions); now rewrite ?append_assoc.
Qed.

Lemma app_eq {A : Type} (a a' b b' : list A) : a = a' -> b = b' -> a ++ b = a' ++ b'.
Proof. now intros -> ->. Qed.

Lemma componentConditions_render (p : Logs.ComponentLogsParams) :
  Logs.componentConditions p =
  map render
    ([equals "kubernetes_labels_openchoreo_dev_namespace" (Logs.cl_Namespace p)] ++
     unlessEmpty (Logs.cl_ProjectID p)
       (equals "kubernetes_labels_openchoreo_dev_project_uid" (Logs.cl_ProjectID p)) ++
     unlessEmpty (Logs.cl_EnvironmentID p)
       (equals "kubernetes_labels_openchoreo_dev_environment_uid" (Logs.cl_EnvironmentID p)) ++
     (match Logs.cl_ComponentIDs p with
      | [] => []
      | ids => [anyOf "kubernetes_labels_openchoreo_dev_component_uid" ids]
      end) ++
     unlessEmpty (Logs.cl_SearchPhrase p) (like (Logs.cl_SearchPhrase p)) ++
     (match Logs.cl_LogLevels p with
      | [] => []
      | levels => [anyOf "logLevel" levels]
      end)).
Proof.
  unfold Logs.componentConditions.
  rewrite !map_app, !map_render_unlessEmpty.
  apply app_eq; [|apply app_eq; [|apply app_eq; [|apply app_eq; [|apply app_eq]]]].
  - cbn [map]. now rewrite render_equals.
  - destruct (isEmpty (Logs.cl_ProjectID p)); [reflexivity|]. now rewrite render_equals.
  - destruct (isEmpty (Logs.cl_EnvironmentID p)); [reflexivity|]. now rewrite render_equals.
  - destruct (Logs.cl_ComponentIDs p); [reflexivity|]. cbn [map]. now rewrite render_anyOf.
  - destruct (isEmpty (Logs.cl_SearchPhrase p)); reflexivity.
  - destruct (Logs.cl_LogLevels p); [reflexivity|]. cbn [map]. now rewrite render_anyOf.
Qed.

Lemma componentLogs_render (p : Logs.ComponentLogsParams) (stream : string) :
  Logs.componentLogsSQL p stream = render (componentLogs p stream).
Proof.
  unfold Logs.componentLogsSQL, componentLogs.
  rewrite componentConditions_render. apply selectWhere_render.
Qed.

Lemma workflowConditions_render (p : Logs.WorkflowLogsParams) :
  Logs.workflowConditions p =
  map render
    (unlessEmpty (Logs.wl_Namespace p)
       [Static "kubernetes_namespace_name = 'openchoreo-ci-";
        Escaped (Logs.wl_Namespace p); Static "'"] ++
     unlessEmpty (Logs.wl_WorkflowRunName p)
       (equals "kubernetes_labels_workflows_argoproj_io_workflow" (Logs.wl_WorkflowRunName p)) ++
     unlessEmpty (Logs.wl_SearchPhrase p) (like (Logs.wl_SearchPhrase p)) ++
     (match Logs.wl_LogLevels p with
      | [] => []
      | levels => [anyOf "logLevel" levels]
      end)).
Proof.
  unfold Logs.workflowConditions.
  rewrite !map_app, !map_render_unlessEmpty.
  apply app_eq; [|apply app_eq; [|apply app_eq]].
  - destruct (isEmpty (Logs.wl_Namespace p)); reflexivity.
  - destruct (isEmpty (Logs.wl_WorkflowRunName p)); [reflexivity|]. now rewrite render_equals.
  - destruct (isEmpty (Logs.wl_SearchPhrase p)); reflexivity.
  - destruct (Logs.wl_LogLevels p); [reflexivity|]. cbn [map]. now rewrite render_anyOf.
Qed.

Lemma workflowLogs_render (p : Logs.WorkflowLogsParams) (stream : string) :
  Logs.workflowLogsSQL p stream = render (workflowLogs p stream).
Proof.
  unfold Logs.workflowLogsSQL, workflowLogs.
  rewrite workflowConditions_render. apply selectWhere_render.
Qed.

Lemma alert_render (p : Logs.LogAlertParams) (stream : string) :
  Logs.alertQuery p stream = render (alert p stream).
Proof.
  unfold Logs.alertQuery, alert. cbn [render renderPiece].
  now rewrite append_nil_r.
Qed.

Lemma buildFilterConditions_render (p : Tracing.TracesQueryParams) :
  Tracing.buildFilterConditions p = map render (scopeConditions p).
Proof.
  unfold Tracing.buildFilterConditions, scopeConditions. cbv zeta.
  rewrite !map_app, !map_render_unlessEmpty.
  apply app_eq; [|apply app_eq; [|apply app_eq]].
  - destruct (isEmpty _); [reflexivity|]. now rewrite render_equals.
  - destruct (isEmpty _); [reflexivity|]. now rewrite render_equals.
  - destruct (isEmpty _); [reflexivity|]. now rewrite render_equals.
  - destruct (isEmpty _); [reflexivity|]. now rewrite render_equals.
Qed.

Lemma tracesList_render (p : Tracing.TracesQueryParams) (stream : string) :
  Tracing.tracesListSQL p stream = render (tracesList p stream).
Proof.
  unfold Tracing.tracesListSQL, tracesList. cbv zeta.
  rewrite buildFilterConditions_render.
  rewrite render_app. cbn [render renderPiece]. rewrite render_app.
  cbn [render renderPiece]. rewrite !append_nil_r.
  rewrite (render_whereClause (scopeConditions p) (_ +:+ stream) " ORDER BY start_time").
  destruct (map render (scopeConditions p)); reflexivity.
Qed.

Lemma spansList_render (p : Tracing.TracesQueryParams) (stream : string) :
  Tracing.spansListSQL p stream = render (spansList p stream).
Proof.
  unfold Tracing.spansListSQL, spansList. cbv zeta.
  rewrite render_app. cbn [render renderPiece]. rewrite render_app, render_equals.
  cbn [render renderPiece Go.Join]. rewrite !append_nil_r.
  destruct (String.eqb (Tracing.t_Sort p) "asc" || String.eqb (Tracing.t_Sort p) "ASC");
    now rewrite !append_assoc.
Qed.

Lemma spanDetail_render (p : Tracing.TracesQueryParams) (stream : string) :
  Tracing.spanDetailSQL p stream = render (spanDetail p stream).
Proof.
  unfold Tracing.spanDetailSQL, spanDetail. cbv zeta.
  rewrite render_app. cbn [render renderPiece]. rewrite !render_app, !render_equals.
  cbn [render renderPiece Go.Join]. rewrite !append_nil_r.
  now rewrite !append_assoc.
Qed.

End TemplatesOfQueries.

Section AllowedPieces.

Import Template.

Ltac fragment := vm_compute; tauto.
Ltac value_in := unfold componentLogsValues, workflowLogsValues, scopeValues;
                 cbn [allowed In app]; rewrite ?in_app_iff; tauto.

Lemma componentLogs_allowed (p : Logs.ComponentLogsParams) (stream : string) :
  Forall (allowed (componentLogsValues p) stream) (componentLogs p stream).
Proof.
  unfold componentLogs.
  apply Forall_app; split; [constructor; [fragment | constructor; [reflexivity | constructor]]|].
  apply Forall_app; split; [|constructor; [apply allowed_orderClause | constructor]].
  apply allowed_whereClause.
  repeat (apply Forall_app; split).
  - constructor; [|constructor]. apply allowed_equals; [fragment | value_in].
  - apply allowed_unlessEmpty, allowed_equals; [fragment | value_in].
  - apply allowed_unlessEmpty, allowed_equals; [fragment | value_in].
  - destruct (Logs.cl_ComponentIDs p) as [|id ids] eqn:Hids; [constructor|].
    constructor; [|constructor]. apply allowed_anyOf; [fragment|].
    intros v Hv. unfold componentLogsValues. rewrite Hids.
    apply in_or_app; right. apply in_or_app; left. exact Hv.
  - apply allowed_unlessEmpty, allowed_like. value_in.
  - destruct (Logs.cl_LogLevels p) as [|l ls] eqn:Hls; [constructor|].
    constructor; [|constructor]. apply allowed_anyOf; [fragment|].
    intros v Hv. unfold componentLogsValues. rewrite Hls.
    apply in_or_app; right. apply in_or_app; right. exact Hv.
Qed.

Lemma workflowLogs_allowed (p : Logs.WorkflowLogsParams) (stream : string) :
  Forall (allowed (workflowLogsValues p) stream) (workflowLogs p stream).
Proof.
  unfold workflowLogs.
  apply Forall_app; split; [constructor; [fragment | constructor; [reflexivity | constructor]]|].
  apply Forall_app; split; [|constructor; [apply allowed_orderClause | constructor]].
  apply allowed_whereClause.
  repeat (apply Forall_app; split).
  - apply allowed_unlessEmpty.
    constructor; [fragment|]. constructor; [value_in|]. constructor; [fragment | constructor].
  - apply allowed_unlessEmpty, allowed_equals; [fragment | value_in].
  - apply allowed_unlessEmpty, allowed_like. value_in.
  - destruct (Logs.wl_LogLevels p) as [|l ls] eqn:Hls; [constructor|].
    constructor; [|constructor]. apply allowed_anyOf; [fragment|].
    intros v Hv. unfold workflowLogsValues. rewrite Hls.
    apply in_or_app; right. exact Hv.
Qed.

Lemma alert_allowed (p : Logs.LogAlertParams) (stream : string) :
  Forall (allowed [Logs.la_SearchPattern p] stream) (alert p stream).
Proof.
  unfold alert.
  constructor; [fragment|]. constructor; [reflexivity|]. constructor; [fragment|].
  constructor; [now left|]. constructor; [fragment | constructor].
Qed.

Lemma scopeConditions_allowed (p : Tracing.TracesQueryParams) (stream : string) :
  Forall (Forall (allowed (scopeValues p) stream)) (scopeConditions p).
Proof.
  unfold scopeConditions. cbv zeta.
  repeat (apply Forall_app; split);
    apply allowed_unlessEmpty, allowed_equals; (fragment || value_in).
Qed.

Lemma tracesList_allowed (p : Tracing.TracesQueryParams) (stream : string) :
  Forall (allowed (scopeValues p) stream) (tracesList p stream).
Proof.
  unfold tracesList.
  apply Forall_app; split; [constructor; [fragment | constructor; [reflexivity | constructor]]|].
  apply Forall_app; split; [|constructor; [fragment | constructor]].
  apply allowed_whereClause, scopeConditions_allowed.
Qed.

Lemma spansList_allowed (p : Tracing.TracesQueryParams) (stream : string) :
  Forall (allowed [Tracing.t_TraceID p] stream) (spansList p stream).
Proof.
  unfold spansList.
  apply Forall_app; split.
  { constructor; [fragment|]. constructor; [reflexivity|]. constructor; [fragment|constructor]. }
  apply Forall_app; split; [apply allowed_equals; [fragment | now left]|].
  constructor; [|constructor].
  destruct (String.eqb (Tracing.t_Sort p) "asc" || String.eqb (Tracing.t_Sort p) "ASC");
    fragment.
Qed.

Lemma spanDetail_allowed (p : Tracing.TracesQueryParams) (stream : string) :
  Forall (allowed [Tracing.t_TraceID p; Tracing.t_SpanID p] stream) (spanDetail p stream).
Proof.
  unfold spanDetail.
  apply Forall_app; split.
  { constructor; [fragment|]. constructor; [reflexivity|]. constructor; [fragment|constructor]. }
  apply Forall_app; split; [apply allowed_equals; [fragment | now left]|].
  apply Forall_app; split; [constructor; [fragment | constructor]|].
  apply allowed_equals; [fragment | right; now left].
Qed.

End AllowedPieces.

(** C1. The SQL text of each of the six generated queries (component logs,
    workflow logs, alert configuration, traces list, spans list, span
    detail) is the rendering of a sequence of pieces, each of which is one
    of the fixed SQL fragments, a caller's value put through
    [escapeSQLString], or the configured stream name (put through
    [quoteIdentifier] by the logs package).  The caller's values that may
    occur in escaped form are listed for each query. *)
Theorem queries_embed_only_escaped_values :
  (forall p stream q,
      Logs.generateComponentLogsQuery p stream = Ok q ->
      q_sql q = Template.render (Template.componentLogs p stream) /\
      Forall (Template.allowed (Template.componentLogsValues p) stream)
             (Template.componentLogs p stream)) /\
  (forall p stream q,
      Logs.generateWorkflowLogsQuery p stream = Ok q ->
      q_sql q = Template.render (Template.workflowLogs p stream) /\
      Forall (Template.allowed (Template.workflowLogsValues p) stream)
             (Template.workflowLogs p stream)) /\
  (forall quote p stream a,
      Logs.generateAlertConfig quote p stream = Ok a ->
      a_query a = Template.render (Template.alert p stream) /\
      Forall (Template.allowed [Logs.la_SearchPattern p] stream) (Template.alert p stream)) /\
  (forall p stream q,
      Tracing.generateTracesListQuery p stream = Ok q ->
      q_sql q = Template.render (Template.tracesList p stream) /\
      Forall (Template.allowed (Template.scopeValues p) stream) (Template.tracesList p stream)) /\
  (forall p stream q,
      Tracing.generateSpansListQuery p stream = Ok q ->
      q_sql q = Template.render (Template.spansList p stream) /\
      Forall (Template.allowed [Tracing.t_TraceID p] stream) (Template.spansList p stream)) /\
  (forall p stream q,
      Tracing.generateSpanDetailQuery p stream = Ok q ->
      q_sql q = Template.render (Template.spanDetail p stream) /\
      Forall (Template.allowed [Tracing.t_TraceID p; Tracing.t_SpanID p] stream)
             (Template.spanDetail p stream)).
Proof.
  repeat split.
  - unfold Logs.generateComponentLogsQuery in H.
    destruct (isEmpty (Logs.cl_Namespace p)); [discriminate|].
    injection H as <-. apply componentLogs_render.
  - apply componentLogs_allowed.
  - injection H as <-. apply workflowLogs_render.
  - apply workflowLogs_allowed.
  - unfold Logs.generateAlertConfig, Logs.jsonMarshalAlertConfig in H.
    destruct (Logs.mapOperator quote (Logs.la_Operator p)); [|discriminate].
    cbv zeta in H. destruct (Go.float32Unsupported _); [discriminate|].
    injection H as <-. apply alert_render.
  - apply alert_allowed.
  - injection H as <-. apply tracesList_render.
  - apply tracesList_allowed.
  - injection H as <-. apply spansList_render.
  - apply spansList_allowed.
  - injection H as <-. apply spanDetail_render.
  - apply spanDetail_allowed.
Qed.

Lemma queries_embed_only_escaped_values_witness :
  "SELECT * FROM " +:+ Go.dquote +:+ "default" +:+ Go.dquote +:+
  " WHERE kubernetes_labels_openchoreo_dev_namespace = 'team''a'" +:+
  " AND log LIKE '%x\\y%' ORDER BY _timestamp DESC"
  = Template.render
      (Template.componentLogs
         (Logs.mkComponentLogsParams "team'a" [] "" "" Examples.epoch Examples.epoch
            "x\y" [] 0 "") "default").
Proof.
  apply (proj1 (proj1 queries_embed_only_escaped_values
                  (Logs.mkComponentLogsParams "team'a" [] "" "" Examples.epoch Examples.epoch
                     "x\y" [] 0 "") "default" _ eq_refl)).
Defined.

(** ** Grouping span rows into traces *)

Section FirstSeen.

Import TraceSpec.

Lemma firstSeen_elem (ids : list string) (x : string) : x ∈ firstSeen ids <-> x ∈ ids.
Proof.
  induction ids as [|id rest IH]; [reflexivity|].
  cbn [firstSeen]. rewrite !elem_of_cons, list_elem_of_filter, IH.
  destruct (decide (x = id)); tauto.
Qed.

Lemma firstSeen_NoDup (ids : list string) : NoDup (firstSeen ids).
Proof.
  induction ids as [|id rest IH]; [constructor|].
  cbn [firstSeen]. constructor.
  - rewrite list_elem_of_filter. intros [Hne _]. now apply Hne.
  - now apply NoDup_filter.
Qed.

(** A further element is appended when it is new, and dropped otherwise. *)
Lemma firstSeen_snoc (ids : list string) (x : string) :
  firstSeen (ids ++ [x]) = if decide (x ∈ ids) then firstSeen ids else firstSeen ids ++ [x].
Proof.
  induction ids as [|id rest IH].
  - cbn. rewrite decide_False; [reflexivity | apply not_elem_of_nil].
  - cbn [app firstSeen]. rewrite IH.
    destruct (decide (x ∈ rest)) as [Hin|Hnin].
    + rewrite decide_True; [reflexivity | now right].
    + rewrite filter_app.
      destruct (decide (x = id)) as [->|Hne].
      * rewrite decide_True by left.
        rewrite filter_cons_False by (intros Hne; now apply Hne).
        now rewrite filter_nil, app_nil_r.
      * rewrite decide_False by (rewrite elem_of_cons; tauto).
        rewrite filter_cons_True by done. now rewrite filter_nil.
Qed.

End FirstSeen.

Section AddSpan.

Import TraceSpec.

Lemma omap_cons {A B : Type} (f : A -> option B) (x : A) (l : list A) :
  omap f (x :: l) = match f x with Some y => y :: omap f l | None => omap f l end.
Proof. reflexivity. Qed.

Lemma lastOr_cons (d v : string) (l : list string) : lastOr d (v :: l) = lastOr v l.
Proof.
  unfold lastOr. rewrite last_cons. now destruct (last l).
Qed.

Lemma fold_addSpan_TraceID (rows : list Hit) (a : Tracing.traceAgg) :
  Tracing.TraceID (Tracing.entry (fold_left Tracing.addSpan rows a))
  = Tracing.TraceID (Tracing.entry a).
Proof.
  revert a. induction rows as [|h rows IH]; intros a; [reflexivity|].
  cbn [fold_left]. now rewrite IH.
Qed.

Lemma wrap64_idem (z : Z) : Go.wrap64 (Go.wrap64 z) = Go.wrap64 z.
Proof.
  unfold Go.wrap64.
  replace ((z + 2 ^ 63) mod 2 ^ 64 - 2 ^ 63 + 2 ^ 63) with ((z + 2 ^ 63) mod 2 ^ 64) by lia.
  now rewrite Z.mod_mod by lia.
Qed.

Lemma wrap64_add_l (a b : Z) : Go.wrap64 (Go.wrap64 a + b) = Go.wrap64 (a + b).
Proof.
  unfold Go.wrap64. f_equal.
  replace ((a + 2 ^ 63) mod 2 ^ 64 - 2 ^ 63 + b + 2 ^ 63)
    with ((a + 2 ^ 63) mod 2 ^ 64 + b) by lia.
  rewrite Z.add_mod_idemp_l by lia. f_equal. lia.
Qed.

Lemma wrap64_small (z : Z) : Go.minInt64 <= z <= Go.maxInt64 -> Go.wrap64 z = z.
Proof.
  unfold Go.wrap64, Go.minInt64, Go.maxInt64. intros H.
  rewrite Z.mod_small by lia. lia.
Qed.

Lemma fold_addSpan_SpanCount (rows : list Hit) (a : Tracing.traceAgg) :
  Go.wrap64 (Tracing.SpanCount (Tracing.entry (fold_left Tracing.addSpan rows a)))
  = Go.wrap64 (Tracing.SpanCount (Tracing.entry a) + Z.of_nat (length rows)).
Proof.
  revert a. induction rows as [|h rows IH]; intros a.
  - cbn [fold_left length]. f_equal. lia.
  - cbn [fold_left]. rewrite IH. cbn [Tracing.addSpan Tracing.entry Tracing.SpanCount].
    rewrite wrap64_add_l. f_equal. cbn [length]. lia.
Qed.

Lemma fold_addSpan_SpanCount_wrapped (rows : list Hit) (a : Tracing.traceAgg) :
  rows <> [] ->
  Tracing.SpanCount (Tracing.entry (fold_left Tracing.addSpan rows a))
  = Go.wrap64 (Tracing.SpanCount (Tracing.entry a) + Z.of_nat (length rows)).
Proof.
  intros Hne. rewrite <- fold_addSpan_SpanCount.
  destruct (exists_last Hne) as (rows' & h & ->).
  rewrite fold_left_app. cbn [fold_left Tracing.addSpan Tracing.entry Tracing.SpanCount].
  now rewrite wrap64_idem.
Qed.

Lemma fold_addSpan_minStart (rows : list Hit) (a : Tracing.traceAgg) :
  Tracing.minStart (fold_left Tracing.addSpan rows a)
  = fold_left minStep (omap startOf rows) (Tracing.minStart a).
Proof.
  revert a. induction rows as [|h rows IH]; intros a; [reflexivity|].
  cbn [fold_left]. rewrite IH, omap_cons. cbn [Tracing.addSpan Tracing.minStart].
  unfold startOf at 2. destruct (asNumber (h !! "start_time")); reflexivity.
Qed.

Lemma fold_addSpan_maxEnd (rows : list Hit) (a : Tracing.traceAgg) :
  Tracing.maxEnd (fold_left Tracing.addSpan rows a)
  = fold_left maxStep (omap endOf rows) (Tracing.maxEnd a).
Proof.
  revert a. induction rows as [|h rows IH]; intros a; [reflexivity|].
  cbn [fold_left]. rewrite IH, omap_cons. cbn [Tracing.addSpan Tracing.maxEnd].
  unfold endOf at 2. destruct (asNumber (h !! "end_time")); reflexivity.
Qed.

(** Each root field is the last value given to it by a row with an empty
    parent reference. *)
Lemma fold_addSpan_RootSpanID (rows : list Hit) (a : Tracing.traceAgg) :
  Tracing.RootSpanID (Tracing.entry (fold_left Tracing.addSpan rows a))
  = lastOr (Tracing.RootSpanID (Tracing.entry a)) (omap (rootField "span_id") rows).
Proof.
  revert a. induction rows as [|h rows IH]; intros a; [reflexivity|].
  cbn [fold_left]. rewrite IH, omap_cons. cbn [Tracing.addSpan Tracing.entry Tracing.RootSpanID].
  unfold rootField at 2. unfold isRootRow.
  destruct (isEmpty (stringOrZero (h !! "reference_parent_span_id"))); [|reflexivity].
  destruct (asString (h !! "span_id")); [now rewrite lastOr_cons | reflexivity].
Qed.

Lemma fold_addSpan_RootSpanName (rows : list Hit) (a : Tracing.traceAgg) :
  Tracing.RootSpanName (Tracing.entry (fold_left Tracing.addSpan rows a))
  = lastOr (Tracing.RootSpanName (Tracing.entry a)) (omap (rootField "operation_name") rows).
Proof.
  revert a. induction rows as [|h rows IH]; intros a; [reflexivity|].
  cbn [fold_left]. rewrite IH, omap_cons. cbn [Tracing.addSpan Tracing.entry Tracing.RootSpanName].
  unfold rootField at 2. unfold isRootRow.
  destruct (isEmpty (stringOrZero (h !! "reference_parent_span_id"))); [|reflexivity].
  destruct (asString (h !! "operation_name")); [now rewrite lastOr_cons | reflexivity].
Qed.

Lemma fold_addSpan_RootSpanKind (rows : list Hit) (a : Tracing.traceAgg) :
  Tracing.RootSpanKind (Tracing.entry (fold_left Tracing.addSpan rows a))
  = lastOr (Tracing.RootSpanKind (Tracing.entry a)) (omap (rootField "span_kind") rows).
Proof.
  revert a. induction rows as [|h rows IH]; intros a; [reflexivity|].
  cbn [fold_left]. rewrite IH, omap_cons. cbn [Tracing.addSpan Tracing.entry Tracing.RootSpanKind].
  unfold rootField at 2. unfold isRootRow.
  destruct (isEmpty (stringOrZero (h !! "reference_parent_span_id"))); [|reflexivity].
  destruct (asString (h !! "span_kind")); [now rewrite lastOr_cons | reflexivity].
Qed.

End AddSpan.

Section Grouping.

Import TraceSpec.

Lemma traceIDs_elem (hits : list Hit) (t : string) :
  t ∈ traceIDs hits <-> t <> EmptyString /\ exists h, h ∈ hits /\ traceIDOf h = t.
Proof.
  unfold traceIDs. rewrite list_elem_of_filter, list_elem_of_In, in_map_iff.
  split.
  - intros [Hne (h & Hid & Hin)]. split; [exact Hne|]. exists h.
    split; [now apply list_elem_of_In | exact Hid].
  - intros [Hne (h & Hin & Hid)]. split; [exact Hne|]. exists h.
    split; [exact Hid | now apply list_elem_of_In].
Qed.

Lemma traceIDs_snoc (hits : list Hit) (h : Hit) :
  traceIDs (hits ++ [h]) =
  traceIDs hits ++ (if decide (traceIDOf h <> EmptyString) then [traceIDOf h] else []).
Proof.
  unfold traceIDs. now rewrite map_app, filter_app.
Qed.

Lemma spansOf_snoc (t : string) (hits : list Hit) (h : Hit) :
  spansOf t (hits ++ [h]) =
  spansOf t hits ++ (if decide (traceIDOf h = t) then [h] else []).
Proof.
  unfold spansOf. now rewrite filter_app.
Qed.

Lemma spansOf_nil (t : string) (hits : list Hit) :
  t <> EmptyString -> t ∉ traceIDs hits -> spansOf t hits = [].
Proof.
  intros Hne Hnin. unfold spansOf.
  induction hits as [|h hits IH]; [reflexivity|].
  rewrite filter_cons_False.
  - apply IH. intros Hin. apply Hnin. apply traceIDs_elem in Hin as [_ (h' & Hh' & Hid)].
    apply traceIDs_elem. split; [exact Hne|]. exists h'. split; [now right | exact Hid].
  - intros Hid. apply Hnin, traceIDs_elem. split; [exact Hne|].
    exists h. split; [now left | exact Hid].
Qed.

Lemma spansOf_not_nil (t : string) (hits : list Hit) :
  t ∈ traceIDs hits -> spansOf t hits <> [].
Proof.
  intros Hin. apply traceIDs_elem in Hin as [_ (h & Hh & Hid)].
  intros Hnil. assert (Hmem : h ∈ spansOf t hits).
  { unfold spansOf. apply list_elem_of_filter. now split. }
  rewrite Hnil in Hmem. now apply not_elem_of_nil in Hmem.
Qed.

Lemma aggOf_snoc_same (hits : list Hit) (h : Hit) :
  aggOf (traceIDOf h) (hits ++ [h]) = Tracing.addSpan (aggOf (traceIDOf h) hits) h.
Proof.
  unfold aggOf. rewrite spansOf_snoc, decide_True by reflexivity.
  now rewrite fold_left_app.
Qed.

Lemma aggOf_snoc_other (t : string) (hits : list Hit) (h : Hit) :
  traceIDOf h <> t -> aggOf t (hits ++ [h]) = aggOf t hits.
Proof.
  intros Hne. unfold aggOf. rewrite spansOf_snoc, decide_False by exact Hne.
  now rewrite app_nil_r.
Qed.

(** The state of the first loop after the rows [hits]: the map holds the
    aggregate of every trace seen, and the order is that of first
    appearance. *)
Lemma groupHits_state (hits : list Hit) :
  (forall t, fst (Tracing.groupHits hits) !! t =
             if decide (t ∈ traceIDs hits) then Some (aggOf t hits) else None) /\
  snd (Tracing.groupHits hits) = firstSeen (traceIDs hits).
Proof.
  induction hits as [|h hits IH] using rev_ind.
  - split; [intros t; apply lookup_empty | reflexivity].
  - unfold Tracing.groupHits in *. rewrite fold_left_app. cbn [fold_left].
    destruct (fold_left Tracing.groupHit hits (∅, [])) as [m o].
    cbn [fst snd] in IH. destruct IH as [IHm IHo].
    unfold Tracing.groupHit. fold (traceIDOf h).
    rewrite traceIDs_snoc. unfold isEmpty.
    destruct (String.eqb_spec (traceIDOf h) EmptyString) as [He|Hne].
    + rewrite decide_False by (intros Hn; now apply Hn).
      rewrite app_nil_r. cbn [fst snd]. split; [|exact IHo].
      intros t. rewrite IHm. destruct (decide (t ∈ traceIDs hits)) as [Hin|_]; [|reflexivity].
      rewrite aggOf_snoc_other; [reflexivity|].
      apply traceIDs_elem in Hin as [Hne _]. congruence.
    + rewrite decide_True by exact Hne.
      rewrite firstSeen_snoc.
      specialize (IHm (traceIDOf h)) as Hm0.
      destruct (decide (traceIDOf h ∈ traceIDs hits)) as [Hin|Hnin];
        rewrite Hm0; cbn [fst snd].
      * split; [|exact IHo]. intros t.
        destruct (decide (t = traceIDOf h)) as [->|Hneq].
        -- rewrite lookup_insert_eq, decide_True by (apply elem_of_app; now left).
           now rewrite aggOf_snoc_same.
        -- rewrite lookup_insert_ne by congruence. rewrite IHm.
           rewrite aggOf_snoc_other by congruence.
           destruct (decide (t ∈ traceIDs hits)) as [Ht|Ht].
           ++ rewrite decide_True by (apply elem_of_app; now left). reflexivity.
           ++ rewrite decide_False; [reflexivity|].
              rewrite elem_of_app, list_elem_of_singleton. tauto.
      * split; [|now rewrite IHo]. intros t.
        destruct (decide (t = traceIDOf h)) as [->|Hneq].
        -- rewrite lookup_insert_eq.
           rewrite decide_True by (apply elem_of_app; right; apply list_elem_of_singleton;
                                   reflexivity).
           rewrite aggOf_snoc_same. unfold aggOf.
           now rewrite (spansOf_nil _ _ Hne Hnin).
        -- rewrite lookup_insert_ne by congruence. rewrite IHm.
           rewrite aggOf_snoc_other by congruence.
           destruct (decide (t ∈ traceIDs hits)) as [Ht|Ht].
           ++ rewrite decide_True by (apply elem_of_app; now left). reflexivity.
           ++ rewrite decide_False; [reflexivity|].
              rewrite elem_of_app, list_elem_of_singleton. tauto.
Qed.

Lemma omap_all_Some {A B : Type} (f : A -> option B) (g : A -> B) (l : list A) :
  (forall x, x ∈ l -> f x = Some (g x)) -> omap f l = map g l.
Proof.
  induction l as [|x l IH]; intros H; [reflexivity|].
  rewrite omap_cons, (H x) by left. cbn [map]. f_equal.
  apply IH. intros y Hy. apply H. now right.
Qed.

(** The grouping pass, in one equation: one entry per distinct non-empty
    trace ID, in the order of first appearance, made from the rows of
    that trace. *)
Lemma buildTraces_spec (hits : list Hit) :
  Tracing.buildTraces hits =
  map (fun t => Tracing.finishTrace (aggOf t hits)) (firstSeen (traceIDs hits)).
Proof.
  unfold Tracing.buildTraces.
  destruct (groupHits_state hits) as [Hm Ho].
  destruct (Tracing.groupHits hits) as [m o]. cbn [fst snd] in Hm, Ho. subst o.
  apply omap_all_Some. intros t Ht. apply (proj1 (firstSeen_elem _ _)) in Ht.
  rewrite Hm, decide_True by exact Ht. reflexivity.
Qed.

Lemma buildTraces_length (hits : list Hit) :
  length (Tracing.buildTraces hits) = length (snd (Tracing.groupHits hits)).
Proof.
  rewrite buildTraces_spec, length_map. now rewrite (proj2 (groupHits_state hits)).
Qed.

Lemma buildTraces_elem (hits : list Hit) (e : Tracing.TraceEntry) :
  e ∈ Tracing.buildTraces hits ->
  Tracing.TraceID e ∈ traceIDs hits /\
  e = Tracing.finishTrace (aggOf (Tracing.TraceID e) hits).
Proof.
  rewrite buildTraces_spec, list_elem_of_In, in_map_iff.
  intros (t & <- & Hin). apply list_elem_of_In, (proj1 (firstSeen_elem _ _)) in Hin.
  assert (Hid : Tracing.TraceID (Tracing.finishTrace (aggOf t hits)) = t).
  { cbn. unfold aggOf. now rewrite fold_addSpan_TraceID. }
  rewrite Hid. now split.
Qed.

End Grouping.

(** ** Time bounds of a trace *)

Section Bounds.

Import TraceSpec.

Lemma minStep_fold_nonzero (l : list Z) (m0 : Z) :
  m0 <> 0 -> Forall (fun s => s <> 0) l ->
  let r := fold_left minStep l m0 in
  r <= m0 /\ Forall (fun s => r <= s) l /\ (r = m0 \/ r ∈ l).
Proof.
  intros Hm0 Hl. revert m0 Hm0.
  induction Hl as [|s l Hs Hl IH]; intros m0 Hm0.
  - cbn. repeat split; [lia | constructor | now left].
  - cbn [fold_left].
    assert (Hstep : minStep m0 s = Z.min s m0).
    { unfold minStep. destruct (Z.eqb_spec m0 0); [contradiction|]. cbn [orb].
      destruct (Z.ltb_spec s m0); lia. }
    assert (Hnz : minStep m0 s <> 0) by (rewrite Hstep; lia).
    destruct (IH _ Hnz) as (Hle & Hall & Hmem).
    cbv zeta. rewrite Hstep in *.
    repeat split.
    + lia.
    + constructor; [lia | exact Hall].
    + destruct Hmem as [Heq | Hin]; [|right; now right].
      rewrite Heq. destruct (Z.min_spec s m0) as [[_ ->] | [_ ->]];
        [right; now left | now left].
Qed.

(** With no start time equal to 0, the running minimum is the minimum. *)
Lemma minStep_fold_min (l : list Z) :
  l <> [] -> Forall (fun s => s <> 0) l ->
  fold_left minStep l 0 ∈ l /\ Forall (fun s => fold_left minStep l 0 <= s) l.
Proof.
  intros Hne Hl. destruct l as [|s l]; [contradiction|].
  inversion Hl as [|? ? Hs Hl']; subst.
  cbn [fold_left]. change (minStep 0 s) with s.
  destruct (minStep_fold_nonzero l s Hs Hl') as (Hle & Hall & Hmem).
  split.
  - destruct Hmem as [-> | Hin]; [now left | now right].
  - constructor; [exact Hle | exact Hall].
Qed.

(** The running maximum never goes below its start value. *)
Lemma maxStep_fold (l : list Z) (m0 : Z) :
  let r := fold_left maxStep l m0 in
  m0 <= r /\ Forall (fun e => e <= r) l /\ (r = m0 \/ r ∈ l).
Proof.
  revert m0. induction l as [|e l IH]; intros m0.
  - cbn. repeat split; [lia | constructor | now left].
  - cbn [fold_left].
    assert (Hstep : maxStep m0 e = Z.max e m0).
    { unfold maxStep. destruct (Z.gtb_spec e m0); lia. }
    destruct (IH (maxStep m0 e)) as (Hle & Hall & Hmem).
    cbv zeta. rewrite Hstep in *.
    repeat split.
    + lia.
    + constructor; [lia | exact Hall].
    + destruct Hmem as [Heq | Hin]; [|right; now right].
      rewrite Heq. destruct (Z.max_spec e m0) as [[_ ->] | [_ ->]];
        [now left | right; now left].
Qed.

Lemma digitOf_range (c : ascii) (d : Z) : Go.digitOf c = Some d -> 0 <= d <= 9.
Proof.
  unfold Go.digitOf.
  destruct ((48 <=? Z.of_nat (nat_of_ascii c)) && (Z.of_nat (nat_of_ascii c) <=? 57)) eqn:H;
    [|discriminate].
  intros [= <-]. apply andb_prop in H as [H1 H2]. lia.
Qed.

Lemma parseUintFrom_range (s : string) (acc : Z) :
  0 <= acc <= Go.maxUint64 -> 0 <= fst (Go.parseUintFrom acc s) <= Go.maxUint64.
Proof.
  revert acc. induction s as [|c s IH]; intros acc Hacc; [exact Hacc|].
  cbn [Go.parseUintFrom].
  destruct (Go.digitOf c) as [d|] eqn:Hd; [|cbn; unfold Go.maxUint64; lia].
  apply digitOf_range in Hd.
  destruct (Z.gtb_spec (acc * 10 + d) Go.maxUint64); [cbn; unfold Go.maxUint64; lia|].
  apply IH. lia.
Qed.

(** [Int64] yields a value of the type [int64]. *)
Lemma Int64_range (v : string) : Go.minInt64 <= Tracing.Int64 v <= Go.maxInt64.
Proof.
  unfold Tracing.Int64, Go.ParseInt.
  destruct v as [|c v]; [cbn; unfold Go.minInt64, Go.maxInt64; lia|].
  cbv zeta.
  set (digits := if Ascii.eqb c "+"%char || Ascii.eqb c "-"%char then v else String c v).
  assert (Hu : 0 <= fst (Go.ParseUint digits) <= Go.maxUint64).
  { unfold Go.ParseUint. destruct digits; [cbn; unfold Go.maxUint64; lia|].
    apply parseUintFrom_range. unfold Go.maxUint64. lia. }
  destruct (Go.ParseUint digits) as [un err]. cbn [fst] in Hu.
  unfold Go.minInt64, Go.maxInt64, Go.maxUint64 in *.
  destruct err; cbn [fst]; try lia;
    destruct (Ascii.eqb c "-"%char); cbn [negb andb];
    repeat match goal with
    | |- context [?a >=? ?b] => destruct (Z.geb_spec a b)
    | |- context [?a >? ?b] => destruct (Z.gtb_spec a b)
    end; cbn [fst]; lia.
Qed.

(** [time.Unix(0, n)] is the instant [n] nanoseconds after the epoch. *)
Lemma UnixNano_Unix (n : Z) :
  Go.minInt64 <= n <= Go.maxInt64 -> Go.UnixNano (Go.Unix 0 n) = n.
Proof.
  intros Hn. unfold Go.UnixNano. rewrite wrap64_add_l.
  transitivity (Go.wrap64 n); [f_equal | now apply wrap64_small].
  unfold Go.Unix, Go.minInt64, Go.maxInt64 in *.
  change (10 ^ 9) with 1000000000.
  destruct ((n <? 0) || (n >=? 1000000000)); [|cbn [Go.unixSec Go.nsec]; lia].
  cbv zeta.
  assert (Hq : - 2 ^ 63 <= Z.quot n 1000000000 - 1 /\ Z.quot n 1000000000 <= 2 ^ 63 - 1)
    by (Z.quot_rem_to_equations; lia).
  rewrite (wrap64_small (0 + Z.quot n 1000000000))
    by (unfold Go.minInt64, Go.maxInt64; lia).
  rewrite (wrap64_small (0 + Z.quot n 1000000000 - 1))
    by (unfold Go.minInt64, Go.maxInt64; lia).
  destruct (n - Z.quot n 1000000000 * 1000000000 <? 0); cbn [Go.unixSec Go.nsec]; lia.
Qed.

End Bounds.

(** ** The root span of a trace *)

Section RootFields.

Import TraceSpec.

Lemma lastOr_snoc (d v : string) (l : list string) : lastOr d (l ++ [v]) = v.
Proof. unfold lastOr. now rewrite last_snoc. Qed.

Lemma omap_none {A B : Type} (f : A -> option B) (l : list A) :
  Forall (fun x => f x = None) l -> omap f l = [].
Proof.
  induction 1 as [|x l Hx _ IH]; [reflexivity|]. now rewrite omap_cons, Hx.
Qed.

(** The value given by the last row with an empty parent reference, when
    that row has the column. *)
Lemma rootField_last (key : string) (before after : list Hit) (h : Hit) (v : string) :
  isRootRow h = true ->
  Forall (fun h' => isRootRow h' = false) after ->
  asString (h !! key) = Some v ->
  lastOr EmptyString (omap (rootField key) (before ++ h :: after)) = v.
Proof.
  intros Hroot Hafter Hv.
  rewrite omap_app, omap_cons. unfold rootField at 2. rewrite Hroot, Hv.
  rewrite (omap_none (rootField key) after).
  - apply lastOr_snoc.
  - eapply Forall_impl; [exact Hafter|]. intros h' Hh'. unfold rootField. now rewrite Hh'.
Qed.

Lemma rootField_none (key : string) (rows : list Hit) :
  Forall (fun h => isRootRow h = false) rows ->
  lastOr EmptyString (omap (rootField key) rows) = EmptyString.
Proof.
  intros H. rewrite (omap_none (rootField key) rows); [reflexivity|].
  eapply Forall_impl; [exact H|]. intros h Hh. unfold rootField. now rewrite Hh.
Qed.

Lemma entry_root_fields (hits : list Hit) (e : Tracing.TraceEntry) :
  e ∈ Tracing.buildTraces hits ->
  Tracing.RootSpanID e
    = lastOr EmptyString (omap (rootField "span_id") (spansOf (Tracing.TraceID e) hits)) /\
  Tracing.RootSpanName e
    = lastOr EmptyString (omap (rootField "operation_name") (spansOf (Tracing.TraceID e) hits)) /\
  Tracing.RootSpanKind e
    = lastOr EmptyString (omap (rootField "span_kind") (spansOf (Tracing.TraceID e) hits)) /\
  Tracing.TraceName e = Tracing.RootSpanName e.
Proof.
  intros He. apply buildTraces_elem in He as [_ He].
  set (t := Tracing.TraceID e) in *. rewrite He. unfold aggOf.
  cbn [Tracing.finishTrace Tracing.RootSpanID Tracing.RootSpanName Tracing.RootSpanKind
       Tracing.TraceName].
  rewrite fold_addSpan_RootSpanID, fold_addSpan_RootSpanName, fold_addSpan_RootSpanKind.
  repeat split.
Qed.

End RootFields.

(** C5, as stated, fails: both rows of the trace have an empty parent
    reference, the last one has no [span_id] column, and the root span ID
    of the trace is that of the first row. *)
Lemma root_id_not_from_last_root_row :
  map (fun h => (TraceSpec.traceIDOf h, TraceSpec.isRootRow h, h !! "span_id"))
      TraceExamples.rootWithoutID
  = [("T1", true, Some (JString "A")); ("T1", true, None)] /\
  map Tracing.RootSpanID (Tracing.buildTraces TraceExamples.rootWithoutID) = ["A"].
Proof. split; vm_compute; reflexivity. Qed.

(** C5, amended.  Each of the root fields of an emitted trace (ID, name,
    kind) is the value of its column in the last row of the trace, in
    input order, that has an empty parent reference and holds a string in
    that column; it is empty when there is no such row.  So when the last
    row with an empty parent reference has the column, the field comes
    from that row; the trace name is the root span name.  For the two
    rows [A] and [B] of trace [T1] that both have an empty parent, the
    root span ID is [B]. *)
Theorem root_fields_from_last_root_row :
  (forall hits e,
      e ∈ Tracing.buildTraces hits ->
      let rows := TraceSpec.spansOf (Tracing.TraceID e) hits in
      Tracing.RootSpanID e
        = TraceSpec.lastOr EmptyString (omap (TraceSpec.rootField "span_id") rows) /\
      Tracing.RootSpanName e
        = TraceSpec.lastOr EmptyString (omap (TraceSpec.rootField "operation_name") rows) /\
      Tracing.RootSpanKind e
        = TraceSpec.lastOr EmptyString (omap (TraceSpec.rootField "span_kind") rows) /\
      Tracing.TraceName e = Tracing.RootSpanName e /\
      (forall before h after,
          rows = before ++ h :: after ->
          TraceSpec.isRootRow h = true ->
          Forall (fun h' => TraceSpec.isRootRow h' = false) after ->
          (forall v, asString (h !! "span_id") = Some v -> Tracing.RootSpanID e = v) /\
          (forall v, asString (h !! "operation_name") = Some v -> Tracing.RootSpanName e = v) /\
          (forall v, asString (h !! "span_kind") = Some v -> Tracing.RootSpanKind e = v))) /\
  map (fun e => (Tracing.TraceID e, Tracing.RootSpanID e))
      (Tracing.buildTraces TraceExamples.twoRoots) = [("T1", "B")].
Proof.
  split; [|vm_compute; reflexivity].
  intros hits e He rows.
  destruct (entry_root_fields hits e He) as (Hid & Hname & Hkind & Htn).
  fold rows in Hid, Hname, Hkind.
  repeat split; try assumption.
  - intros v Hv. rewrite Hid, H. now apply rootField_last.
  - intros v Hv. rewrite Hname, H. now apply rootField_last.
  - intros v Hv. rewrite Hkind, H. now apply rootField_last.
Qed.

Lemma root_fields_from_last_root_row_witness :
  TraceExamples.twoRootsEntry ∈ Tracing.buildTraces TraceExamples.twoRoots /\
  Tracing.RootSpanID TraceExamples.twoRootsEntry = "B".
Proof.
  assert (He : TraceExamples.twoRootsEntry ∈ Tracing.buildTraces TraceExamples.twoRoots).
  { vm_compute. left. }
  split; [exact He|].
  refine (proj1 (proj2 (proj2 (proj2 (proj2
            (proj1 root_fields_from_last_root_row TraceExamples.twoRoots
               TraceExamples.twoRootsEntry He))))
            [TraceExamples.row "T1" "A" ""] (TraceExamples.row "T1" "B" "") [] _ _ _) "B" _).
  - vm_compute. reflexivity.
  - vm_compute. reflexivity.
  - constructor.
  - vm_compute. reflexivity.
Defined.

(** ** The summary of a trace *)

Section Summary.

Import TraceSpec.

Lemma startOf_range (rows : list Hit) :
  Forall (fun s => Go.minInt64 <= s <= Go.maxInt64) (omap startOf rows).
Proof.
  induction rows as [|h rows IH]; [constructor|].
  rewrite omap_cons. unfold startOf at 1.
  destruct (asNumber (h !! "start_time")); [|exact IH].
  constructor; [apply Int64_range | exact IH].
Qed.

Lemma endOf_range (rows : list Hit) :
  Forall (fun s => Go.minInt64 <= s <= Go.maxInt64) (omap endOf rows).
Proof.
  induction rows as [|h rows IH]; [constructor|].
  rewrite omap_cons. unfold endOf at 1.
  destruct (asNumber (h !! "end_time")); [|exact IH].
  constructor; [apply Int64_range | exact IH].
Qed.

Lemma minStep_fold_range (l : list Z) (m0 : Z) :
  Go.minInt64 <= m0 <= Go.maxInt64 ->
  Forall (fun s => Go.minInt64 <= s <= Go.maxInt64) l ->
  Go.minInt64 <= fold_left minStep l m0 <= Go.maxInt64.
Proof.
  intros Hm0 Hl. revert m0 Hm0. induction Hl as [|s l Hs _ IH]; intros m0 Hm0; [exact Hm0|].
  cbn [fold_left]. apply IH. unfold minStep.
  destruct ((m0 =? 0) || (s <? m0)); assumption.
Qed.

Lemma maxStep_fold_range (l : list Z) (m0 : Z) :
  Go.minInt64 <= m0 <= Go.maxInt64 ->
  Forall (fun s => Go.minInt64 <= s <= Go.maxInt64) l ->
  Go.minInt64 <= fold_left maxStep l m0 <= Go.maxInt64.
Proof.
  intros Hm0 Hl. revert m0 Hm0. induction Hl as [|s l Hs _ IH]; intros m0 Hm0; [exact Hm0|].
  cbn [fold_left]. apply IH. unfold maxStep.
  destruct (s >? m0); assumption.
Qed.

Lemma zero_in_range : Go.minInt64 <= 0 <= Go.maxInt64.
Proof. unfold Go.minInt64, Go.maxInt64. lia. Qed.

(** The times of an entry, read back in nanoseconds. *)
Lemma entry_times (hits : list Hit) (e : Tracing.TraceEntry) :
  e ∈ Tracing.buildTraces hits ->
  Go.UnixNano (Tracing.StartTime e)
    = fold_left minStep (omap startOf (spansOf (Tracing.TraceID e) hits)) 0 /\
  Go.UnixNano (Tracing.EndTime e)
    = fold_left maxStep (omap endOf (spansOf (Tracing.TraceID e) hits)) 0 /\
  Tracing.DurationNs e
    = Go.wrap64 (Go.UnixNano (Tracing.EndTime e) - Go.UnixNano (Tracing.StartTime e)).
Proof.
  intros He. apply buildTraces_elem in He as [_ He].
  set (t := Tracing.TraceID e) in *.
  assert (Hs : Go.UnixNano (Tracing.StartTime e)
               = fold_left minStep (omap startOf (spansOf t hits)) 0).
  { rewrite He. cbn [Tracing.finishTrace Tracing.StartTime]. unfold aggOf.
    rewrite fold_addSpan_minStart. cbn [Tracing.newTraceAgg Tracing.minStart].
    apply UnixNano_Unix, minStep_fold_range; [apply zero_in_range | apply startOf_range]. }
  assert (Hn : Go.UnixNano (Tracing.EndTime e)
               = fold_left maxStep (omap endOf (spansOf t hits)) 0).
  { rewrite He. cbn [Tracing.finishTrace Tracing.EndTime]. unfold aggOf.
    rewrite fold_addSpan_maxEnd. cbn [Tracing.newTraceAgg Tracing.maxEnd].
    apply UnixNano_Unix, maxStep_fold_range; [apply zero_in_range | apply endOf_range]. }
  split; [exact Hs|]. split; [exact Hn|].
  rewrite Hs, Hn. rewrite He at 1. cbn [Tracing.finishTrace Tracing.DurationNs].
  unfold aggOf. now rewrite fold_addSpan_minStart, fold_addSpan_maxEnd.
Qed.

Lemma entry_SpanCount (hits : list Hit) (e : Tracing.TraceEntry) :
  e ∈ Tracing.buildTraces hits ->
  spansOf (Tracing.TraceID e) hits <> [] /\
  Tracing.SpanCount e = Go.wrap64 (Z.of_nat (length (spansOf (Tracing.TraceID e) hits))).
Proof.
  intros He. apply buildTraces_elem in He as [Hin He].
  set (t := Tracing.TraceID e) in *.
  pose proof (spansOf_not_nil t hits Hin) as Hne.
  split; [exact Hne|].
  rewrite He at 1. cbn [Tracing.finishTrace Tracing.SpanCount]. unfold aggOf.
  now rewrite (fold_addSpan_SpanCount_wrapped _ _ Hne).
Qed.

End Summary.

(** C6, as stated, fails: of the two spans of the trace the first starts
    at 0 and the second at 5, and the start time of the emitted trace is
    5, not the minimum 0; its duration is 15, not 20. *)
Lemma start_time_is_not_the_minimum :
  omap TraceSpec.startOf (TraceSpec.spansOf "T1" TraceExamples.startsAtEpoch) = [0; 5] /\
  omap TraceSpec.endOf (TraceSpec.spansOf "T1" TraceExamples.startsAtEpoch) = [10; 20] /\
  map (fun e => (Tracing.TraceID e, Go.UnixNano (Tracing.StartTime e),
                 Go.UnixNano (Tracing.EndTime e), Tracing.DurationNs e))
      (Tracing.buildTraces TraceExamples.startsAtEpoch)
  = [("T1", 5, 20, 15)].
Proof. repeat split; vm_compute; reflexivity. Qed.

(** C6, amended.  The grouping pass emits exactly one entry per distinct
    non-empty trace ID, in the order in which the IDs first appear.  For
    an emitted trace, with [rows] its rows: the span count is the number
    of rows (as a 64-bit integer); the start time is the minimum of the
    start times of the rows provided none of them is 0, a value that the
    pass reads as not yet set; the end time is the maximum of 0 and the
    end times of the rows (it is not negative, it bounds the end times
    from above and it is one of them or 0), so it is their maximum when
    one of them is not negative; the duration is the end time minus the
    start time in 64-bit arithmetic, exactly so when the start time is not
    negative; and a trace none of whose rows has an empty parent
    reference is emitted with empty root fields.  The rows [A] (no parent)
    and [B] (parent [A]) of trace [T1] give one entry with span count 2 and
    root span [A]. *)
Theorem traces_grouped_in_first_seen_order :
  (forall hits,
      map Tracing.TraceID (Tracing.buildTraces hits)
        = TraceSpec.firstSeen (TraceSpec.traceIDs hits) /\
      NoDup (map Tracing.TraceID (Tracing.buildTraces hits)) /\
      (forall t, t ∈ map Tracing.TraceID (Tracing.buildTraces hits) <->
                 t <> EmptyString /\ exists h, h ∈ hits /\ TraceSpec.traceIDOf h = t)) /\
  (forall hits e,
      e ∈ Tracing.buildTraces hits ->
      let rows := TraceSpec.spansOf (Tracing.TraceID e) hits in
      let starts := omap TraceSpec.startOf rows in
      let ends := omap TraceSpec.endOf rows in
      let startNs := Go.UnixNano (Tracing.StartTime e) in
      let endNs := Go.UnixNano (Tracing.EndTime e) in
      rows <> [] /\
      Tracing.SpanCount e = Go.wrap64 (Z.of_nat (length rows)) /\
      (Z.of_nat (length rows) <= Go.maxInt64 ->
         Tracing.SpanCount e = Z.of_nat (length rows)) /\
      (starts <> [] -> Forall (fun s => s <> 0) starts ->
         startNs ∈ starts /\ Forall (fun s => startNs <= s) starts) /\
      0 <= endNs /\
      Forall (fun x => x <= endNs) ends /\
      (endNs ∈ ends \/ endNs = 0) /\
      (Exists (fun x => 0 <= x) ends -> endNs ∈ ends) /\
      Tracing.DurationNs e = Go.wrap64 (endNs - startNs) /\
      (0 <= startNs -> Tracing.DurationNs e = endNs - startNs) /\
      (Forall (fun h => TraceSpec.isRootRow h = false) rows ->
         Tracing.RootSpanID e = EmptyString /\ Tracing.RootSpanName e = EmptyString /\
         Tracing.RootSpanKind e = EmptyString /\ Tracing.TraceName e = EmptyString)) /\
  (forall transport decode c params body resp,
      transport (Tracing.searchRequest c
                   (mkSearchQuery (Tracing.tracesListSQL params (Tracing.stream c))
                      (Go.UnixMicro (Tracing.t_StartTime params))
                      (Go.UnixMicro (Tracing.t_EndTime params)) 0 (-1) None))
        = Response 200 body ->
      decode body = Ok resp ->
      value (Tracing.GetTraces transport decode c params)
      = Ok {| Tracing.Traces := Tracing.buildTraces (Hits resp);
              Tracing.tr_Total := Z.of_nat (length (Tracing.buildTraces (Hits resp)));
              Tracing.tr_TookMs := Took resp |}) /\
  map (fun e => (Tracing.TraceID e, Tracing.SpanCount e, Tracing.RootSpanID e))
      (Tracing.buildTraces TraceExamples.rootAndChild) = [("T1", 2, "A")].
Proof.
  split; [|split; [|split; [|vm_compute; reflexivity]]].
  - intros hits.
    assert (Hids : map Tracing.TraceID (Tracing.buildTraces hits)
                   = TraceSpec.firstSeen (TraceSpec.traceIDs hits)).
    { rewrite buildTraces_spec, map_map. rewrite <- (map_id (TraceSpec.firstSeen _)) at 2.
      apply map_ext. intros t. cbn. unfold TraceSpec.aggOf. apply fold_addSpan_TraceID. }
    split; [exact Hids|]. rewrite Hids. split; [apply firstSeen_NoDup|].
    intros t. rewrite firstSeen_elem. apply traceIDs_elem.
  - intros hits e He rows starts ends startNs endNs.
    destruct (entry_SpanCount hits e He) as [Hne Hcount].
    destruct (entry_times hits e He) as (Hs & Hn & Hd).
    destruct (entry_root_fields hits e He) as (Hid & Hname & Hkind & Htn).
    fold rows in Hne, Hcount, Hs, Hn, Hid, Hname, Hkind.
    fold starts in Hs. fold ends in Hn. fold startNs in Hs, Hd. fold endNs in Hn, Hd.
    destruct (maxStep_fold ends 0) as (Hge & Hub & Hmem). rewrite <- Hn in Hge, Hub, Hmem.
    split; [exact Hne|]. split; [exact Hcount|].
    split.
    { intros Hlen. rewrite Hcount. apply wrap64_small.
      unfold Go.minInt64, Go.maxInt64 in *. lia. }
    split.
    { intros Hsne Hnz. rewrite Hs. now apply minStep_fold_min. }
    split; [exact Hge|].
    split; [exact Hub|].
    split; [destruct Hmem; [now right | now left]|].
    split.
    { intros Hex. destruct Hmem as [Hz | Hin]; [|exact Hin].
      apply Exists_exists in Hex as (x & Hx & Hx0).
      assert (Hxe : x <= endNs) by (eapply Forall_forall in Hub; eauto).
      assert (x = endNs) by lia. now subst x. }
    split; [exact Hd|].
    split.
    { intros Hs0. rewrite Hd. apply wrap64_small.
      assert (Hr1 : Go.minInt64 <= startNs <= Go.maxInt64).
      { rewrite Hs. apply minStep_fold_range; [apply zero_in_range | apply startOf_range]. }
      assert (Hr2 : Go.minInt64 <= endNs <= Go.maxInt64).
      { rewrite Hn. apply maxStep_fold_range; [apply zero_in_range | apply endOf_range]. }
      unfold Go.minInt64, Go.maxInt64 in *. lia. }
    intros Hroot.
    rewrite Htn, Hid, Hname, Hkind, !rootField_none by exact Hroot. repeat split.
  - intros transport decode c params body resp Htr Hdec.
    unfold Tracing.GetTraces, Tracing.generateTracesListQuery.
    rewrite value_bind. unfold Tracing.executeSearchQuery. rewrite Htr.
    rewrite value_bind. cbn [negb Z.eqb Pos.eqb]. rewrite Hdec. reflexivity.
Qed.

Lemma traces_grouped_in_first_seen_order_witness :
  TraceExamples.timedSpansEntry ∈ Tracing.buildTraces TraceExamples.timedSpans /\
  Go.UnixNano (Tracing.StartTime TraceExamples.timedSpansEntry)
    ∈ [1700000000000000100; 1700000000000000200] /\
  Forall (fun s => Go.UnixNano (Tracing.StartTime TraceExamples.timedSpansEntry) <= s)
         [1700000000000000100; 1700000000000000200].
Proof.
  assert (He : TraceExamples.timedSpansEntry ∈ Tracing.buildTraces TraceExamples.timedSpans).
  { vm_compute. left. }
  split; [exact He|].
  refine (proj1 (proj2 (proj2 (proj2
            (proj1 (proj2 traces_grouped_in_first_seen_order)
               TraceExamples.timedSpans TraceExamples.timedSpansEntry He)))) _ _).
  - vm_compute. discriminate.
  - vm_compute. repeat constructor; discriminate.
Defined.

(** * Further properties of the code *)

(** ** Quoting and escaping *)

Section Quoting.

Lemma quoteIdentifier_bytes (s : string) :
  quoteIdentifier s = Go.dquote +:+ flatMapBytes quoteByte s +:+ Go.dquote.
Proof.
  unfold quoteIdentifier, Go.dquote at 2. now rewrite ReplaceAll_byte.
Qed.

(** Reading back the bytes of a quoted identifier followed by the closing
    quote. *)
Lemma unquoteBody_quote (s rest : string) :
  (forall r, rest <> String Go.dquoteChar r) ->
  unquoteBody (flatMapBytes quoteByte s +:+ Go.dquote +:+ rest) = Some (s, rest).
Proof.
  intros Hrest.
  change (Go.dquote +:+ rest) with (String Go.dquoteChar rest).
  induction s as [|c s IH].
  - cbn [flatMapBytes]. rewrite append_nil_l. cbn [unquoteBody].
    rewrite Ascii.eqb_refl.
    destruct rest as [|d r]; [reflexivity|].
    destruct (Ascii.eqb_spec d Go.dquoteChar) as [->|_]; [now destruct (Hrest r)|reflexivity].
  - cbn [flatMapBytes]. rewrite append_assoc. unfold quoteByte at 1.
    destruct (Ascii.eqb_spec c Go.dquoteChar) as [->|Hc].
    + change (Go.dquote +:+ Go.dquote)
        with (String Go.dquoteChar (String Go.dquoteChar EmptyString)).
      rewrite 2!append_cons, append_nil_l. cbn [unquoteBody].
      rewrite Ascii.eqb_refl. now rewrite IH.
    + rewrite append_cons, append_nil_l. cbn [unquoteBody].
      destruct (Ascii.eqb_spec c Go.dquoteChar); [congruence|].
      now rewrite IH.
Qed.

Lemma countByte_append (c : ascii) (a b : string) :
  countByte c (a +:+ b) = (countByte c a + countByte c b)%nat.
Proof.
  induction a as [|x a IH]; [reflexivity|].
  rewrite append_cons. cbn [countByte]. rewrite IH. lia.
Qed.

Lemma escapeSQLString_length (s : string) :
  String.length (escapeSQLString s) =
  (String.length s + countByte "\"%char s + countByte "'"%char s)%nat.
Proof.
  rewrite escapeSQLString_bytes.
  induction s as [|c s IH]; [reflexivity|].
  cbn [flatMapBytes countByte String.length]. rewrite length_append, IH.
  unfold escapeByte.
  destruct (Ascii.eqb_spec c "\"%char) as [->|H1]; [simpl; lia|].
  destruct (Ascii.eqb_spec c "'"%char) as [->|H2]; simpl; lia.
Qed.

End Quoting.

(** X1. A stream name put through [quoteIdentifier] reads back, as a
    double-quoted identifier, as exactly the name, whatever text follows
    the closing quote (provided that text does not start with a double
    quote); the query text after the identifier is never read as part of
    the identifier. *)
Theorem quoteIdentifier_roundtrip (identifier rest : string) :
  (forall r, rest <> String Go.dquoteChar r) ->
  unquoteIdentifier (quoteIdentifier identifier +:+ rest) = Some (identifier, rest).
Proof.
  intros Hrest. rewrite quoteIdentifier_bytes.
  change Go.dquote with (String Go.dquoteChar EmptyString) at 1.
  rewrite !append_cons, append_nil_l. cbn [unquoteIdentifier].
  rewrite Ascii.eqb_refl, append_assoc. now apply unquoteBody_quote.
Qed.

Lemma quoteIdentifier_roundtrip_witness :
  unquoteIdentifier (quoteIdentifier (String "l" (String Go.dquoteChar "gs")) +:+ " WHERE x")
  = Some (String "l" (String Go.dquoteChar "gs"), " WHERE x").
Proof.
  apply (quoteIdentifier_roundtrip (String "l" (String Go.dquoteChar "gs")) " WHERE x").
  intros r. discriminate.
Defined.

(** X2. [escapeSQLString] returns its argument unchanged exactly when the
    argument holds neither a backslash nor a single quote; every other
    argument grows, so escaping twice differs from escaping once on every
    string that needs escaping. *)
Theorem escapeSQLString_fixpoint (s : string) :
  (escapeSQLString s = s <->
     countByte "\"%char s = 0%nat /\ countByte "'"%char s = 0%nat) /\
  (escapeSQLString (escapeSQLString s) = escapeSQLString s <-> escapeSQLString s = s).
Proof.
  assert (Hfix : forall t, escapeSQLString t = t <->
            countByte "\"%char t = 0%nat /\ countByte "'"%char t = 0%nat).
  { intros t. split.
    - intros H. pose proof (escapeSQLString_length t) as Hl. rewrite H in Hl. lia.
    - intros [Hb Hq]. rewrite escapeSQLString_bytes.
      induction t as [|c t IH]; [reflexivity|].
      cbn [countByte] in Hb, Hq. cbn [flatMapBytes]. unfold escapeByte.
      destruct (Ascii.eqb c "\"%char); [discriminate|].
      destruct (Ascii.eqb c "'"%char); [discriminate|].
      rewrite append_cons, append_nil_l. f_equal. apply IH; assumption. }
  split; [apply Hfix|].
  split; [|intros H; now rewrite !H].
  intros H. apply Hfix in H. apply Hfix.
  rewrite escapeSQLString_bytes in H.
  induction s as [|c s IH]; [split; reflexivity|].
  cbn [flatMapBytes] in H. rewrite !countByte_append in H.
  cbn [countByte]. unfold escapeByte in H.
  destruct (Ascii.eqb_spec c "\"%char) as [->|H1];
    [destruct H as [H _]; cbn in H; discriminate|].
  destruct (Ascii.eqb_spec c "'"%char) as [->|H2];
    [destruct H as [_ H]; cbn in H; discriminate|].
  cbn [countByte] in H.
  destruct (Ascii.eqb_spec c "\"%char); [congruence|].
  destruct (Ascii.eqb_spec c "'"%char); [congruence|].
  cbn [Nat.add] in *. apply IH. exact H.
Qed.

Lemma escapeSQLString_fixpoint_witness : escapeSQLString "team-a" = "team-a".
Proof.
  apply (proj2 (proj1 (escapeSQLString_fixpoint "team-a"))).
  split; reflexivity.
Defined.

(** ** Alerts *)

Lemma alertOperators_dec (op : string) : In op alertOperators \/ ~ In op alertOperators.
Proof. destruct (in_dec string_dec op alertOperators); tauto. Qed.

Lemma isEmpty_true (s : string) : isEmpty s = true -> s = EmptyString.
Proof. apply String.eqb_eq. Qed.

Section AlertFacts.

Variable quote : string -> string.

Lemma mapOperator_Ok (op : string) :
  In op alertOperators -> exists sql, Logs.mapOperator quote op = Ok sql.
Proof.
  unfold alertOperators. cbn [In].
  intros [<-|[<-|[<-|[<-|[<-|[<-|[]]]]]]]; eexists; reflexivity.
Qed.

Lemma mapOperator_Err (op : string) :
  ~ In op alertOperators ->
  Logs.mapOperator quote op =
  Err ("unsupported operator " +:+ quote op +:+ ": must be one of gt, gte, lt, lte, eq, neq").
Proof.
  unfold alertOperators, Logs.mapOperator. cbn [In]. intros H.
  repeat match goal with
  | |- context [String.eqb op ?s] =>
      destruct (String.eqb_spec op s) as [->|_]; [exfalso; apply H; tauto|]
  end.
  reflexivity.
Qed.

Lemma generateAlertConfig_Err (p : Logs.LogAlertParams) (stream : string) :
  ~ In (Logs.la_Operator p) alertOperators ->
  Logs.generateAlertConfig quote p stream =
  Err ("invalid alert operator: unsupported operator " +:+ quote (Logs.la_Operator p) +:+
       ": must be one of gt, gte, lt, lte, eq, neq").
Proof.
  intros H. unfold Logs.generateAlertConfig. now rewrite (mapOperator_Err _ H).
Qed.

End AlertFacts.

(** X3. [generateAlertConfig] yields an alert document exactly when the
    operator is one of gt, gte, lt, lte, eq and neq (compared byte for
    byte) and the threshold is neither a NaN nor an infinity, which the
    JSON encoder refuses; the operator is checked first, so an operator
    outside the six gives the operator error whatever the threshold is.
    [mapOperator] sends distinct operators to distinct SQL operators. *)
Theorem alert_operator_whitelist (quote : string -> string) :
  (forall p stream,
     (exists config, Logs.generateAlertConfig quote p stream = Ok config) <->
     In (Logs.la_Operator p) alertOperators /\
     Go.float32Unsupported (Logs.la_ThresholdValue p) = None) /\
  (forall p stream,
     ~ In (Logs.la_Operator p) alertOperators ->
     Logs.generateAlertConfig quote p stream =
     Err ("invalid alert operator: unsupported operator " +:+ quote (Logs.la_Operator p) +:+
          ": must be one of gt, gte, lt, lte, eq, neq")) /\
  (forall p stream str,
     In (Logs.la_Operator p) alertOperators ->
     Go.float32Unsupported (Logs.la_ThresholdValue p) = Some str ->
     Logs.generateAlertConfig quote p stream = Err ("json: unsupported value: " +:+ str)) /\
  (forall a b sql,
     Logs.mapOperator quote a = Ok sql -> Logs.mapOperator quote b = Ok sql -> a = b).
Proof.
  assert (Hbad : forall p stream str,
            In (Logs.la_Operator p) alertOperators ->
            Go.float32Unsupported (Logs.la_ThresholdValue p) = Some str ->
            Logs.generateAlertConfig quote p stream
            = Err ("json: unsupported value: " +:+ str)).
  { intros p stream str Hin Hstr. destruct (mapOperator_Ok quote _ Hin) as [sql Hsql].
    unfold Logs.generateAlertConfig, Logs.jsonMarshalAlertConfig. rewrite Hsql.
    cbn [a_condition ac_value]. now rewrite Hstr. }
  split; [|split; [|split]].
  - intros p stream. split.
    + intros [config H].
      destruct (alertOperators_dec (Logs.la_Operator p)) as [Hin|Hout];
        [|rewrite (generateAlertConfig_Err quote p stream Hout) in H; discriminate].
      split; [exact Hin|].
      destruct (Go.float32Unsupported (Logs.la_ThresholdValue p)) as [str|] eqn:Hstr;
        [|reflexivity].
      rewrite (Hbad p stream str Hin Hstr) in H. discriminate.
    + intros [Hin Hfinite]. destruct (mapOperator_Ok quote _ Hin) as [sql Hsql].
      unfold Logs.generateAlertConfig, Logs.jsonMarshalAlertConfig. rewrite Hsql.
      cbn [a_condition ac_value]. rewrite Hfinite. eexists; reflexivity.
  - intros p stream Hout. now apply generateAlertConfig_Err.
  - exact Hbad.
  - intros a b sql Ha Hb.
    destruct (alertOperators_dec a) as [Hina|Houta];
      [|rewrite (mapOperator_Err quote a Houta) in Ha; discriminate].
    destruct (alertOperators_dec b) as [Hinb|Houtb];
      [|rewrite (mapOperator_Err quote b Houtb) in Hb; discriminate].
    unfold alertOperators in Hina, Hinb. cbn [In] in Hina, Hinb.
    destruct Hina as [<-|[<-|[<-|[<-|[<-|[<-|[]]]]]]];
      destruct Hinb as [<-|[<-|[<-|[<-|[<-|[<-|[]]]]]]];
      cbn in Ha, Hb; congruence.
Qed.

Lemma alert_operator_whitelist_witness :
  Logs.generateAlertConfig Examples.quotePlain
    (Logs.mkLogAlertParams (Some "r") "ns" "p" "e" "c" "error" "gt"
       (Go.Float32frombits 2139095040) "5m" "1m") "default"
  = Err "json: unsupported value: +Inf".
Proof.
  refine (proj1 (proj2 (proj2 (alert_operator_whitelist Examples.quotePlain)))
            (Logs.mkLogAlertParams (Some "r") "ns" "p" "e" "c" "error" "gt"
               (Go.Float32frombits 2139095040) "5m" "1m") "default" "+Inf" _ eq_refl).
  vm_compute. tauto.
Defined.

(** X4. An alert does not depend on the namespace, the project, the
    environment or the component of the rule: two rules that differ in
    these fields only give the same alert document, whose query selects
    on the search pattern alone, and [CreateAlert] does the same with
    both (the same request, the same log records, the same result). *)
Theorem alert_ignores_scope
    (transport : Transport) (quote : string -> string) (decode : string -> result string)
    (c : Logs.Client) (name : option string)
    (namespace project environment component : string)
    (namespace' project' environment' component' : string)
    (pattern operator : string) (threshold : Go.float32) (window interval : string) :
  Logs.generateAlertConfig quote
    (Logs.mkLogAlertParams name namespace project environment component
       pattern operator threshold window interval) (Logs.stream c) =
  Logs.generateAlertConfig quote
    (Logs.mkLogAlertParams name namespace' project' environment' component'
       pattern operator threshold window interval) (Logs.stream c) /\
  Logs.CreateAlert transport quote decode c
    (Logs.mkLogAlertParams name namespace project environment component
       pattern operator threshold window interval) =
  Logs.CreateAlert transport quote decode c
    (Logs.mkLogAlertParams name namespace' project' environment' component'
       pattern operator threshold window interval) /\
  Logs.alertQuery
    (Logs.mkLogAlertParams name namespace project environment component
       pattern operator threshold window interval) (Logs.stream c) =
  "SELECT count(*) as match_count FROM " +:+ quoteIdentifier (Logs.stream c) +:+
  " WHERE str_match(log, '" +:+ escapeSQLString pattern +:+ "')".
Proof. repeat split. Qed.

Section CreateAlert.

Variable transport : Transport.
Variable quote : string -> string.
Variable decode : string -> result string.

Lemma CreateAlert_not_generated (c : Logs.Client) (p : Logs.LogAlertParams) (err : string) :
  Logs.generateAlertConfig quote p (Logs.stream c) = Err err ->
  Logs.CreateAlert transport quote decode c p =
  ([LogError "Failed to generate alert config" [("error", err)]],
   Err ("failed to generate alert config: " +:+ err)).
Proof. intros H. unfold Logs.CreateAlert. now rewrite H. Qed.

End CreateAlert.

(** X5. [CreateAlert] hands no request to the HTTP client when the
    operator of the rule is not one of the six accepted ones, or when the
    threshold is a NaN or an infinity (which the JSON encoder refuses):
    it logs one error and returns an error that starts with
    [failed to generate alert config: ], whatever the backend would
    answer. *)
Theorem CreateAlert_rejects_before_sending
    (transport : Transport) (quote : string -> string) (decode : string -> result string)
    (c : Logs.Client) (p : Logs.LogAlertParams) :
  ~ In (Logs.la_Operator p) alertOperators \/
  Go.float32Unsupported (Logs.la_ThresholdValue p) <> None ->
  exists err,
    Logs.CreateAlert transport quote decode c p =
    ([LogError "Failed to generate alert config" [("error", err)]],
     Err ("failed to generate alert config: " +:+ err)) /\
    requestsOf (events (Logs.CreateAlert transport quote decode c p)) = [].
Proof.
  intros H.
  assert (Hgen : exists err,
            Logs.generateAlertConfig quote p (Logs.stream c) = Err err).
  { destruct (alertOperators_dec (Logs.la_Operator p)) as [Hin|Hout].
    - destruct H as [H|H]; [contradiction|].
      destruct (mapOperator_Ok quote _ Hin) as [sql Hsql].
      unfold Logs.generateAlertConfig, Logs.jsonMarshalAlertConfig. rewrite Hsql.
      cbn [a_condition ac_value].
      destruct (Go.float32Unsupported (Logs.la_ThresholdValue p)) as [str|];
        [eexists; reflexivity | congruence].
    - rewrite (generateAlertConfig_Err quote p _ Hout). eexists; reflexivity. }
  destruct Hgen as [err Hgen]. exists err.
  rewrite (CreateAlert_not_generated transport quote decode c p err Hgen).
  split; reflexivity.
Qed.

Lemma CreateAlert_rejects_before_sending_witness :
  exists err,
    Logs.CreateAlert (fun _ => Response 200 "{}") Examples.quotePlain (fun _ => Ok "a1")
      Examples.logsClient
      (Logs.mkLogAlertParams (Some "r") "ns" "p" "e" "c" "error" "gt"
         (Go.Float32frombits 2143289344) "5m" "1m") =
    ([LogError "Failed to generate alert config" [("error", err)]],
     Err ("failed to generate alert config: " +:+ err)) /\
    requestsOf (events
      (Logs.CreateAlert (fun _ => Response 200 "{}") Examples.quotePlain (fun _ => Ok "a1")
         Examples.logsClient
         (Logs.mkLogAlertParams (Some "r") "ns" "p" "e" "c" "error" "gt"
            (Go.Float32frombits 2143289344) "5m" "1m"))) = [].
Proof.
  apply CreateAlert_rejects_before_sending.
  right. vm_compute. discriminate.
Defined.

(** X6. [CreateAlertRule] answers a rule without a condition, without an
    operator, or with an operator outside the six accepted ones with a
    500 response (not a 400) whose message names the operator; the
    backend is not contacted. *)
Theorem CreateAlertRule_unknown_operator
    (transport : Transport) (decode : string -> result string)
    (quote : string -> string) (now : string)
    (client : Logs.Client) (body : LogsHandler.AlertRuleRequest) :
  match LogsHandler.Condition body with
  | Some condition =>
      match LogsHandler.rc_Operator condition with
      | Some op => ~ In op alertOperators
      | None => True
      end
  | None => True
  end ->
  let op := Logs.la_Operator (LogsHandler.toLogAlertParams body) in
  let message := "failed to generate alert config: invalid alert operator: " +:+
                 "unsupported operator " +:+ quote op +:+
                 ": must be one of gt, gte, lt, lte, eq, neq" in
  value (LogsHandler.CreateAlertRule transport decode quote now client (Some body))
  = LogsHandler.CreateAlertRule500JSONResponse LogsHandler.InternalServerError message /\
  requestsOf (events (LogsHandler.CreateAlertRule transport decode quote now client
                        (Some body))) = [].
Proof.
  intros H op message.
  assert (Hout : ~ In op alertOperators).
  { subst op. unfold LogsHandler.toLogAlertParams. cbn [Logs.la_Operator].
    destruct (LogsHandler.Condition body) as [condition|];
      [destruct (LogsHandler.rc_Operator condition) as [o|]|];
      cbn [LogsHandler.orZero]; [exact H | |];
      unfold alertOperators; cbn [In]; intros Hin;
      repeat (destruct Hin as [Hin|Hin]; [discriminate|]); exact Hin. }
  unfold LogsHandler.CreateAlertRule.
  rewrite (CreateAlert_not_generated transport quote decode client _ _
             (generateAlertConfig_Err quote _ (Logs.stream client) Hout)).
  split; reflexivity.
Qed.

Lemma CreateAlertRule_unknown_operator_witness :
  value (LogsHandler.CreateAlertRule (fun _ => Response 200 "{}") (fun _ => Ok "a1")
           Examples.quotePlain "2026-01-01T00:00:00Z" Examples.logsClient
           (Some (LogsHandler.mkAlertRuleRequest None None None)))
  = LogsHandler.CreateAlertRule500JSONResponse LogsHandler.InternalServerError
      ("failed to generate alert config: invalid alert operator: " +:+
       "unsupported operator " +:+ Examples.quotePlain "" +:+
       ": must be one of gt, gte, lt, lte, eq, neq").
Proof.
  exact (proj1 (CreateAlertRule_unknown_operator (fun _ => Response 200 "{}")
                  (fun _ => Ok "a1") Examples.quotePlain "2026-01-01T00:00:00Z"
                  Examples.logsClient (LogsHandler.mkAlertRuleRequest None None None) I)).
Defined.

(** X7. When the alert document is generated and the backend answers the
    creation request with status 200 or 201, [CreateAlert] succeeds
    whatever the body is: it has handed exactly one request to the HTTP
    client (the POST of the document to the alerts endpoint), has logged
    nothing, and returns the [alert_id] decoded from the body, or the
    empty string when the body does not decode. *)
Theorem CreateAlert_accepted
    (transport : Transport) (quote : string -> string) (decode : string -> result string)
    (c : Logs.Client) (p : Logs.LogAlertParams)
    (config : AlertConfig) (status : Z) (body : string) :
  Logs.generateAlertConfig quote p (Logs.stream c) = Ok config ->
  transport (Logs.alertsCreateRequest c config) = Response status body ->
  status = 200 \/ status = 201 ->
  Logs.CreateAlert transport quote decode c p =
  ([HttpDo (Logs.alertsCreateRequest c config)],
   Ok match decode body with Ok alertID => alertID | Err _ => EmptyString end) /\
  r_method (Logs.alertsCreateRequest c config) = "POST" /\
  r_body (Logs.alertsCreateRequest c config) = AlertBody config.
Proof.
  intros Hgen Htr Hst. split; [|split; reflexivity].
  unfold Logs.CreateAlert. rewrite Hgen. cbv zeta. rewrite Htr.
  replace (negb (status =? 200) && negb (status =? 201)) with false
    by (destruct Hst as [->| ->]; reflexivity).
  destruct (decode body) as [alertID|err]; [|reflexivity].
  destruct (isEmpty alertID) eqn:He; [|reflexivity].
  apply isEmpty_true in He. subst alertID. reflexivity.
Qed.

Lemma CreateAlert_accepted_witness :
  value (Logs.CreateAlert (fun _ => Response 201 "not json") Examples.quotePlain
           (fun _ => Err "invalid character") Examples.logsClient
           (Logs.mkLogAlertParams (Some "r") "ns" "p" "e" "c" "error" "gt"
              (Go.Float32frombits 0) "5m" "1m"))
  = Ok EmptyString.
Proof.
  refine (f_equal snd (proj1 (CreateAlert_accepted (fun _ => Response 201 "not json")
            Examples.quotePlain (fun _ => Err "invalid character") Examples.logsClient
            (Logs.mkLogAlertParams (Some "r") "ns" "p" "e" "c" "error" "gt"
               (Go.Float32frombits 0) "5m" "1m")
            _ 201 "not json" eq_refl eq_refl (or_intror eq_refl)))).
Defined.

Section DeleteAlert.

Variable transport : Transport.
Variable decode : string -> result (list Logs.AlertListItem).
Variable quote : string -> string.

(** The lookup succeeds only on a listing answered with 200 that decodes
    and holds the name; it has then sent the listing request and nothing
    else. *)
Lemma getAlertIDByName_Ok (c : Logs.Client) (name alertID : string) :
  value (Logs.getAlertIDByName transport decode quote c name) = Ok alertID ->
  exists body alerts,
    transport (Logs.alertsListRequest c) = Response 200 body /\
    decode body = Ok alerts /\
    Logs.findAlertID alerts name = Some alertID /\
    events (Logs.getAlertIDByName transport decode quote c name)
    = [HttpDo (Logs.alertsListRequest c)].
Proof.
  unfold Logs.getAlertIDByName. cbv zeta.
  destruct (transport (Logs.alertsListRequest c)) as [err|err|st err|status body];
    try (cbn; discriminate).
  destruct (Z.eqb_spec status 200) as [->|Hne]; [|cbn; discriminate].
  cbn [negb]. destruct (decode body) as [alerts|err] eqn:Hdec; [|cbn; discriminate].
  destruct (Logs.findAlertID alerts name) as [found|] eqn:Hfind; [|cbn; discriminate].
  cbn. intros [= ->]. exists body, alerts. repeat split; assumption.
Qed.

(** The lookup sends at most the listing request. *)
Lemma getAlertIDByName_requests (c : Logs.Client) (name : string) :
  requestsOf (events (Logs.getAlertIDByName transport decode quote c name)) = [] \/
  requestsOf (events (Logs.getAlertIDByName transport decode quote c name))
  = [Logs.alertsListRequest c].
Proof.
  unfold Logs.getAlertIDByName. cbv zeta.
  destruct (transport (Logs.alertsListRequest c)) as [err|err|st err|status body];
    [left; reflexivity | right; reflexivity | right; reflexivity |].
  right. destruct (negb (status =? 200)); [reflexivity|].
  destruct (decode body) as [alerts|err]; [|reflexivity].
  destruct (Logs.findAlertID alerts name); reflexivity.
Qed.

Lemma DeleteAlert_lookup_failed (c : Logs.Client) (name err : string) :
  value (Logs.getAlertIDByName transport decode quote c name) = Err err ->
  Logs.DeleteAlert transport decode quote c name =
  (events (Logs.getAlertIDByName transport decode quote c name),
   Err ("failed to find alert " +:+ quote name +:+ ": " +:+ err)).
Proof.
  intros H. unfold Logs.DeleteAlert.
  destruct (Logs.getAlertIDByName transport decode quote c name) as [evs r].
  cbn [value snd events fst] in *. subst r. cbn. now rewrite app_nil_r.
Qed.

End DeleteAlert.

(** X8. [DeleteAlert] returns an alert ID only after two requests, in
    this order: the listing of the alerts, answered with status 200 by a
    body that decodes to a list whose first entry with the given name has
    that ID, and the DELETE of that ID, answered with status 200 or 204.
    It hands no other request to the HTTP client. *)
Theorem DeleteAlert_deletes_looked_up_id
    (transport : Transport) (decode : string -> result (list Logs.AlertListItem))
    (quote : string -> string) (c : Logs.Client) (name alertID : string) :
  value (Logs.DeleteAlert transport decode quote c name) = Ok alertID ->
  exists body alerts status reply,
    transport (Logs.alertsListRequest c) = Response 200 body /\
    decode body = Ok alerts /\
    Logs.findAlertID alerts name = Some alertID /\
    transport (Logs.alertDeleteRequest c alertID) = Response status reply /\
    (status = 200 \/ status = 204) /\
    events (Logs.DeleteAlert transport decode quote c name)
    = [HttpDo (Logs.alertsListRequest c); HttpDo (Logs.alertDeleteRequest c alertID)].
Proof.
  intros H.
  destruct (value (Logs.getAlertIDByName transport decode quote c name))
    as [found|err] eqn:Hlook.
  - destruct (getAlertIDByName_Ok transport decode quote c name found Hlook)
      as (body & alerts & Htr & Hdec & Hfind & Hev).
    revert H. unfold Logs.DeleteAlert. rewrite value_bind, events_bind, Hlook, Hev.
    cbv zeta.
    change {| r_method := "DELETE";
              r_url := Logs.baseURL c +:+ "/api/v2/" +:+ Logs.org c +:+ "/alerts/" +:+ found;
              r_contentType := None;
              r_basicAuth := (Logs.user c, Logs.token c);
              r_body := NoBody |}
      with (Logs.alertDeleteRequest c found).
    destruct (transport (Logs.alertDeleteRequest c found))
      as [err|err|st err|status reply] eqn:Hdel; try (cbn; discriminate).
    destruct (negb (status =? 200) && negb (status =? 204)) eqn:Hst; [cbn; discriminate|].
    cbn. intros [= <-]. exists body, alerts, status, reply.
    repeat split; try assumption.
    destruct (Z.eqb_spec status 200); [now left|].
    destruct (Z.eqb_spec status 204); [now right|discriminate].
  - rewrite (DeleteAlert_lookup_failed transport decode quote c name err Hlook) in H.
    discriminate.
Qed.

Lemma DeleteAlert_deletes_looked_up_id_witness :
  exists body alerts status reply,
    AlertExamples.listBackend (Logs.alertsListRequest Examples.logsClient)
    = Response 200 body /\
    AlertExamples.decodeListing body = Ok alerts /\
    Logs.findAlertID alerts "foo" = Some "x1" /\
    AlertExamples.listBackend (Logs.alertDeleteRequest Examples.logsClient "x1")
    = Response status reply /\
    (status = 200 \/ status = 204) /\
    events (Logs.DeleteAlert AlertExamples.listBackend AlertExamples.decodeListing
              Examples.quotePlain Examples.logsClient "foo")
    = [HttpDo (Logs.alertsListRequest Examples.logsClient);
       HttpDo (Logs.alertDeleteRequest Examples.logsClient "x1")].
Proof.
  apply (DeleteAlert_deletes_looked_up_id AlertExamples.listBackend
           AlertExamples.decodeListing Examples.quotePlain Examples.logsClient "foo" "x1").
  reflexivity.
Defined.

(** X9. When the listing is answered with status 200 and decodes to a
    list that does not hold the rule name, [DeleteAlertRule] answers with
    a 500 response (there is no 404) whose message is the wrapped
    not-found error; one request, the listing, has been sent, and no
    DELETE. *)
Theorem DeleteAlertRule_unknown_rule
    (transport : Transport) (decode : string -> result (list Logs.AlertListItem))
    (quote : string -> string) (now : string)
    (client : Logs.Client) (ruleName body : string) (alerts : list Logs.AlertListItem) :
  transport (Logs.alertsListRequest client) = Response 200 body ->
  decode body = Ok alerts ->
  Forall (fun alert => Logs.Name alert <> ruleName) alerts ->
  value (LogsHandler.DeleteAlertRule transport decode quote now client ruleName)
  = LogsHandler.DeleteAlertRule500JSONResponse LogsHandler.InternalServerError
      ("failed to find alert " +:+ quote ruleName +:+ ": alert " +:+ quote ruleName +:+
       " not found") /\
  requestsOf (events (LogsHandler.DeleteAlertRule transport decode quote now client ruleName))
  = [Logs.alertsListRequest client].
Proof.
  intros Htr Hdec Hnone.
  assert (Hfind : Logs.findAlertID alerts ruleName = None).
  { clear Hdec. induction Hnone as [|alert rest Hne _ IH]; [reflexivity|].
    cbn [Logs.findAlertID].
    destruct (String.eqb_spec (Logs.Name alert) ruleName); [contradiction|exact IH]. }
  assert (Hlook : Logs.getAlertIDByName transport decode quote client ruleName
                  = ([HttpDo (Logs.alertsListRequest client)],
                     Err ("alert " +:+ quote ruleName +:+ " not found"))).
  { unfold Logs.getAlertIDByName. cbv zeta. rewrite Htr. cbn [Z.eqb Pos.eqb negb].
    rewrite Hdec, Hfind. reflexivity. }
  unfold LogsHandler.DeleteAlertRule.
  rewrite (DeleteAlert_lookup_failed transport decode quote client ruleName
             ("alert " +:+ quote ruleName +:+ " not found"))
    by (rewrite Hlook; reflexivity).
  rewrite Hlook. split; reflexivity.
Qed.

Lemma DeleteAlertRule_unknown_rule_witness :
  requestsOf (events (LogsHandler.DeleteAlertRule AlertExamples.listBackend
                        AlertExamples.decodeListing Examples.quotePlain
                        "2026-01-01T00:00:00Z" Examples.logsClient "bar"))
  = [Logs.alertsListRequest Examples.logsClient].
Proof.
  refine (proj2 (DeleteAlertRule_unknown_rule AlertExamples.listBackend
                   AlertExamples.decodeListing Examples.quotePlain "2026-01-01T00:00:00Z"
                   Examples.logsClient "bar" "{...}" AlertExamples.listing
                   eq_refl eq_refl _)).
  repeat constructor. discriminate.
Defined.

(** ** The logs client *)

Section LogEntries.

Lemma substring_split (s : string) (m : nat) :
  (m <= String.length s)%nat ->
  substring 0 m s +:+ substring m (String.length s - m) s = s.
Proof.
  revert m. induction s as [|c s IH]; intros m Hm.
  - destruct m; reflexivity.
  - destruct m as [|m].
    + cbn [substring String.length Nat.sub]. rewrite append_nil_l.
      f_equal. generalize (IH 0%nat (Nat.le_0_l _)).
      destruct s; cbn [substring String.length Nat.sub]; [reflexivity|].
      rewrite append_nil_l. now intros ->.
    + cbn [substring String.length Nat.sub]. rewrite append_cons. f_equal.
      apply IH. cbn [String.length] in Hm. lia.
Qed.

Lemma substring_append_l (a b : string) :
  substring 0 (String.length a) (a +:+ b) = a.
Proof.
  induction a as [|c a IH]; [destruct b; reflexivity|].
  rewrite append_cons. cbn [String.length substring]. now rewrite IH.
Qed.

Lemma substring_append_r (a b : string) :
  substring (String.length a) (String.length b) (a +:+ b) = b.
Proof.
  induction a as [|c a IH].
  - rewrite append_nil_l. cbn [String.length].
    induction b as [|d b IHb]; [reflexivity|].
    cbn [String.length substring]. now rewrite IHb.
  - rewrite append_cons. cbn [String.length substring]. exact IH.
Qed.

Lemma TrimSuffix_append (s suffix : string) : Go.TrimSuffix (s +:+ suffix) suffix = s.
Proof.
  unfold Go.TrimSuffix. rewrite length_append.
  replace (String.length s + String.length suffix - String.length suffix)%nat
    with (String.length s) by lia.
  rewrite substring_append_r, String.eqb_refl, substring_append_l.
  destruct (Nat.leb_spec (String.length suffix) (String.length s + String.length suffix));
    [reflexivity | lia].
Qed.

Lemma TrimSuffix_cases (s suffix : string) :
  Go.TrimSuffix s suffix = s \/ s = Go.TrimSuffix s suffix +:+ suffix.
Proof.
  unfold Go.TrimSuffix.
  destruct (Nat.leb_spec (String.length suffix) (String.length s)) as [Hle|_];
    [|now left].
  destruct (String.eqb_spec
              (substring (String.length s - String.length suffix) (String.length suffix) s)
              suffix) as [Heq|_]; [|now left].
  right. cbn [andb].
  pose proof (substring_split s (String.length s - String.length suffix)
                ltac:(lia)) as Hsplit.
  replace (String.length s - (String.length s - String.length suffix))%nat
    with (String.length suffix) in Hsplit by lia.
  rewrite Heq in Hsplit. now symmetry.
Qed.

End LogEntries.

(** X10. [NewClient] removes exactly one trailing slash from the base
    URL: a base URL given with one slash appended is stored without it,
    and the stored base URL is always the given one, or the given one
    less its last byte, a slash.  The other fields are stored as given. *)
Theorem NewClient_trims_one_slash (baseURL org stream user token : string) :
  Logs.baseURL (Logs.NewClient (baseURL +:+ "/") org stream user token) = baseURL /\
  (Logs.baseURL (Logs.NewClient baseURL org stream user token) = baseURL \/
   baseURL = Logs.baseURL (Logs.NewClient baseURL org stream user token) +:+ "/") /\
  Logs.NewClient baseURL org stream user token =
  Logs.mkClient (Logs.baseURL (Logs.NewClient baseURL org stream user token))
    org stream user token.
Proof.
  unfold Logs.NewClient. cbn [Logs.baseURL].
  split; [apply TrimSuffix_append|]. split; [apply TrimSuffix_cases | reflexivity].
Qed.

(** X11. The metadata of a workflow log entry is the hit without its
    columns [log] and [_timestamp]: every other column is carried with
    its value, and these two never are. *)
Theorem parseWorkflowLogEntry_metadata (timestamp : Z) (source : Hit) (key : string) :
  Logs.w_Metadata (Logs.parseWorkflowLogEntry timestamp source) !! key =
  if String.eqb key "log" || String.eqb key "_timestamp" then None else source !! key.
Proof.
  unfold Logs.parseWorkflowLogEntry. cbn [Logs.w_Metadata].
  destruct (String.eqb key "log" || String.eqb key "_timestamp") eqn:Hk.
  - apply map_lookup_filter_None. right. intros v _. cbn [fst]. now rewrite Hk.
  - destruct (source !! key) as [v|] eqn:Hv.
    + apply map_lookup_filter_Some. split; [exact Hv|]. cbn [fst]. now rewrite Hk.
    + apply map_lookup_filter_None. now left.
Qed.

Section Microseconds.

(** [time.UnixMicro(u).UnixMicro()] is [u], and the nanoseconds of
    [time.UnixMicro(u)] are within the second. *)
Lemma UnixMicro_TimeOfUnixMicro (u : Z) :
  Go.minInt64 <= u <= Go.maxInt64 ->
  Go.UnixMicro (Go.TimeOfUnixMicro u) = u /\
  0 <= Go.nsec (Go.TimeOfUnixMicro u) < 10 ^ 9.
Proof.
  intros Hu. unfold Go.UnixMicro. rewrite wrap64_add_l.
  unfold Go.TimeOfUnixMicro, Go.Unix, Go.minInt64, Go.maxInt64 in *.
  change (10 ^ 9) with 1000000000. change (10 ^ 6) with 1000000.
  change (10 ^ 3) with 1000.
  pose proof (Z.quot_rem' u 1000000) as Hqr.
  assert (Hr : - 1000000 < Z.rem u 1000000 < 1000000)
    by (pose proof (Z.rem_bound_abs u 1000000); lia).
  assert (Hs : Z.rem u 1000000 < 0 -> u < 0).
  { intros Hneg. destruct (Z.le_gt_cases 0 u) as [Hpos|]; [|assumption].
    pose proof (Z.rem_nonneg u 1000000 ltac:(lia) Hpos). lia. }
  assert (Hp : 0 < Z.rem u 1000000 -> 0 < u).
  { intros Hpos. destruct (Z.le_gt_cases u 0) as [Hneg|]; [|assumption].
    pose proof (Z.rem_nonpos u 1000000 ltac:(lia) Hneg). lia. }
  set (q := Z.quot u 1000000) in *. set (r := Z.rem u 1000000) in *.
  assert (Hn : ~ (r * 1000 >= 1000000000)) by lia.
  destruct (Z.ltb_spec (r * 1000) 0) as [Hneg|Hnn].
  - cbn [orb]. cbv zeta.
    replace (Z.quot (r * 1000) 1000000000) with 0
      by (symmetry; apply Z.quot_small_iff; lia || (right; lia)).
    replace (r * 1000 - 0 * 1000000000) with (r * 1000) by lia.
    destruct (Z.ltb_spec (r * 1000) 0) as [_|]; [|lia].
    cbn [Go.unixSec Go.nsec].
    rewrite (wrap64_small (q + 0)) by (unfold Go.minInt64, Go.maxInt64; lia).
    rewrite (wrap64_small (q + 0 - 1)) by (unfold Go.minInt64, Go.maxInt64; lia).
    split; [|lia].
    replace (Z.quot (r * 1000 + 1000000000) 1000) with (r + 1000000)
      by (replace (r * 1000 + 1000000000) with ((r + 1000000) * 1000) by lia;
          now rewrite Z.quot_mul by lia).
    replace ((q + 0 - 1) * 1000000 + (r + 1000000)) with u by lia.
    apply wrap64_small. unfold Go.minInt64, Go.maxInt64. lia.
  - destruct (Z.geb_spec (r * 1000) 1000000000) as [|_]; [lia|].
    cbn [orb Go.unixSec Go.nsec]. split; [|lia].
    rewrite Z.quot_mul by lia.
    replace (q * 1000000 + r) with u by lia.
    apply wrap64_small. unfold Go.minInt64, Go.maxInt64. lia.
Qed.

End Microseconds.

(** X12. The time of a log entry denotes the microsecond of its hit: for
    every timestamp of the type [int64], the [Timestamp] of the component
    entry and of the workflow entry, read back with [UnixMicro] (as the
    query generators read the bounds of a query), is that timestamp, and
    its nanoseconds are within the second. *)
Theorem log_entry_timestamp_roundtrip (timestamp : Z) (source : Hit) :
  Go.minInt64 <= timestamp <= Go.maxInt64 ->
  Go.UnixMicro (Logs.e_Timestamp (Logs.parseApplicationLogEntry timestamp source))
  = timestamp /\
  Go.UnixMicro (Logs.w_Timestamp (Logs.parseWorkflowLogEntry timestamp source))
  = timestamp /\
  0 <= Go.nsec (Logs.e_Timestamp (Logs.parseApplicationLogEntry timestamp source)) < 10 ^ 9.
Proof.
  intros H. destruct (UnixMicro_TimeOfUnixMicro timestamp H) as [Hm Hn].
  cbn [Logs.parseApplicationLogEntry Logs.parseWorkflowLogEntry
       Logs.e_Timestamp Logs.w_Timestamp].
  repeat split; try exact Hm; apply Hn.
Qed.

Lemma log_entry_timestamp_roundtrip_witness :
  Go.UnixMicro (Logs.e_Timestamp (Logs.parseApplicationLogEntry (-1500001) ∅)) = -1500001.
Proof.
  apply (log_entry_timestamp_roundtrip (-1500001) ∅).
  unfold Go.minInt64, Go.maxInt64. lia.
Defined.

(** ** Spans *)

Section SpanDetail.

Import SpanSpec.

Variable fmtValue : JValue -> string.

(** The loop over the columns, in one equation. *)
Lemma fold_addAttribute (columns : list (string * JValue))
    (acc : list Tracing.SpanAttribute * list Tracing.SpanAttribute) :
  fold_left (Tracing.addAttribute fmtValue) columns acc =
  (fst acc ++ map (attributeOf fmtValue) (List.filter isAttribute columns),
   snd acc ++ map (attributeOf fmtValue) (List.filter isResourceAttribute columns)).
Proof.
  revert acc. induction columns as [|[key v] columns IH]; intros [attrs res].
  - cbn. now rewrite !app_nil_r.
  - cbn [fold_left]. rewrite IH. cbn [List.filter].
    unfold Tracing.addAttribute, isAttribute, isResourceAttribute. cbn [fst snd].
    destruct (Tracing.excludeFields key); [reflexivity|].
    destruct (Tracing.isResourceKey key); cbn [negb andb fst snd map];
      now rewrite <- app_assoc.
Qed.

Lemma excludeFields_spec (key : string) :
  Tracing.excludeFields key = true <-> In key Tracing.internalFields.
Proof.
  unfold Tracing.excludeFields. rewrite existsb_exists. split.
  - intros (x & Hin & Heq). apply String.eqb_eq in Heq. now subst.
  - intros Hin. exists key. split; [exact Hin | apply String.eqb_refl].
Qed.

Lemma NoDup_keys_filter (p : string * JValue -> bool) (columns : list (string * JValue)) :
  List.NoDup (map fst columns) -> List.NoDup (map fst (List.filter p columns)).
Proof.
  induction columns as [|x columns IH]; [intros _; constructor|].
  cbn [map List.filter]. intros Hnd. inversion Hnd as [|? ? Hnotin Hrest]; subst.
  destruct (p x); [|now apply IH].
  cbn [map]. constructor; [|now apply IH].
  intros Hin. apply Hnotin. apply in_map_iff in Hin as (y & Hy & Hin).
  apply filter_In in Hin as [Hin _]. apply in_map_iff. now exists y.
Qed.

End SpanDetail.

(** X13. [parseSpanDetail] sorts the columns of the hit into the two
    attribute lists, whatever the order in which the map is ranged over:
    a column is an attribute when its key is not an internal field and
    starts with neither [service] nor [resource], a resource attribute
    when its key is not an internal field and starts with one of them,
    and its value is the rendering of the column's value.  No internal
    field is listed, no key is listed twice, and no key is in both
    lists. *)
Theorem parseSpanDetail_attributes
    (range : Hit -> list (string * JValue)) (fmtValue : JValue -> string) (hit : Hit) :
  range hit ≡ₚ map_to_list hit ->
  let detail := Tracing.parseSpanDetail range fmtValue hit in
  (forall key value,
     Tracing.mkSpanAttribute key value ∈ Tracing.Attributes detail <->
     exists v, hit !! key = Some v /\ value = fmtValue v /\
               ~ In key Tracing.internalFields /\ Tracing.isResourceKey key = false) /\
  (forall key value,
     Tracing.mkSpanAttribute key value ∈ Tracing.ResourceAttributes detail <->
     exists v, hit !! key = Some v /\ value = fmtValue v /\
               ~ In key Tracing.internalFields /\ Tracing.isResourceKey key = true) /\
  NoDup (map Tracing.Key (Tracing.Attributes detail ++ Tracing.ResourceAttributes detail)).
Proof.
  intros Hperm detail.
  assert (Hcol : forall key v, In (key, v) (range hit) <-> hit !! key = Some v).
  { intros key v. rewrite <- elem_of_map_to_list, <- list_elem_of_In. now rewrite Hperm. }
  assert (Hkeys : List.NoDup (map fst (range hit))).
  { apply NoDup_ListNoDup. change (map fst (range hit)) with ((range hit).*1).
    rewrite Hperm. apply NoDup_fst_map_to_list. }
  assert (Hexcl : forall key, Tracing.excludeFields key = false <->
                              ~ In key Tracing.internalFields).
  { intros key. rewrite <- excludeFields_spec.
    destruct (Tracing.excludeFields key); split; congruence. }
  assert (Hmem : forall (p : string * JValue -> bool) key value,
            Tracing.mkSpanAttribute key value
              ∈ map (SpanSpec.attributeOf fmtValue) (List.filter p (range hit)) <->
            exists v, hit !! key = Some v /\ value = fmtValue v /\ p (key, v) = true).
  { intros p key value. rewrite list_elem_of_In, in_map_iff. split.
    - intros ([k v] & Heq & Hin). apply filter_In in Hin as [Hin Hp].
      unfold SpanSpec.attributeOf in Heq. cbn [fst snd] in Heq.
      injection Heq as -> <-. exists v. repeat split; [now apply Hcol | exact Hp].
    - intros (v & Hv & -> & Hp). exists (key, v). split; [reflexivity|].
      apply filter_In. split; [now apply Hcol | exact Hp]. }
  subst detail. unfold Tracing.parseSpanDetail.
  cbn [Tracing.Attributes Tracing.ResourceAttributes].
  rewrite fold_addAttribute. cbn [fst snd app].
  split; [|split].
  - intros key value. rewrite Hmem. unfold SpanSpec.isAttribute. cbn [fst].
    split; intros (v & Hv & Hval & H); exists v; (split; [exact Hv|]);
      (split; [exact Hval|]).
    + apply andb_true_iff in H as [He Hr]. apply negb_true_iff in He, Hr.
      split; [now apply Hexcl | exact Hr].
    + destruct H as [He Hr]. apply Hexcl in He. now rewrite He, Hr.
  - intros key value. rewrite Hmem. unfold SpanSpec.isResourceAttribute. cbn [fst].
    split; intros (v & Hv & Hval & H); exists v; (split; [exact Hv|]);
      (split; [exact Hval|]).
    + apply andb_true_iff in H as [He Hr]. apply negb_true_iff in He.
      split; [now apply Hexcl | exact Hr].
    + destruct H as [He Hr]. apply Hexcl in He. now rewrite He, Hr.
  - rewrite map_app, !map_map.
    change (fun x => Tracing.Key (SpanSpec.attributeOf fmtValue x)) with (@fst string JValue).
    apply NoDup_app. split; [|split].
    + apply NoDup_ListNoDup, NoDup_keys_filter, Hkeys.
    + intros key Ha Hr.
      apply list_elem_of_In, in_map_iff in Ha as ([k v] & <- & Ha).
      apply list_elem_of_In, in_map_iff in Hr as ([k' v'] & Hk & Hr).
      cbn [fst] in Hk. subst k'.
      apply filter_In in Ha as [_ Ha]. apply filter_In in Hr as [_ Hr].
      unfold SpanSpec.isAttribute, SpanSpec.isResourceAttribute in *. cbn [fst] in *.
      destruct (Tracing.excludeFields k); [discriminate|].
      destruct (Tracing.isResourceKey k); discriminate.
    + apply NoDup_ListNoDup, NoDup_keys_filter, Hkeys.
Qed.

Lemma parseSpanDetail_attributes_witness :
  NoDup (map Tracing.Key
    (Tracing.Attributes
       (Tracing.parseSpanDetail map_to_list (fun _ => "v")
          (Examples.hit [("span_id", JString "A"); ("http_method", JString "GET");
                         ("service_name", JString "cart")])) ++
     Tracing.ResourceAttributes
       (Tracing.parseSpanDetail map_to_list (fun _ => "v")
          (Examples.hit [("span_id", JString "A"); ("http_method", JString "GET");
                         ("service_name", JString "cart")])))).
Proof.
  refine (proj2 (proj2 (parseSpanDetail_attributes map_to_list (fun _ => "v")
            (Examples.hit [("span_id", JString "A"); ("http_method", JString "GET");
                           ("service_name", JString "cart")]) _))).
  reflexivity.
Defined.

Section SpanTimes.


End SpanTimes.



(** ** The handlers of the tracing service *)

Section TracingHandlers.

Variable transport : Transport.
Variable decode : string -> result OpenObserveResponse.

Lemma tracing_executeSearchQuery_Ok (c : Tracing.Client) (q : SearchQuery)
    (body : string) (resp : OpenObserveResponse) :
  transport (Tracing.searchRequest c q) = Response 200 body ->
  decode body = Ok resp ->
  Tracing.executeSearchQuery transport decode c q =
  ([HttpDo (Tracing.searchRequest c q)], Ok resp).
Proof.
  intros Htr Hdec. unfold Tracing.executeSearchQuery. rewrite Htr.
  cbn [Z.eqb Pos.eqb negb]. now rewrite Hdec.
Qed.

End TracingHandlers.

(** X15. [GetSpanDetailsForTrace] asks for one row, in a time window
    that does not depend on the request.  When the backend answers with
    status 200 and no hit, the handler answers with a 500 response (there
    is no 404) whose detail is the span-not-found error naming both IDs;
    when there are hits, the span is made from the first one alone. *)
Theorem GetSpanDetailsForTrace_first_hit
    (transport : Transport) (decode : string -> result OpenObserveResponse)
    (range : Hit -> list (string * JValue)) (fmtValue : JValue -> string)
    (client : Tracing.Client) (traceId spanId body : string) (resp : OpenObserveResponse) :
  let query :=
    mkSearchQuery
      (Tracing.spanDetailSQL (TracingHandler.spanDetailParams traceId spanId)
         (Tracing.stream client))
      1 (Z.quot Go.maxInt64 2) 0 1 (Some 0) in
  transport (Tracing.searchRequest client query) = Response 200 body ->
  decode body = Ok resp ->
  TracingHandler.GetSpanDetailsForTrace transport decode range fmtValue client traceId spanId =
  match Hits resp with
  | [] =>
      let detail := "span not found: traceId=" +:+ traceId +:+ ", spanId=" +:+ spanId in
      ([HttpDo (Tracing.searchRequest client query);
        LogError "Failed to query span detail" [("error", detail)]],
       TracingHandler.JSON500 TracingHandler.InternalServerError detail)
  | hit :: _ =>
      ([HttpDo (Tracing.searchRequest client query)],
       TracingHandler.JSON200 (Tracing.parseSpanDetail range fmtValue hit))
  end.
Proof.
  intros query Htr Hdec.
  unfold TracingHandler.GetSpanDetailsForTrace, Tracing.GetSpanDetail,
    Tracing.generateSpanDetailQuery.
  fold query. rewrite (tracing_executeSearchQuery_Ok transport decode _ _ _ _ Htr Hdec).
  cbv beta iota delta [bind]. destruct (Hits resp); reflexivity.
Qed.

Lemma GetSpanDetailsForTrace_first_hit_witness :
  value (TracingHandler.GetSpanDetailsForTrace Examples.emptyBackend
           (fun _ => Ok (mkOpenObserveResponse 3 [] 0)) map_to_list (fun _ => "v")
           Examples.tracingClient "T1" "A")
  = TracingHandler.JSON500 TracingHandler.InternalServerError
      "span not found: traceId=T1, spanId=A".
Proof.
  exact (f_equal snd
           (GetSpanDetailsForTrace_first_hit Examples.emptyBackend
              (fun _ => Ok (mkOpenObserveResponse 3 [] 0)) map_to_list (fun _ => "v")
              Examples.tracingClient "T1" "A" "{}" (mkOpenObserveResponse 3 [] 0)
              eq_refl eq_refl)).
Defined.

(** X16. When the backend answers every request with a status other than
    200, each of the three handlers of the tracing service answers with a
    500 response whose detail names the status code and says that the
    body was omitted: the detail is the same for every body. *)
Theorem tracing_handlers_omit_backend_body
    (transport : Transport) (decode : string -> result OpenObserveResponse)
    (range : Hit -> list (string * JValue)) (fmtValue : JValue -> string)
    (client : Tracing.Client) (request : TracingHandler.TracesQueryRequest)
    (traceId spanId : string) (status : Z) (body : string) :
  (forall req, transport req = Response status body) ->
  status <> 200 ->
  let detail := "openobserve returned status " +:+ Go.fmt_d status +:+
                ": response body omitted" in
  value (TracingHandler.QueryTraces transport decode client request)
  = TracingHandler.JSON500 TracingHandler.InternalServerError detail /\
  value (TracingHandler.QuerySpansForTrace transport decode client traceId request)
  = TracingHandler.JSON500 TracingHandler.InternalServerError detail /\
  value (TracingHandler.GetSpanDetailsForTrace transport decode range fmtValue client
           traceId spanId)
  = TracingHandler.JSON500 TracingHandler.InternalServerError detail.
Proof.
  intros Htr Hst detail.
  unfold TracingHandler.QueryTraces, TracingHandler.QuerySpansForTrace,
    TracingHandler.GetSpanDetailsForTrace, Tracing.GetTraces, Tracing.GetSpans,
    Tracing.GetSpanDetail, Tracing.generateTracesListQuery, Tracing.generateSpansListQuery,
    Tracing.generateSpanDetailQuery.
  cbv zeta.
  rewrite !(tracing_executeSearchQuery_omits_body transport decode _ _ status body
              (Htr _) Hst).
  repeat split.
Qed.

Lemma tracing_handlers_omit_backend_body_witness :
  value (TracingHandler.QueryTraces Examples.failingBackend Examples.decodeEmpty
           Examples.tracingClient
           (TracingHandler.mkTracesQueryRequest Examples.epoch Examples.epoch None None
              (TracingHandler.mkTracesSearchScope "ns" None None None)))
  = TracingHandler.JSON500 TracingHandler.InternalServerError
      "openobserve returned status 500: response body omitted".
Proof.
  refine (proj1 (tracing_handlers_omit_backend_body Examples.failingBackend
                   Examples.decodeEmpty map_to_list (fun _ => "v") Examples.tracingClient
                   (TracingHandler.mkTracesQueryRequest Examples.epoch Examples.epoch None None
                      (TracingHandler.mkTracesSearchScope "ns" None None None))
                   "T1" "A" 500 "shard 3 of index logs_2026 is unavailable" _ _)).
  - intros req. reflexivity.
  - lia.
Defined.

(** X17. The traces list does not depend on the limit or on the sort
    order of the request: [QueryTraces] sends the same query, for all
    rows ([size] -1) in ascending order of start time, and gives the same
    response, whatever these two fields hold. *)
Theorem QueryTraces_ignores_limit_and_sort
    (transport : Transport) (decode : string -> result OpenObserveResponse)
    (client : Tracing.Client) (startTime endTime : Go.Time)
    (limit limit' : option Z) (sort sort' : option string)
    (scope : TracingHandler.TracesSearchScope) :
  TracingHandler.QueryTraces transport decode client
    (TracingHandler.mkTracesQueryRequest startTime endTime limit sort scope) =
  TracingHandler.QueryTraces transport decode client
    (TracingHandler.mkTracesQueryRequest startTime endTime limit' sort' scope) /\
  exists sql,
    Tracing.generateTracesListQuery
      (TracingHandler.toTracesQueryParams
         (TracingHandler.mkTracesQueryRequest startTime endTime limit sort scope))
      (Tracing.stream client)
    = Ok (mkSearchQuery (sql +:+ " ORDER BY start_time")
            (Go.UnixMicro startTime) (Go.UnixMicro endTime) 0 (-1) None).
Proof.
  split; [reflexivity|].
  unfold Tracing.generateTracesListQuery, Tracing.tracesListSQL. cbv zeta.
  eexists. reflexivity.
Qed.

(** X18. The spans of a trace are selected by the trace ID of the path
    alone: [QuerySpansForTrace] sends the same query and gives the same
    response whatever the search scope of the body holds (namespace,
    project, component, environment).  The whole query is determined by
    the trace ID, the sort order, the limit and the time bounds: its
    [WHERE] clause is the single condition on the escaped trace ID, and
    the order clause follows it. *)
Theorem QuerySpansForTrace_ignores_scope
    (transport : Transport) (decode : string -> result OpenObserveResponse)
    (client : Tracing.Client) (traceId : string) (startTime endTime : Go.Time)
    (limit : option Z) (sort : option string)
    (scope scope' : TracingHandler.TracesSearchScope) :
  TracingHandler.QuerySpansForTrace transport decode client traceId
    (TracingHandler.mkTracesQueryRequest startTime endTime limit sort scope) =
  TracingHandler.QuerySpansForTrace transport decode client traceId
    (TracingHandler.mkTracesQueryRequest startTime endTime limit sort scope') /\
  Tracing.generateSpansListQuery
    (TracingHandler.withTraceID
       (TracingHandler.toTracesQueryParams
          (TracingHandler.mkTracesQueryRequest startTime endTime limit sort scope))
       traceId)
    (Tracing.stream client)
  = Ok (mkSearchQuery
          ("SELECT span_id, operation_name, span_kind, start_time, end_time, " +:+
           "end_time - start_time as duration, reference_parent_span_id " +:+
           "FROM " +:+ Tracing.stream client +:+
           " WHERE trace_id = '" +:+ escapeSQLString traceId +:+ "'" +:+
           (if String.eqb (TracingHandler.orZero sort) "asc" ||
               String.eqb (TracingHandler.orZero sort) "ASC"
            then " ORDER BY start_time ASC" else " ORDER BY start_time DESC"))
          (Go.UnixMicro startTime) (Go.UnixMicro endTime) 0
          (match limit with
           | Some n => if n <=? 0 then 100 else n
           | None => 100
           end)
          (Some 0)).
Proof.
  split; [reflexivity|].
  unfold Tracing.generateSpansListQuery, Tracing.spansListSQL.
  cbn [TracingHandler.withTraceID Tracing.t_TraceID Tracing.t_Sort Tracing.t_Limit
       Tracing.t_StartTime Tracing.t_EndTime TracingHandler.toTracesQueryParams Go.Join
       TracingHandler.Limit TracingHandler.Sort TracingHandler.StartTime
       TracingHandler.EndTime].
  f_equal. f_equal.
  - destruct (String.eqb (TracingHandler.orZero sort) "asc" ||
              String.eqb (TracingHandler.orZero sort) "ASC");
      rewrite !append_assoc; reflexivity.
  - destruct limit as [n|]; reflexivity.
Qed.

(** ** The handler of the logs queries *)

Section QueryLogsEvents.

Variable transport : Transport.
Variable decode : string -> result OpenObserveResponse.
Variable conv : string -> Z.

Lemma logs_executeSearchQuery_clean (c : Logs.Client) (q : SearchQuery) :
  clean (Logs.executeSearchQuery transport decode c q).
Proof.
  unfold Logs.executeSearchQuery, clean. cbv zeta.
  destruct (transport (Logs.searchRequest c q)) as [err|err|st err|status body].
  - right. eexists _, _. split; [reflexivity | cbn; lia].
  - right. eexists _, _. split; [reflexivity | cbn; lia].
  - right. eexists _, _. split; [reflexivity | cbn; lia].
  - destruct (negb (status =? 200)).
    + right. eexists _, _. split; [reflexivity | cbn; lia].
    + destruct (decode body).
      * left. eexists _, _. reflexivity.
      * right. eexists _, _. split; [reflexivity | cbn; lia].
Qed.

Lemma GetWorkflowLogs_clean (c : Logs.Client) (p : Logs.WorkflowLogsParams) :
  clean (Logs.GetWorkflowLogs transport decode conv c p).
Proof.
  unfold Logs.GetWorkflowLogs, Logs.generateWorkflowLogsQuery.
  destruct (logs_executeSearchQuery_clean c
              (mkSearchQuery (Logs.workflowLogsSQL p (Logs.stream c))
                 (Go.UnixMicro (Logs.wl_StartTime p)) (Go.UnixMicro (Logs.wl_EndTime p))
                 0 (Logs.effectiveLimit (Logs.wl_Limit p)) (Some 0)))
    as [(req & a & ->)|(evs & err & -> & Hlen)].
  - left. eexists _, _. reflexivity.
  - right. exists evs, err. split; [cbn; now rewrite app_nil_r | exact Hlen].
Qed.

Lemma GetComponentLogs_clean (c : Logs.Client) (p : Logs.ComponentLogsParams) :
  clean (Logs.GetComponentLogs transport decode conv c p).
Proof.
  unfold Logs.GetComponentLogs, Logs.generateComponentLogsQuery.
  destruct (isEmpty (Logs.cl_Namespace p)).
  { right. eexists _, _. split; [reflexivity | cbn; lia]. }
  destruct (logs_executeSearchQuery_clean c
              (mkSearchQuery (Logs.componentLogsSQL p (Logs.stream c))
                 (Go.UnixMicro (Logs.cl_StartTime p)) (Go.UnixMicro (Logs.cl_EndTime p))
                 0 (Logs.effectiveLimit (Logs.cl_Limit p)) (Some 0)))
    as [(req & a & ->)|(evs & err & -> & Hlen)].
  - left. eexists _, _. reflexivity.
  - right. exists evs, err. split; [cbn; now rewrite app_nil_r | exact Hlen].
Qed.

End QueryLogsEvents.

(** X19. What [QueryLogs] has done can be read off its response.  A 400
    response is given before anything is sent or logged.  A 200 response
    is given after exactly one request and without a log record.  A 500
    response carries as its message the error that was logged last, and
    at most one request has been sent. *)
Theorem QueryLogs_response_and_events
    (transport : Transport) (decode : string -> result OpenObserveResponse)
    (conv : string -> Z) (client : Logs.Client)
    (body : option LogsHandler.LogsQueryRequest) :
  let run := LogsHandler.QueryLogs transport decode conv client body in
  match value run with
  | LogsHandler.QueryLogs400JSONResponse title _ =>
      title = LogsHandler.BadRequest /\ events run = []
  | LogsHandler.QueryLogs200JSONResponse _ =>
      exists req, events run = [HttpDo req]
  | LogsHandler.QueryLogs500JSONResponse title message =>
      title = LogsHandler.InternalServerError /\
      exists evs failure,
        events run = evs ++ [LogError failure [("error", message)]] /\
        (length (requestsOf evs) <= 1)%nat
  end.
Proof.
  unfold LogsHandler.QueryLogs.
  destruct body as [body|]; [|cbn; split; reflexivity].
  destruct (LogsHandler.workflowBranch (LogsHandler.SearchScope body)) as [workflowScope|].
  - destruct (LogsHandler.isBlank (LogsHandler.ws_Namespace workflowScope));
      [cbn; split; reflexivity|].
    destruct (GetWorkflowLogs_clean transport decode conv client
                (LogsHandler.toWorkflowLogsParams body workflowScope))
      as [(req & a & ->)|(evs & err & -> & Hlen)].
    + cbn. exists req. reflexivity.
    + cbn. split; [reflexivity|]. exists evs, "Failed to query workflow logs".
      split; [reflexivity | exact Hlen].
  - destruct (LogsHandler.AsComponentSearchScope (LogsHandler.SearchScope body))
      as [scope|err]; [|cbn; split; reflexivity].
    destruct (LogsHandler.isBlank (LogsHandler.cs_Namespace scope));
      [cbn; split; reflexivity|].
    destruct (GetComponentLogs_clean transport decode conv client
                (LogsHandler.toComponentLogsParams body scope))
      as [(req & a & ->)|(evs & err & -> & Hlen)].
    + cbn. exists req. reflexivity.
    + cbn. split; [reflexivity|]. exists evs, "Failed to query logs".
      split; [reflexivity | exact Hlen].
Qed.

Section ComponentQuery.

Lemma not_blank_not_empty (s : string) :
  LogsHandler.isBlank s = false -> isEmpty s = false.
Proof. destruct s; [discriminate | reflexivity]. Qed.

(** The text of a component logs query starts with the condition on the
    namespace. *)
Lemma componentLogsSQL_namespace (p : Logs.ComponentLogsParams) (stream : string) :
  exists tail,
    Logs.componentLogsSQL p stream =
    "SELECT * FROM " +:+ quoteIdentifier stream +:+
    " WHERE kubernetes_labels_openchoreo_dev_namespace = '" +:+
    escapeSQLString (Logs.cl_Namespace p) +:+ "'" +:+ tail.
Proof.
  unfold Logs.componentLogsSQL, Logs.componentConditions.
  match goal with
  | |- context [[?first] ++ ?others] => set (rest := others); change ([first] ++ rest)
                                          with (first :: rest)
  end.
  exists (match rest with [] => EmptyString | _ => " AND " +:+ Go.Join rest " AND " end
          +:+ Logs.orderClause (Logs.cl_SortOrder p)).
  unfold Logs.selectWhere.
  match goal with
  | |- context [Go.Join (?first :: rest) " AND "] =>
      change (Go.Join (first :: rest) " AND ")
        with (match rest with [] => first | _ => first +:+ " AND " +:+ Go.Join rest " AND " end)
  end.
  destruct rest; rewrite ?append_assoc; reflexivity.
Qed.

End ComponentQuery.

(** X20. A logs request handled under the component scope is queried
    with the namespace as it was given: the namespace is checked after
    trimming white space, but the query carries the untrimmed value,
    escaped, in its first condition.  Every request that [QueryLogs]
    sends for it is the search request of that query, with the time
    bounds of the request in microseconds. *)
Theorem QueryLogs_component_query
    (transport : Transport) (decode : string -> result OpenObserveResponse)
    (conv : string -> Z) (client : Logs.Client)
    (body : LogsHandler.LogsQueryRequest) (scope : LogsHandler.ComponentSearchScope) :
  LogsHandler.workflowBranch (LogsHandler.SearchScope body) = None ->
  LogsHandler.AsComponentSearchScope (LogsHandler.SearchScope body) = Ok scope ->
  LogsHandler.isBlank (LogsHandler.cs_Namespace scope) = false ->
  exists tail size,
    Forall (fun req =>
              req = Logs.searchRequest client
                      (mkSearchQuery
                         ("SELECT * FROM " +:+ quoteIdentifier (Logs.stream client) +:+
                          " WHERE kubernetes_labels_openchoreo_dev_namespace = '" +:+
                          escapeSQLString (LogsHandler.cs_Namespace scope) +:+ "'" +:+ tail)
                         (Go.UnixMicro (LogsHandler.StartTime body))
                         (Go.UnixMicro (LogsHandler.EndTime body))
                         0 size (Some 0)))
           (requestsOf (events (LogsHandler.QueryLogs transport decode conv client
                                  (Some body)))) /\
    0 < size.
Proof.
  intros Hwf Hsc Hns.
  set (p := LogsHandler.toComponentLogsParams body scope).
  destruct (componentLogsSQL_namespace p (Logs.stream client)) as [tail Hsql].
  exists tail, (Logs.effectiveLimit (Logs.cl_Limit p)).
  split.
  - unfold LogsHandler.QueryLogs. rewrite Hwf, Hsc, Hns. fold p.
    rewrite events_bind, requestsOf_app. apply Forall_app. split.
    + unfold Logs.GetComponentLogs, Logs.generateComponentLogsQuery.
      replace (isEmpty (Logs.cl_Namespace p)) with false
        by (symmetry; now apply not_blank_not_empty).
      rewrite events_bind, requestsOf_app. apply Forall_app. split.
      * rewrite Hsql. apply logs_executeSearchQuery_requests.
      * destruct (value _); cbn; constructor.
    + destruct (value _); cbn; constructor.
  - unfold Logs.effectiveLimit.
    destruct (Z.leb_spec (Logs.cl_Limit p) 0); lia.
Qed.

Lemma QueryLogs_component_query_witness :
  exists tail size,
    Forall (fun req =>
              req = Logs.searchRequest Examples.logsClient
                      (mkSearchQuery
                         ("SELECT * FROM " +:+ quoteIdentifier (Logs.stream Examples.logsClient)
                          +:+ " WHERE kubernetes_labels_openchoreo_dev_namespace = '" +:+
                          escapeSQLString " team " +:+ "'" +:+ tail)
                         (Go.UnixMicro Examples.epoch) (Go.UnixMicro Examples.epoch)
                         0 size (Some 0)))
           (requestsOf (events (LogsHandler.QueryLogs Examples.emptyBackend
                                  Examples.decodeEmpty Examples.noFloat Examples.logsClient
                                  (Some (LogsHandler.mkLogsQueryRequest Examples.epoch
                                           Examples.epoch None None None None
                                           (LogsHandler.mkSearchScopeUnion
                                              (Err "no workflow scope")
                                              (Ok (LogsHandler.mkComponentSearchScope
                                                     " team " None None None)))))))) /\
    0 < size.
Proof.
  apply (QueryLogs_component_query Examples.emptyBackend Examples.decodeEmpty
           Examples.noFloat Examples.logsClient
           (LogsHandler.mkLogsQueryRequest Examples.epoch Examples.epoch None None None None
              (LogsHandler.mkSearchScopeUnion (Err "no workflow scope")
                 (Ok (LogsHandler.mkComponentSearchScope " team " None None None))))
           (LogsHandler.mkComponentSearchScope " team " None None None));
    reflexivity.
Defined.

(** ** The span counts of the traces list *)

Section SpanCounts.

Import TraceSpec.

Lemma filter_no_id (hits : list Hit) :
  filter (fun h => traceIDOf h ∈ @nil string) hits = [].
Proof.
  induction hits as [|h hits IH]; [reflexivity|].
  rewrite filter_cons_False by apply not_elem_of_nil. exact IH.
Qed.

Lemma length_filter_id_cons (t : string) (ids : list string) (hits : list Hit) :
  t ∉ ids ->
  (length (spansOf t hits) + length (filter (fun h => traceIDOf h ∈ ids) hits))%nat
  = length (filter (fun h => traceIDOf h ∈ t :: ids) hits).
Proof.
  intros Hnin. unfold spansOf.
  induction hits as [|h hits IH]; [reflexivity|].
  destruct (decide (traceIDOf h = t)) as [Heq|Hne].
  - rewrite (filter_cons_True (fun h => traceIDOf h = t)) by exact Heq.
    rewrite (filter_cons_False (fun h => traceIDOf h ∈ ids)) by (rewrite Heq; exact Hnin).
    rewrite (filter_cons_True (fun h => traceIDOf h ∈ t :: ids)) by (rewrite Heq; left).
    cbn [length]. lia.
  - rewrite (filter_cons_False (fun h => traceIDOf h = t)) by exact Hne.
    destruct (decide (traceIDOf h ∈ ids)) as [Hin|Hout].
    + rewrite (filter_cons_True (fun h => traceIDOf h ∈ ids)) by exact Hin.
      rewrite (filter_cons_True (fun h => traceIDOf h ∈ t :: ids)) by (now right).
      cbn [length]. lia.
    + rewrite (filter_cons_False (fun h => traceIDOf h ∈ ids)) by exact Hout.
      rewrite (filter_cons_False (fun h => traceIDOf h ∈ t :: ids))
        by (rewrite elem_of_cons; tauto).
      exact IH.
Qed.

(** The rows of distinct traces, counted trace by trace. *)
Lemma sum_spansOf (ids : list string) (hits : list Hit) :
  NoDup ids ->
  foldr Z.add 0 (map (fun t => Z.of_nat (length (spansOf t hits))) ids)
  = Z.of_nat (length (filter (fun h => traceIDOf h ∈ ids) hits)).
Proof.
  induction 1 as [|t ids Hnin _ IH].
  - now rewrite filter_no_id.
  - cbn [map foldr]. rewrite IH, <- (length_filter_id_cons t ids hits Hnin). lia.
Qed.

Lemma traceIDs_cons (h : Hit) (hits : list Hit) :
  traceIDs (h :: hits) =
  if decide (traceIDOf h = EmptyString) then traceIDs hits
  else traceIDOf h :: traceIDs hits.
Proof.
  unfold traceIDs. cbn [map].
  destruct (decide (traceIDOf h = EmptyString)) as [Hempty|Hfull].
  - rewrite filter_cons_False by tauto. reflexivity.
  - rewrite filter_cons_True by exact Hfull. reflexivity.
Qed.

Lemma length_rows_with_id (all hits : list Hit) :
  (forall h, h ∈ hits -> h ∈ all) ->
  length (filter (fun h => traceIDOf h ∈ firstSeen (traceIDs all)) hits)
  = length (traceIDs hits).
Proof.
  induction hits as [|h hits IH]; intros Hsub; [reflexivity|].
  rewrite traceIDs_cons.
  assert (IH' := IH (fun x Hx => Hsub x (proj2 (elem_of_cons _ _ _) (or_intror Hx)))).
  destruct (decide (traceIDOf h = EmptyString)) as [Hempty|Hfull].
  - rewrite filter_cons_False; [exact IH'|].
    rewrite firstSeen_elem, traceIDs_elem. tauto.
  - rewrite filter_cons_True; [cbn [length]; f_equal; exact IH'|].
    rewrite firstSeen_elem, traceIDs_elem. split; [exact Hfull|].
    exists h. split; [apply Hsub; left | reflexivity].
Qed.

Lemma length_spansOf (t : string) (hits : list Hit) :
  (length (spansOf t hits) <= length hits)%nat.
Proof. unfold spansOf. apply length_filter. Qed.

Lemma length_traceIDs (hits : list Hit) : (length (traceIDs hits) <= length hits)%nat.
Proof.
  unfold traceIDs. etransitivity; [apply length_filter|]. now rewrite length_map.
Qed.

Lemma length_firstSeen (ids : list string) : (length (firstSeen ids) <= length ids)%nat.
Proof.
  induction ids as [|id ids IH]; [reflexivity|].
  cbn [firstSeen length]. pose proof (length_filter (fun x => x <> id) (firstSeen ids)). lia.
Qed.

End SpanCounts.

(** X21. The traces list loses no row and counts none twice: as long as
    the number of rows fits the type [int64], the span counts of the
    emitted traces add up to the number of rows with a non-empty trace
    ID, and there are at most as many traces as such rows. *)
Theorem span_counts_add_up (hits : list Hit) :
  Z.of_nat (length hits) <= Go.maxInt64 ->
  foldr Z.add 0 (map Tracing.SpanCount (Tracing.buildTraces hits))
  = Z.of_nat (length (TraceSpec.traceIDs hits)) /\
  (length (Tracing.buildTraces hits) <= length (TraceSpec.traceIDs hits) <= length hits)%nat.
Proof.
  intros Hfit. split.
  - rewrite buildTraces_spec, map_map.
    rewrite <- (length_rows_with_id hits hits (fun h Hh => Hh)).
    rewrite <- (sum_spansOf _ hits (firstSeen_NoDup _)).
    f_equal. apply map_ext_in. intros t Ht.
    apply list_elem_of_In, (proj1 (firstSeen_elem _ _)) in Ht.
    pose proof (spansOf_not_nil t hits Ht) as Hne.
    cbn [Tracing.finishTrace Tracing.SpanCount]. unfold TraceSpec.aggOf.
    rewrite (fold_addSpan_SpanCount_wrapped _ _ Hne).
    cbn [Tracing.newTraceAgg Tracing.entry Tracing.SpanCount].
    apply wrap64_small. pose proof (length_spansOf t hits).
    unfold Go.minInt64, Go.maxInt64 in *. lia.
  - split; [|apply length_traceIDs].
    rewrite buildTraces_spec, length_map. apply length_firstSeen.
Qed.

Lemma span_counts_add_up_witness :
  foldr Z.add 0 (map Tracing.SpanCount (Tracing.buildTraces TraceExamples.rootAndChild))
  = Z.of_nat (length (TraceSpec.traceIDs TraceExamples.rootAndChild)).
Proof.
  apply (span_counts_add_up TraceExamples.rootAndChild).
  vm_compute. discriminate.
Defined.

(** X22. The traces list asks for no namespace: for a search scope whose
    four fields are empty, [QueryTraces] rejects nothing, the query has
    no [WHERE] clause and selects from the stream named as configured
    (not quoted), and on a 200 answer that decodes the handler answers
    200 with the traces of all the rows returned; the total it reports is
    the number of traces, not the total of the backend. *)
Theorem QueryTraces_without_scope
    (transport : Transport) (decode : string -> result OpenObserveResponse)
    (client : Tracing.Client) (request : TracingHandler.TracesQueryRequest)
    (body : string) (resp : OpenObserveResponse) :
  let scope := TracingHandler.SearchScope request in
  let query :=
    mkSearchQuery
      ("SELECT trace_id, span_id, operation_name, span_kind, " +:+
       "start_time, end_time, reference_parent_span_id " +:+
       "FROM " +:+ Tracing.stream client +:+ " ORDER BY start_time")
      (Go.UnixMicro (TracingHandler.StartTime request))
      (Go.UnixMicro (TracingHandler.EndTime request)) 0 (-1) None in
  TracingHandler.ss_Namespace scope = EmptyString ->
  TracingHandler.orZero (TracingHandler.ss_Project scope) = EmptyString ->
  TracingHandler.orZero (TracingHandler.ss_Component scope) = EmptyString ->
  TracingHandler.orZero (TracingHandler.ss_Environment scope) = EmptyString ->
  transport (Tracing.searchRequest client query) = Response 200 body ->
  decode body = Ok resp ->
  TracingHandler.QueryTraces transport decode client request =
  ([HttpDo (Tracing.searchRequest client query)],
   TracingHandler.JSON200
     {| Tracing.Traces := Tracing.buildTraces (Hits resp);
        Tracing.tr_Total := Z.of_nat (length (Tracing.buildTraces (Hits resp)));
        Tracing.tr_TookMs := Took resp |}).
Proof.
  intros scope query Hns Hp Hc He Htr Hdec.
  unfold TracingHandler.QueryTraces, Tracing.GetTraces, Tracing.generateTracesListQuery.
  assert (Hsql : Tracing.tracesListSQL (TracingHandler.toTracesQueryParams request)
                   (Tracing.stream client) = q_sql query).
  { unfold Tracing.tracesListSQL, Tracing.buildFilterConditions.
    cbn [TracingHandler.toTracesQueryParams Tracing.t_Scope Tracing.s_Namespace
         Tracing.s_ProjectID Tracing.s_ComponentID Tracing.s_EnvironmentID].
    fold scope. rewrite Hns, Hp, Hc, He. cbn [isEmpty String.eqb app q_sql query].
    now rewrite !append_assoc. }
  rewrite Hsql.
  cbn [TracingHandler.toTracesQueryParams Tracing.t_StartTime Tracing.t_EndTime q_sql query].
  fold query.
  rewrite (tracing_executeSearchQuery_Ok transport decode _ _ _ _ Htr Hdec).
  reflexivity.
Qed.

Lemma QueryTraces_without_scope_witness :
  value (TracingHandler.QueryTraces Examples.emptyBackend
           (fun _ => Ok (mkOpenObserveResponse 3 TraceExamples.rootAndChild 40))
           Examples.tracingClient
           (TracingHandler.mkTracesQueryRequest Examples.epoch Examples.epoch None None
              (TracingHandler.mkTracesSearchScope "" None None None)))
  = TracingHandler.JSON200
      {| Tracing.Traces := Tracing.buildTraces TraceExamples.rootAndChild;
         Tracing.tr_Total := Z.of_nat (length (Tracing.buildTraces TraceExamples.rootAndChild));
         Tracing.tr_TookMs := 3 |}.
Proof.
  exact (f_equal snd
           (QueryTraces_without_scope Examples.emptyBackend
              (fun _ => Ok (mkOpenObserveResponse 3 TraceExamples.rootAndChild 40))
              Examples.tracingClient
              (TracingHandler.mkTracesQueryRequest Examples.epoch Examples.epoch None None
                 (TracingHandler.mkTracesSearchScope "" None None None))
              "{}" (mkOpenObserveResponse 3 TraceExamples.rootAndChild 40)
              eq_refl eq_refl eq_refl eq_refl eq_refl eq_refl)).
Defined.
